(** * my-AI-calendar: the calendar assistant's decision logic, verified

    A shallow embedding of the parts of [App.jsx] and
    [components/CalendarGrid.jsx] that decide something:

    - the ECMAScript [Date] operations the code relies on (module [JSDate]);
    - the month grid of [CalendarGrid] (module [Grid]) and the marks on its
      cells (module [GridMarks]);
    - the proactive-suggestion effect ("event matcher") and the selected-day
      filter of [App] (module [Matcher]);
    - the Firestore collection the handlers write to (module [Firestore]);
    - the handlers [handleParseEvent] and [handleOptimizeSchedule], whose
      retry loops are written out twice in the source,
      [handleAcceptSuggestion] and [handleUpdateEvent] (module [App]);
    - the snapshot listener and [handleDeleteEvent] (module [AppStore]);
    - the navigation, the selection and the grouping of events of
      [CalendarGrid] (module [CalendarGrid]).

    The definitions come first, then the notions the statements use
    (modules [Spec] and [Notions]) and sample data (modules [Examples] and
    [Samples]), then the theorems.

    Conventions.  A JavaScript Number that the code only ever uses as an
    integer or NaN is an [option Z], [None] being NaN; a time value is
    such a Number of milliseconds since the epoch.  A property that may be
    [undefined] is an [option string].  An [async] handler is a function
    from the state before to the state after; the network answers through
    the list of its replies and the database through a function that says
    which writes it accepts.  The time zone has a constant offset.

    A JavaScript string is the list of the bytes of its UTF-8 encoding.
    Equality, emptiness, [split(':')], the digit tests and [trim] are read
    off the bytes exactly.  Two operations are defined on part of their
    domain only, and the statements that depend on them say so in their
    hypotheses: [toLowerCase] folds the letters A to Z, which is the whole
    of [String.prototype.toLowerCase] on ASCII text; [parse] reads the two
    forms the application builds, [YYYY-MM-DD] and [YYYY-MM-DDTHH:mm], and
    stands for nothing on other strings, where [Date.parse] reads further
    forms and falls back on the implementation's own. *)

From Stdlib Require Import ZArith Lia Bool List String Ascii DecimalString Sorted.
From stdpp Require Import base option list strings gmap.
Import ListNotations.

(** ** ECMAScript Date *)

Module JSDate.
Local Open Scope Z_scope.

Definition msPerDay : Z := 86400000.
Definition msPerHour : Z := 3600000.
Definition msPerMinute : Z := 60000.
Definition msPerSecond : Z := 1000.

(** A Number restricted to the integers and NaN. *)
Definition Num : Type := option Z.
Definition NaN : Num := None.

(** [a > b] on Numbers: false as soon as one side is NaN. *)
Definition num_gt (a b : Num) : bool :=
  match a, b with
  | Some x, Some y => y <? x
  | _, _ => false
  end.

(** [a < b] and [a <= b] on Numbers. *)
Definition num_lt (a b : Num) : bool := num_gt b a.

Definition num_le (a b : Num) : bool :=
  match a, b with
  | Some x, Some y => x <=? y
  | _, _ => false
  end.

(** [a === b] on Numbers: NaN is not equal to itself. *)
Definition num_eq (a b : Num) : bool :=
  match a, b with
  | Some x, Some y => x =? y
  | _, _ => false
  end.

(** [a - b] on Numbers. *)
Definition num_sub (a b : Num) : Num :=
  match a, b with
  | Some x, Some y => Some (x - y)
  | _, _ => None
  end.

(** *** Day number and time within day (ECMA-262, 21.4.1.3) *)

Definition Day (t : Z) : Z := t / msPerDay.
Definition TimeWithinDay (t : Z) : Z := t mod msPerDay.

(** *** Years (21.4.1.4 - 21.4.1.9) *)

Definition isLeapYear (y : Z) : bool :=
  (y mod 4 =? 0) && (negb (y mod 100 =? 0) || (y mod 400 =? 0)).

Definition DaysInYear (y : Z) : Z := if isLeapYear y then 366 else 365.

Definition DayFromYear (y : Z) : Z :=
  365 * (y - 1970) + (y - 1969) / 4 - (y - 1901) / 100 + (y - 1601) / 400.

(** The largest [y] with [DayFromYear y <= d]: the estimate from the mean
    year length is off by at most one, which the two tests repair. *)
Definition YearFromDay (d : Z) : Z :=
  let y := 1970 + (400 * d) / 146097 in
  if d <? DayFromYear y then y - 1
  else if DayFromYear (y + 1) <=? d then y + 1
  else y.

Definition YearFromTime (t : Z) : Z := YearFromDay (Day t).
Definition InLeapYear (t : Z) : Z := if isLeapYear (YearFromTime t) then 1 else 0.
Definition DayWithinYear (t : Z) : Z := Day t - DayFromYear (YearFromTime t).

(** *** Months and dates (21.4.1.10 - 21.4.1.12) *)

(** Day within the year on which month [m] (0 = January) starts; [L] is 1
    in a leap year. *)
Definition monthStart (L m : Z) : Z :=
  match m with
  | 0 => 0
  | 1 => 31
  | 2 => 59 + L
  | 3 => 90 + L
  | 4 => 120 + L
  | 5 => 151 + L
  | 6 => 181 + L
  | 7 => 212 + L
  | 8 => 243 + L
  | 9 => 273 + L
  | 10 => 304 + L
  | 11 => 334 + L
  | _ => 365 + L
  end.

Definition monthOfDay (L dwy : Z) : Z :=
  if dwy <? 31 then 0
  else if dwy <? 59 + L then 1
  else if dwy <? 90 + L then 2
  else if dwy <? 120 + L then 3
  else if dwy <? 151 + L then 4
  else if dwy <? 181 + L then 5
  else if dwy <? 212 + L then 6
  else if dwy <? 243 + L then 7
  else if dwy <? 273 + L then 8
  else if dwy <? 304 + L then 9
  else if dwy <? 334 + L then 10
  else 11.

Definition MonthFromTime (t : Z) : Z := monthOfDay (InLeapYear t) (DayWithinYear t).

Definition DateFromTime (t : Z) : Z :=
  DayWithinYear t - monthStart (InLeapYear t) (MonthFromTime t) + 1.

(** *** Week day (21.4.1.13) *)

Definition WeekDay (t : Z) : Z := (Day t + 4) mod 7.

(** *** MakeTime, MakeDay, MakeDate, TimeClip (21.4.1.27 - 21.4.1.31) *)

Definition MakeTime (hour min sec ms : Z) : Z :=
  hour * msPerHour + min * msPerMinute + sec * msPerSecond + ms.

Definition MakeDay (year month date : Z) : Z :=
  let ym := year + month / 12 in
  let mn := month mod 12 in
  DayFromYear ym + monthStart (if isLeapYear ym then 1 else 0) mn + date - 1.

Definition MakeDate (day time : Z) : Z := day * msPerDay + time.

Definition TimeClip (t : Z) : Num :=
  if Z.abs t <=? 8640000000000000 then Some t else None.

(** Days in month [m] (1 = January) of year [y]. *)
Definition DaysInMonth (y m : Z) : Z :=
  let L := if isLeapYear y then 1 else 0 in
  monthStart L m - monthStart L (m - 1).

(** *** Strings *)

Definition digitVal (c : ascii) : option Z :=
  let n := Z.of_N (N_of_ascii c) in
  if (48 <=? n) && (n <=? 57) then Some (n - 48) else None.

Definition num2 (a b : ascii) : option Z :=
  x ← digitVal a; y ← digitVal b; Some (10 * x + y).

Definition num4 (a b c d : ascii) : option Z :=
  x ← num2 a b; y ← num2 c d; Some (100 * x + y).

(** The calendar date [YYYY-MM-DD] of the Date Time String Format
    (21.4.1.32), with the rest of the string. *)
Definition parseYMD (s : list ascii) : option (Z * Z * Z * list ascii) :=
  match s with
  | y1 :: y2 :: y3 :: y4 :: sep1 :: m1 :: m2 :: sep2 :: d1 :: d2 :: rest =>
      if Ascii.eqb sep1 "-" && Ascii.eqb sep2 "-" then
        y ← num4 y1 y2 y3 y4;
        m ← num2 m1 m2;
        d ← num2 d1 d2;
        if (1 <=? m) && (m <=? 12) && (1 <=? d) && (d <=? DaysInMonth y m)
        then Some (y, m, d, rest) else None
      else None
  | _ => None
  end.

(** The time of day [HH:mm] of the same format. *)
Definition parseHM (s : list ascii) : option (Z * Z) :=
  match s with
  | [h1; h2; sep; m1; m2] =>
      if Ascii.eqb sep ":" then
        h ← num2 h1 h2;
        m ← num2 m1 m2;
        if (h <=? 23) && (m <=? 59) then Some (h, m) else None
      else None
  | _ => None
  end.

(** [Number(s)] for the strings [split(':')] yields here: a run of decimal
    digits is its value and the empty string is 0.  Every other string is
    taken to NaN; JavaScript also reads signs, fractions, exponents, hex
    and surrounding blanks, none of which occurs in an [HH:MM] time. *)
Fixpoint digitsVal (acc : Z) (s : list ascii) : option Z :=
  match s with
  | [] => Some acc
  | c :: s' => d ← digitVal c; digitsVal (10 * acc + d) s'
  end.

Definition Number (s : string) : Num := digitsVal 0 (list_ascii_of_string s).

(** [s.split(':')]. *)
Fixpoint split_colon (cur : list ascii) (s : list ascii) : list string :=
  match s with
  | [] => [string_of_list_ascii (rev cur)]
  | c :: s' =>
      if Ascii.eqb c ":"%char
      then string_of_list_ascii (rev cur) :: split_colon [] s'
      else split_colon (c :: cur) s'
  end.

Definition split (s : string) : list string := split_colon [] (list_ascii_of_string s).

(** [String(n)] for an integer. *)
Definition showZ (n : Z) : string := NilZero.string_of_int (Z.to_int n).

(** [s.toLowerCase()] on ASCII text, where it folds the letters A to Z and
    nothing else.  Letters outside ASCII are left as they are, which is not
    what JavaScript does: the statements that depend on the folding assume
    ASCII text. *)
Definition lowerChar (c : ascii) : ascii :=
  let n := N_of_ascii c in
  if ((65 <=? n) && (n <=? 90))%N then ascii_of_N (n + 32) else c.

Fixpoint toLowerCase (s : string) : string :=
  match s with
  | EmptyString => EmptyString
  | String c s' => String (lowerChar c) (toLowerCase s')
  end.

(** *** Date objects in a zone of constant offset

    [LocalTZA] is the zone's offset from UTC in milliseconds, positive
    east of Greenwich; daylight-saving transitions are not modelled. *)

Section Zone.
Variable LocalTZA : Z.

Definition LocalTime (t : Z) : Z := t + LocalTZA.
Definition UTC (t : Z) : Z := t - LocalTZA.

(** [Date.parse] on the two forms the application builds: a date-only
    string [YYYY-MM-DD] is UTC midnight, a date-time string
    [YYYY-MM-DDTHH:mm] without offset is local time.  On every other
    string the result here is NaN and stands for nothing: ECMAScript also
    reads seconds, milliseconds, [Z] and [+HH:mm] offsets and [24:00], and
    leaves the rest to the implementation (V8 reads [2025-8-4] and
    [2025-02-30]).  The statements that go through [parse] therefore assume
    dates and times of the two forms. *)
Definition parse (s : string) : Num :=
  match parseYMD (list_ascii_of_string s) with
  | Some (y, m, d, []) => TimeClip (MakeDate (MakeDay y (m - 1) d) 0)
  | Some (y, m, d, sep :: hm) =>
      if Ascii.eqb sep "T" then
        '(h, mi) ← parseHM hm;
        TimeClip (UTC (MakeDate (MakeDay y (m - 1) d) (MakeTime h mi 0 0)))
      else None
  | None => None
  end.

(** [new Date(year, month, date)]: a year from 0 to 99 means 1900 + year. *)
Definition MakeFullYear (year : Z) : Z :=
  if (0 <=? year) && (year <=? 99) then 1900 + year else year.

Definition newDate3 (year month date : Z) : Num :=
  TimeClip (UTC (MakeDate (MakeDay (MakeFullYear year) month date) (MakeTime 0 0 0 0))).

(** [d.setHours(hour, min, sec, ms)], returning the new time value. *)
Definition setHours (d : Num) (hour min : Num) (sec ms : Z) : Num :=
  t ← d; h ← hour; m ← min;
  TimeClip (UTC (MakeDate (Day (LocalTime t)) (MakeTime h m sec ms))).

Definition getDate (d : Num) : Num := t ← d; Some (DateFromTime (LocalTime t)).
Definition getDay (d : Num) : Num := t ← d; Some (WeekDay (LocalTime t)).
Definition getMonth (d : Num) : Num := t ← d; Some (MonthFromTime (LocalTime t)).
Definition getFullYear (d : Num) : Num := t ← d; Some (YearFromTime (LocalTime t)).

(** [d.toDateString()]: the text "Www Mmm DD YYYY" is kept as the four
    numbers it prints, and "Invalid Date" as [None]. *)
Definition toDateString (d : Num) : option (Z * Z * Z * Z) :=
  t ← d;
  let l := LocalTime t in
  Some (WeekDay l, MonthFromTime l, DateFromTime l, YearFromTime l).

End Zone.

End JSDate.

Import JSDate.

(** ** Arrays *)

Module JSArray.

(** [Array.prototype.sort(comparefn)].  A comparator result of NaN counts
    as 0 (SortCompare), and the sort is stable: this is insertion from the
    right, which puts an element before the first one it does not exceed. *)
Section Sort.
Context {A : Type} (comparefn : A -> A -> Num).

Definition SortCompare (x y : A) : Z := default 0%Z (comparefn x y).

Fixpoint insert_sorted (x : A) (l : list A) : list A :=
  match l with
  | [] => [x]
  | y :: l' =>
      if (0 <? SortCompare x y)%Z then y :: insert_sorted x l' else x :: y :: l'
  end.

Fixpoint sort (l : list A) : list A :=
  match l with
  | [] => []
  | x :: l' => insert_sorted x (sort l')
  end.

End Sort.

End JSArray.

(** ** The month grid of [CalendarGrid.jsx] *)

Module Grid.
Local Open Scope Z_scope.

Section Zone.
Variable LocalTZA : Z.

(** [new Date(year, month + 1, 0).getDate()] *)
Definition getDaysInMonth (year month : Z) : Num :=
  getDate LocalTZA (newDate3 LocalTZA year (month + 1) 0).

(** [new Date(year, month, 1).getDay()] *)
Definition getFirstDayOfMonth (year month : Z) : Num :=
  getDay LocalTZA (newDate3 LocalTZA year month 1).

(** [for (let i = i0; cond(i); i++) calendarDays.push(cell(i))], started
    at [i] on the array built so far.  A cell is a day number or [None]
    for [null]. *)
Fixpoint for_push (fuel : nat) (cond : Z -> bool) (cell : Z -> option Z)
    (i : Z) (calendarDays : list (option Z)) : list (option Z) :=
  match fuel with
  | O => calendarDays
  | S fuel' =>
      if cond i then for_push fuel' cond cell (i + 1) (calendarDays ++ [cell i])
      else calendarDays
  end.

(** Tests of the loop condition needed when counting up to [bound]. *)
Definition tests (bound : Num) : nat :=
  match bound with
  | Some b => S (Z.to_nat (b + 1))
  | None => 1%nat
  end.

Definition calendarDays (currentYear currentMonth : Z) : list (option Z) :=
  let daysInMonth := getDaysInMonth currentYear currentMonth in
  let firstDayOfMonth := getFirstDayOfMonth currentYear currentMonth in
  let calendarDays := [] in
  let calendarDays :=
    for_push (tests firstDayOfMonth) (fun i => num_lt (Some i) firstDayOfMonth)
             (fun _ => None) 0 calendarDays in
  for_push (tests daysInMonth) (fun i => num_le (Some i) daysInMonth)
           (fun i => Some i) 1 calendarDays.

(** [handleDayClick(day)] followed by the effect that reports the selection:
    [new Date(currentYear, currentMonth, day)], then [setHours(0, 0, 0, 0)]. *)
Definition selectDay (currentYear currentMonth day : Z) : Num :=
  setHours LocalTZA (newDate3 LocalTZA currentYear currentMonth day) (Some 0) (Some 0) 0 0.

End Zone.

End Grid.

(** ** The proactive suggestion and the day filter of [App] *)

Module Matcher.
Local Open Scope Z_scope.

(** An event of the [events] state: a Firestore document with its id. *)
Record Event : Type := {
  id : string;
  title : string;
  date : string;
  time : string;
  description : option string;
  locationType : option string
}.

Section Zone.
Variable LocalTZA : Z.
(** The reading of the clock, [new Date()]; the readings taken while one
    effect runs are taken to be the same instant. *)
Variable now : Z.

(** [d.setHours(0, 0, 0, 0)] *)
Definition startOfDay (d : Num) : Num := setHours LocalTZA d (Some 0) (Some 0) 0 0.

(** [event.locationType && event.locationType.toLowerCase() ===
    mockCurrentLocationType.toLowerCase()] *)
Definition locationMatches (mockCurrentLocationType : string) (event : Event) : bool :=
  match locationType event with
  | Some l =>
      negb (String.eqb l "")
      && String.eqb (toLowerCase l) (toLowerCase mockCurrentLocationType)
  | None => false
  end.

(** [const [eventHour, eventMinute] = event.time.split(':').map(Number)]:
    a missing element is [undefined], which [setHours] reads as NaN. *)
Definition hourMinute (t : string) : Num * Num :=
  let parts := map Number (split t) in
  (default NaN (parts !! 0%nat), default NaN (parts !! 1%nat)).

(** The callback of [events.filter] in the suggestion effect. *)
Definition isMatchingUpcoming (mockCurrentLocationType : string) (event : Event) : bool :=
  let today := startOfDay (Some now) in
  let eventDate := startOfDay (parse LocalTZA (date event)) in
  let isUpcoming := num_gt eventDate today in
  if bool_decide (toDateString LocalTZA eventDate = toDateString LocalTZA today) then
    let '(eventHour, eventMinute) := hourMinute (time event) in
    let eventDateTime := setHours LocalTZA (Some now) eventHour eventMinute 0 0 in
    locationMatches mockCurrentLocationType event && num_gt eventDateTime (Some now)
  else
    locationMatches mockCurrentLocationType event && isUpcoming.

(** [new Date(`${e.date}T${e.time}`).getTime()] *)
Definition timestamp (e : Event) : Num :=
  parse LocalTZA (date e +:+ "T" +:+ time e).

(** The comparator of both sorts. *)
Definition byTimestamp (a b : Event) : Num := num_sub (timestamp a) (timestamp b).

Definition matchingUpcomingEvents (mockCurrentLocationType : string)
    (events : list Event) : list Event :=
  JSArray.sort byTimestamp (filter (fun e => isMatchingUpcoming mockCurrentLocationType e = true) events).

(** The suggestion effect, reduced to the event it stores in
    [proactiveSuggestion.eventDetails]; [None] is [setProactiveSuggestion(null)]. *)
Definition proactiveSuggestion (mockCurrentLocationType : string)
    (events : list Event) : option Event :=
  if String.eqb mockCurrentLocationType "" || (length events =? 0)%nat then None
  else head (matchingUpcomingEvents mockCurrentLocationType events).

(** The day-filter effect: the value given to [setFilteredEvents]. *)
Definition filteredEvents (events : list Event) (selectedDate : Num) : list Event :=
  let normalizedSelectedSelectedDate := startOfDay selectedDate in
  filter (fun event =>
            num_eq (startOfDay (parse LocalTZA (date event)))
                   normalizedSelectedSelectedDate = true) events.

End Zone.

End Matcher.

(** ** The event marks of the grid cells, [CalendarGrid.jsx] *)

Module GridMarks.
Local Open Scope Z_scope.

(** [String(n).padStart(2, '0')] *)
Definition pad2 (n : Z) : string :=
  let s := showZ n in
  if (String.length s <? 2)%nat then "0" +:+ s else s.

(** The [dateString] of the cell of [day]. *)
Definition dateString (currentYear currentMonth day : Z) : string :=
  showZ currentYear +:+ "-" +:+ pad2 (currentMonth + 1) +:+ "-" +:+ pad2 day.

(** [eventsByDate[dateKey]], the events grouped under a date key. *)
Definition eventsByDate (events : list Matcher.Event) (dateKey : string)
    : list Matcher.Event :=
  filter (fun event => Matcher.date event = dateKey) events.

(** [hasEvents] of the cell of [day]. *)
Definition hasEvents (events : list Matcher.Event) (currentYear currentMonth day : Z) : bool :=
  negb (length (eventsByDate events (dateString currentYear currentMonth day)) =? 0)%nat.

End GridMarks.

(** ** The Firestore collection [users/{userId}/calendarEvents] *)

Module Firestore.

(** The five properties of an event object.  [None] is a property that is
    missing or [undefined]. *)
Record Fields : Type := {
  title : option string;
  date : option string;
  time : option string;
  description : option string;
  locationType : option string
}.

(** The writes the application issues. *)
Inductive Call : Type :=
  | setDoc (data : Fields)                  (* setDoc(doc(collection), data) *)
  | updateDoc (id : string) (data : Fields) (* updateDoc(doc(collection, id), data) *)
  | deleteDoc (id : string).                (* deleteDoc(doc(collection, id)) *)

(** The documents of the collection, and the writes attempted so far. *)
Record Db : Type := {
  docs : gmap string Fields;
  calls : list Call
}.

Definition isUndefined (v : option string) : bool :=
  match v with
  | Some _ => false
  | None => true
  end.

Definition hasUndefined (d : Fields) : bool :=
  isUndefined (title d) || isUndefined (date d) || isUndefined (time d)
  || isUndefined (description d) || isUndefined (locationType d).

(** [updateDoc] replaces the properties its argument has and keeps the rest. *)
Definition merge (old upd : Fields) : Fields := {|
  title := from_option Some (title old) (title upd);
  date := from_option Some (date old) (date upd);
  time := from_option Some (time old) (time upd);
  description := from_option Some (description old) (description upd);
  locationType := from_option Some (locationType old) (locationType upd)
|}.

(** [doc(collection)] picks an id no document has. *)
Definition newId (m : gmap string Fields) : string := fresh (dom m).

Section Backend.
(** Whether the backend accepts the n-th write attempted (security rules,
    quota, availability); a write it refuses rejects the awaited promise. *)
Variable accepts : nat -> bool.

Definition logged (c : Call) (db : Db) : Db :=
  {| docs := docs db; calls := calls db ++ [c] |}.

(** One awaited write: the database after it, and the message of the error
    thrown if the promise is rejected.  [setDoc] refuses [undefined]
    property values, [updateDoc] needs the document to exist, [deleteDoc]
    of a missing document succeeds. *)
Definition perform (c : Call) (db : Db) : Db * option string :=
  let n := length (calls db) in
  let db' := logged c db in
  match c with
  | setDoc data =>
      if hasUndefined data then (db', Some "Unsupported field value: undefined")
      else if accepts n
      then ({| docs := <[newId (docs db) := data]> (docs db); calls := calls db' |}, None)
      else (db', Some "permission-denied")
  | updateDoc id data =>
      if accepts n then
        match docs db !! id with
        | Some old => ({| docs := <[id := merge old data]> (docs db); calls := calls db' |}, None)
        | None => (db', Some "not-found")
        end
      else (db', Some "permission-denied")
  | deleteDoc id =>
      if accepts n
      then ({| docs := delete id (docs db); calls := calls db' |}, None)
      else (db', Some "permission-denied")
  end.

End Backend.

End Firestore.

(** ** The handlers of [App] *)

Module App.
Local Open Scope Z_scope.

(** One element of [suggestion.changes], as the LLM returns it. *)
Record Change : Type := {
  type : string;
  eventTitle : option string;
  eventId : option string;
  oldTime : option string;
  newTime : option string;
  eventDetails : option Firestore.Fields
}.

Record Suggestion : Type := {
  description : string;
  changes : list Change
}.

(** [editFormData] *)
Record EditForm : Type := {
  title : string;
  date : string;
  time : string;
  formDescription : string;
  locationType : string
}.

(** What a retry loop does on the network, in the order it does it: a
    [fetch] call, or a delay awaited before the next one. *)
Inductive Effect : Type :=
  | Request            (* await fetch(apiUrl, ...) *)
  | Delay (ms : Z).    (* await new Promise(res => setTimeout(res, ms)) *)

(** The component state the handlers read and write, together with what
    they did to the outside: the database with its log of writes, the
    number of [fetch] calls, the delays awaited, the changes warned
    about on the console, and the requests and delays in the order they
    happened. *)
Record State : Type := {
  db : Firestore.Db;
  ready : bool;                                   (* db && userId *)
  eventInput : string;
  parsedEvent : option Firestore.Fields;
  events : list (string * Firestore.Fields);      (* local fallback entries *)
  isLoading : bool;
  isOptimizing : bool;
  error : string;
  optimizationInput : string;
  optimizedSuggestions : option (list Suggestion);
  editingEvent : option Matcher.Event;
  editFormData : EditForm;
  fetches : nat;
  waits : list Z;
  warned : list Change;
  trace : list Effect
}.

Definition setDb (v : Firestore.Db) (s : State) : State :=
  {| db := v; ready := ready s; eventInput := eventInput s; parsedEvent := parsedEvent s;
     events := events s; isLoading := isLoading s; isOptimizing := isOptimizing s;
     error := error s; optimizationInput := optimizationInput s;
     optimizedSuggestions := optimizedSuggestions s; editingEvent := editingEvent s;
     editFormData := editFormData s; fetches := fetches s; waits := waits s;
     warned := warned s; trace := trace s |}.

Definition setEventInput (v : string) (s : State) : State :=
  {| db := db s; ready := ready s; eventInput := v; parsedEvent := parsedEvent s;
     events := events s; isLoading := isLoading s; isOptimizing := isOptimizing s;
     error := error s; optimizationInput := optimizationInput s;
     optimizedSuggestions := optimizedSuggestions s; editingEvent := editingEvent s;
     editFormData := editFormData s; fetches := fetches s; waits := waits s;
     warned := warned s; trace := trace s |}.

Definition setParsedEvent (v : option Firestore.Fields) (s : State) : State :=
  {| db := db s; ready := ready s; eventInput := eventInput s; parsedEvent := v;
     events := events s; isLoading := isLoading s; isOptimizing := isOptimizing s;
     error := error s; optimizationInput := optimizationInput s;
     optimizedSuggestions := optimizedSuggestions s; editingEvent := editingEvent s;
     editFormData := editFormData s; fetches := fetches s; waits := waits s;
     warned := warned s; trace := trace s |}.

Definition setEvents (v : list (string * Firestore.Fields)) (s : State) : State :=
  {| db := db s; ready := ready s; eventInput := eventInput s; parsedEvent := parsedEvent s;
     events := v; isLoading := isLoading s; isOptimizing := isOptimizing s;
     error := error s; optimizationInput := optimizationInput s;
     optimizedSuggestions := optimizedSuggestions s; editingEvent := editingEvent s;
     editFormData := editFormData s; fetches := fetches s; waits := waits s;
     warned := warned s; trace := trace s |}.

Definition setIsLoading (v : bool) (s : State) : State :=
  {| db := db s; ready := ready s; eventInput := eventInput s; parsedEvent := parsedEvent s;
     events := events s; isLoading := v; isOptimizing := isOptimizing s;
     error := error s; optimizationInput := optimizationInput s;
     optimizedSuggestions := optimizedSuggestions s; editingEvent := editingEvent s;
     editFormData := editFormData s; fetches := fetches s; waits := waits s;
     warned := warned s; trace := trace s |}.

Definition setIsOptimizing (v : bool) (s : State) : State :=
  {| db := db s; ready := ready s; eventInput := eventInput s; parsedEvent := parsedEvent s;
     events := events s; isLoading := isLoading s; isOptimizing := v;
     error := error s; optimizationInput := optimizationInput s;
     optimizedSuggestions := optimizedSuggestions s; editingEvent := editingEvent s;
     editFormData := editFormData s; fetches := fetches s; waits := waits s;
     warned := warned s; trace := trace s |}.

Definition setError (v : string) (s : State) : State :=
  {| db := db s; ready := ready s; eventInput := eventInput s; parsedEvent := parsedEvent s;
     events := events s; isLoading := isLoading s; isOptimizing := isOptimizing s;
     error := v; optimizationInput := optimizationInput s;
     optimizedSuggestions := optimizedSuggestions s; editingEvent := editingEvent s;
     editFormData := editFormData s; fetches := fetches s; waits := waits s;
     warned := warned s; trace := trace s |}.

Definition setOptimizationInput (v : string) (s : State) : State :=
  {| db := db s; ready := ready s; eventInput := eventInput s; parsedEvent := parsedEvent s;
     events := events s; isLoading := isLoading s; isOptimizing := isOptimizing s;
     error := error s; optimizationInput := v;
     optimizedSuggestions := optimizedSuggestions s; editingEvent := editingEvent s;
     editFormData := editFormData s; fetches := fetches s; waits := waits s;
     warned := warned s; trace := trace s |}.

Definition setOptimizedSuggestions (v : option (list Suggestion)) (s : State) : State :=
  {| db := db s; ready := ready s; eventInput := eventInput s; parsedEvent := parsedEvent s;
     events := events s; isLoading := isLoading s; isOptimizing := isOptimizing s;
     error := error s; optimizationInput := optimizationInput s;
     optimizedSuggestions := v; editingEvent := editingEvent s;
     editFormData := editFormData s; fetches := fetches s; waits := waits s;
     warned := warned s; trace := trace s |}.

Definition setEditingEvent (v : option Matcher.Event) (s : State) : State :=
  {| db := db s; ready := ready s; eventInput := eventInput s; parsedEvent := parsedEvent s;
     events := events s; isLoading := isLoading s; isOptimizing := isOptimizing s;
     error := error s; optimizationInput := optimizationInput s;
     optimizedSuggestions := optimizedSuggestions s; editingEvent := v;
     editFormData := editFormData s; fetches := fetches s; waits := waits s;
     warned := warned s; trace := trace s |}.

Definition setEditFormData (v : EditForm) (s : State) : State :=
  {| db := db s; ready := ready s; eventInput := eventInput s; parsedEvent := parsedEvent s;
     events := events s; isLoading := isLoading s; isOptimizing := isOptimizing s;
     error := error s; optimizationInput := optimizationInput s;
     optimizedSuggestions := optimizedSuggestions s; editingEvent := editingEvent s;
     editFormData := v; fetches := fetches s; waits := waits s;
     warned := warned s; trace := trace s |}.

(** [await fetch(...)]: one more request went out. *)
Definition fetched (s : State) : State :=
  {| db := db s; ready := ready s; eventInput := eventInput s; parsedEvent := parsedEvent s;
     events := events s; isLoading := isLoading s; isOptimizing := isOptimizing s;
     error := error s; optimizationInput := optimizationInput s;
     optimizedSuggestions := optimizedSuggestions s; editingEvent := editingEvent s;
     editFormData := editFormData s; fetches := S (fetches s); waits := waits s;
     warned := warned s; trace := trace s ++ [Request] |}.

(** [await new Promise(res => setTimeout(res, delay))] *)
Definition waited (delay : Z) (s : State) : State :=
  {| db := db s; ready := ready s; eventInput := eventInput s; parsedEvent := parsedEvent s;
     events := events s; isLoading := isLoading s; isOptimizing := isOptimizing s;
     error := error s; optimizationInput := optimizationInput s;
     optimizedSuggestions := optimizedSuggestions s; editingEvent := editingEvent s;
     editFormData := editFormData s; fetches := fetches s; waits := waits s ++ [delay];
     warned := warned s; trace := trace s ++ [Delay delay] |}.

(** [console.warn("Unknown or incomplete change type ...", change)] *)
Definition warn (change : Change) (s : State) : State :=
  {| db := db s; ready := ready s; eventInput := eventInput s; parsedEvent := parsedEvent s;
     events := events s; isLoading := isLoading s; isOptimizing := isOptimizing s;
     error := error s; optimizationInput := optimizationInput s;
     optimizedSuggestions := optimizedSuggestions s; editingEvent := editingEvent s;
     editFormData := editFormData s; fetches := fetches s; waits := waits s;
     warned := warned s ++ [change]; trace := trace s |}.

(** Truthiness of a string-valued property. *)
Definition truthy (v : option string) : bool :=
  match v with
  | Some s => negb (String.eqb s "")
  | None => false
  end.

(** [v || ''] *)
Definition orEmpty (v : option string) : string :=
  if truthy v then default "" v else "".

(** The ASCII white space [trim] strips: space, tab, line feed, vertical
    tab, form feed and carriage return. *)
Definition isWhiteSpace (c : ascii) : bool :=
  let n := N_of_ascii c in ((n =? 32) || ((9 <=? n) && (n <=? 13)))%N.

(** The white space [trim] strips beyond ASCII, in UTF-8: U+00A0 in two
    bytes; U+1680, U+2000 to U+200A, U+2028, U+2029, U+202F, U+205F,
    U+3000 and U+FEFF in three. *)
Definition isWhiteSpace2 (a b : ascii) : bool :=
  ((N_of_ascii a =? 194) && (N_of_ascii b =? 160))%N.

Definition isWhiteSpace3 (a b c : ascii) : bool :=
  let x := N_of_ascii a in
  let y := N_of_ascii b in
  let z := N_of_ascii c in
  (((x =? 225) && (y =? 154) && (z =? 128))
   || ((x =? 226) && (y =? 128)
       && (((128 <=? z) && (z <=? 138)) || (z =? 168) || (z =? 169) || (z =? 175)))
   || ((x =? 226) && (y =? 129) && (z =? 159))
   || ((x =? 227) && (y =? 128) && (z =? 128))
   || ((x =? 239) && (y =? 187) && (z =? 191)))%N.

(** Whether the text is white space from end to end. *)
Fixpoint allWhiteSpace (l : list ascii) : bool :=
  match l with
  | [] => true
  | a :: l1 =>
      if isWhiteSpace a then allWhiteSpace l1 else
      match l1 with
      | b :: l2 =>
          if isWhiteSpace2 a b then allWhiteSpace l2 else
          match l2 with
          | c :: l3 => isWhiteSpace3 a b c && allWhiteSpace l3
          | [] => false
          end
      | [] => false
      end
  end.

(** [!s.trim()] *)
Definition isBlank (s : string) : bool := allWhiteSpace (list_ascii_of_string s).

(** What the network delivers for one [fetch]; [A] is the shape the
    handler expects [JSON.parse] to return. *)
Inductive Text (A : Type) : Type :=
  | NotJson            (* JSON.parse throws, or returns null *)
  | Json (v : A).

Inductive Reply (A : Type) : Type :=
  | Rejected                    (* fetch throws *)
  | NotOk (status : Z)          (* response.ok is false *)
  | NoCandidates                (* ok, without candidates[0].content.parts[0] *)
  | Candidate (text : Text A).  (* ok, with the text of the first part *)

Arguments NotJson {A}.
Arguments Json {A} v.
Arguments Rejected {A}.
Arguments NotOk {A} status.
Arguments NoCandidates {A}.
Arguments Candidate {A} text.

Definition isDigit (c : ascii) : bool :=
  let n := N_of_ascii c in ((48 <=? n) && (n <=? 57))%N.

(** The year inference on [parsed.date]: [/^\d{2}-\d{2}$/] gets the current
    year in front, [/^\d{2}-\d{2}-\d{2}$/] gets "20". *)
Definition inferYear (fullYear : Z) (finalDate : string) : string :=
  match list_ascii_of_string finalDate with
  | [a; b; sep; c; d] =>
      if isDigit a && isDigit b && Ascii.eqb sep "-" && isDigit c && isDigit d
      then showZ fullYear +:+ "-" +:+ finalDate else finalDate
  | [a; b; sep1; c; d; sep2; e; f] =>
      if isDigit a && isDigit b && Ascii.eqb sep1 "-" && isDigit c && isDigit d
         && Ascii.eqb sep2 "-" && isDigit e && isDigit f
      then "20" +:+ finalDate else finalDate
  | _ => finalDate
  end.

Section Handlers.
Variable accepts : nat -> bool.   (* the backend, see [Firestore.perform] *)
Variable LocalTZA : Z.
Variable now : Z.                 (* new Date(), Date.now() *)
Variable maxRetries : Z.
Variable baseDelay : Z.

Definition currentYear : Z := YearFromTime (LocalTime LocalTZA now).

(** The [catch (fetchError)] block shared by both loops, up to the text of
    the terminal message. *)
Definition onFetchError (terminal : string) (retries : Z) (s : State) : State :=
  if retries <? maxRetries
  then waited (baseDelay * 2 ^ (retries - 1)) s
  else setError terminal s.

Definition parseTerminal : string :=
  "Failed to get a valid response from LLM after " +:+ showZ maxRetries
  +:+ " attempts. Please check your prompt or ensure your API key is correct and try again later.".

(** The body of the innermost [if] of [handleParseEvent]: build the event
    and save it.  [None] is [break]; the error otherwise is the one thrown
    into [catch (parseError)]. *)
Definition saveParsed (parsed : Firestore.Fields) (s : State) : State * option string :=
  let finalDate := inferYear currentYear (default "" (Firestore.date parsed)) in
  let finalParsedEvent := {|
    Firestore.title := Firestore.title parsed;
    Firestore.date := Some finalDate;
    Firestore.time := Firestore.time parsed;
    Firestore.description := Some (orEmpty (Firestore.description parsed));
    Firestore.locationType := Some (orEmpty (Firestore.locationType parsed))
  |} in
  let s := setParsedEvent (Some finalParsedEvent) s in
  if ready s then
    match Firestore.perform accepts (Firestore.setDoc finalParsedEvent) (db s) with
    | (db', None) => (setEventInput "" (setDb db' s), None)
    | (db', Some e) => (setDb db' s, Some e)
    end
  else
    (setEventInput "" (setEvents (events s ++ [(showZ now, finalParsedEvent)]) s), None).

(** The [while (retries < maxRetries)] loop of [handleParseEvent], run
    against the replies the network gives to the successive requests.  The
    flag tells whether the loop has exited; it is [false] when the loop
    is about to issue a request no reply is listed for. *)
Fixpoint parseLoop (replies : list (Reply Firestore.Fields)) (retries : Z) (s : State)
    : State * bool :=
  if negb (retries <? maxRetries) then (s, true) else
  match replies with
  | [] => (s, false)
  | reply :: replies' =>
      let s := fetched s in
      match reply with
      | Rejected | NotOk _ =>
          let retries := retries + 1 in
          parseLoop replies' retries (setIsLoading false (onFetchError parseTerminal retries s))
      | NoCandidates =>
          parseLoop replies' retries
            (setIsLoading false (setError "LLM response was empty or malformed. Please try again." s))
      | Candidate NotJson =>
          parseLoop replies' retries
            (setIsLoading false (setError "Failed to parse LLM response JSON. The AI might have returned an unexpected format. Please try again." s))
      | Candidate (Json parsed) =>
          if truthy (Firestore.title parsed) && truthy (Firestore.date parsed)
             && truthy (Firestore.time parsed)
          then
            match saveParsed parsed s with
            | (s, None) => (setIsLoading false s, true)
            | (s, Some _) =>
                parseLoop replies' retries
                  (setIsLoading false (setError "Failed to parse LLM response JSON. The AI might have returned an unexpected format. Please try again." s))
            end
          else
            parseLoop replies' retries
              (setIsLoading false (setError "LLM returned incomplete or invalid event data. Please try rephrasing." s))
      end
  end.

Definition handleParseEvent (geminiApiKey : option string)
    (replies : list (Reply Firestore.Fields)) (s : State) : State * bool :=
  if isBlank (eventInput s) then
    (setParsedEvent None (setError "Please enter an event description." s), true)
  else
    let s := setParsedEvent None (setError "" (setIsLoading true s)) in
    if negb (truthy geminiApiKey) then
      (setIsLoading false (setError "Gemini API Key is missing from .env file. Please add VITE_GEMINI_API_KEY." s), true)
    else parseLoop replies 0 s.

Definition optimizeTerminal : string :=
  "Failed to get a valid response from LLM for optimization after " +:+ showZ maxRetries
  +:+ " attempts.".

(** The loop of [handleOptimizeSchedule]; [parsedSuggestions.suggestions]
    is [Some] when it is an array. *)
Fixpoint optimizeLoop (replies : list (Reply (option (list Suggestion)))) (retries : Z)
    (s : State) : State * bool :=
  if negb (retries <? maxRetries) then (s, true) else
  match replies with
  | [] => (s, false)
  | reply :: replies' =>
      let s := fetched s in
      match reply with
      | Rejected | NotOk _ =>
          let retries := retries + 1 in
          optimizeLoop replies' retries
            (setIsOptimizing false (onFetchError optimizeTerminal retries s))
      | NoCandidates =>
          optimizeLoop replies' retries
            (setIsOptimizing false (setError "LLM optimization response was empty or malformed. Please try again." s))
      | Candidate NotJson =>
          optimizeLoop replies' retries
            (setIsOptimizing false (setError "Failed to parse LLM optimization response JSON. Please try again." s))
      | Candidate (Json (Some suggestions)) =>
          (setIsOptimizing false (setOptimizationInput "" (setOptimizedSuggestions (Some suggestions) s)), true)
      | Candidate (Json None) =>
          optimizeLoop replies' retries
            (setIsOptimizing false (setError "LLM returned an invalid suggestion format. Please try rephrasing." s))
      end
  end.

Definition handleOptimizeSchedule (geminiApiKey : option string)
    (replies : list (Reply (option (list Suggestion)))) (s : State) : State * bool :=
  if isBlank (optimizationInput s) then
    (setError "Please describe the schedule change or task for optimization." s, true)
  else
    let s := setOptimizedSuggestions None (setError "" (setIsOptimizing true s)) in
    if negb (truthy geminiApiKey) then
      (setIsOptimizing false (setError "Gemini API Key is missing. Cannot optimize schedule." s), true)
    else optimizeLoop replies 0 s.

(** [handleCloseEditModal] *)
Definition handleCloseEditModal (s : State) : State :=
  setError ""
    (setEditFormData {| title := ""; date := ""; time := ""; formDescription := "";
                        locationType := "" |}
       (setEditingEvent None s)).

(** [handleEditEvent(eventToEdit)] *)
Definition handleEditEvent (eventToEdit : Matcher.Event) (s : State) : State :=
  setEditFormData {|
      title := Matcher.title eventToEdit;
      date := Matcher.date eventToEdit;
      time := Matcher.time eventToEdit;
      formDescription := orEmpty (Matcher.description eventToEdit);
      locationType := orEmpty (Matcher.locationType eventToEdit)
    |} (setEditingEvent (Some eventToEdit) s).

(** [handleUpdateEvent] *)
Definition handleUpdateEvent (s : State) : State :=
  match editingEvent s with
  | Some editing =>
      if negb (ready s) then
        setError "Firebase is not initialized, user is not authenticated, or no event selected for editing." s
      else if String.eqb (title (editFormData s)) "" || String.eqb (date (editFormData s)) ""
              || String.eqb (time (editFormData s)) "" then
        setError "Title, Date, and Time are required for an event." s
      else
        let s := setError "" (setIsLoading true s) in
        match Firestore.perform accepts
                (Firestore.updateDoc (Matcher.id editing) {|
                   Firestore.title := Some (title (editFormData s));
                   Firestore.date := Some (date (editFormData s));
                   Firestore.time := Some (time (editFormData s));
                   Firestore.description := Some (formDescription (editFormData s));
                   Firestore.locationType := Some (locationType (editFormData s))
                 |}) (db s) with
        | (db', None) => setIsLoading false (handleCloseEditModal (setDb db' s))
        | (db', Some message) =>
            setIsLoading false (setError ("Failed to update event: " +:+ message) (setDb db' s))
        end
  | None =>
      setError "Firebase is not initialized, user is not authenticated, or no event selected for editing." s
  end.

(** An awaited write: the database moves on, and a rejection is the
    message of the error thrown at the [await]. *)
Definition await (c : Firestore.Call) (s : State) : State * option string :=
  let '(db', thrown) := Firestore.perform accepts c (db s) in (setDb db' s, thrown).

(** The [newEventData] of the [add] branch. *)
Definition newEventData (details : Firestore.Fields) : Firestore.Fields := {|
  Firestore.title := Firestore.title details;
  Firestore.date := Firestore.date details;
  Firestore.time := Firestore.time details;
  Firestore.description := Some (orEmpty (Firestore.description details));
  Firestore.locationType := Some (orEmpty (Firestore.locationType details))
|}.

(** The argument [{ time: change.newTime }] of the [move] branch. *)
Definition timeOnly (newTime : option string) : Firestore.Fields := {|
  Firestore.title := None;
  Firestore.date := None;
  Firestore.time := newTime;
  Firestore.description := None;
  Firestore.locationType := None
|}.

(** The body of the [for (const change of suggestionChanges)] loop of
    [handleAcceptSuggestion]. *)
Definition applyChange (change : Change) (s : State) : State * option string :=
  match String.eqb (type change) "add", eventDetails change with
  | true, Some details => await (Firestore.setDoc (newEventData details)) s
  | _, _ =>
      if String.eqb (type change) "move" && truthy (eventId change) && truthy (newTime change)
      then await (Firestore.updateDoc (orEmpty (eventId change)) (timeOnly (newTime change))) s
      else if String.eqb (type change) "delete" && truthy (eventId change)
      then await (Firestore.deleteDoc (orEmpty (eventId change))) s
      else (warn change s, None)
  end.

(** The loop itself, inside the [try]: an error thrown at an [await]
    leaves it, and the result carries that error's message. *)
Fixpoint applyChanges (suggestionChanges : list Change) (s : State) : State * option string :=
  match suggestionChanges with
  | [] => (s, None)
  | change :: rest =>
      match applyChange change s with
      | (s', None) => applyChanges rest s'
      | (s', Some message) => (s', Some message)
      end
  end.

(** [handleAcceptSuggestion(suggestionChanges)] *)
Definition handleAcceptSuggestion (suggestionChanges : list Change) (s : State) : State :=
  if negb (ready s) then
    setError "Firebase not initialized or user not authenticated. Cannot apply changes." s
  else
    let s := setError "" (setIsLoading true s) in
    match applyChanges suggestionChanges s with
    | (s, None) =>
        setIsLoading false (setOptimizationInput "" (setOptimizedSuggestions None s))
    | (s, Some message) =>
        setIsLoading false (setError ("Failed to apply optimization: " +:+ message) s)
    end.

End Handlers.

End App.

(** ** Notions the statements below are written in *)

Module Spec.
Local Open Scope Z_scope.

(** 1 in a leap year, 0 otherwise. *)
Definition leapFlag (y : Z) : Z := if isLeapYear y then 1 else 0.

(** Number of days of the month that [MakeDay year month 1] starts. *)
Definition monthLength (year month : Z) : Z :=
  let L := leapFlag (year + month / 12) in
  monthStart L (month mod 12 + 1) - monthStart L (month mod 12).

(** The years whose every day is a time value a Date can hold (the range
    ends in April -271821 and September 275760). *)
Definition yearInRange (year : Z) : Prop := -271820 <= year <= 275759.

(** A property is lacking when it is missing or [undefined]. *)
Definition lacks {A : Type} (v : option A) : bool :=
  match v with
  | Some _ => false
  | None => true
  end.

(** The changes the applier must skip: an add without details, a move
    without id or new time, a delete without id, and any other type. *)
Definition malformed (c : App.Change) : bool :=
  if String.eqb (App.type c) "add" then lacks (App.eventDetails c)
  else if String.eqb (App.type c) "move" then lacks (App.eventId c) || lacks (App.newTime c)
  else if String.eqb (App.type c) "delete" then lacks (App.eventId c)
  else true.

(** The write a change asks for, if any. *)
Definition callOf (c : App.Change) : option Firestore.Call :=
  match String.eqb (App.type c) "add", App.eventDetails c with
  | true, Some details => Some (Firestore.setDoc (App.newEventData details))
  | _, _ =>
      if String.eqb (App.type c) "move" && App.truthy (App.eventId c) && App.truthy (App.newTime c)
      then Some (Firestore.updateDoc (App.orEmpty (App.eventId c)) (App.timeOnly (App.newTime c)))
      else if String.eqb (App.type c) "delete" && App.truthy (App.eventId c)
      then Some (Firestore.deleteDoc (App.orEmpty (App.eventId c)))
      else None
  end.

(** A document with its time replaced and nothing else. *)
Definition withTime (t : string) (old : Firestore.Fields) : Firestore.Fields := {|
  Firestore.title := Firestore.title old;
  Firestore.date := Firestore.date old;
  Firestore.time := Some t;
  Firestore.description := Firestore.description old;
  Firestore.locationType := Firestore.locationType old
|}.

(** The reply is a transport failure: the request threw or came back with
    a non-success status. *)
Definition transportFailure {A : Type} (r : App.Reply A) : bool :=
  match r with
  | App.Rejected | App.NotOk _ => true
  | _ => false
  end.

(** The reply has a success status and a body of the wrong shape for
    [handleParseEvent]: no candidate text, text that is not JSON, or an
    object without one of title, date and time. *)
Definition parseShapeError (r : App.Reply Firestore.Fields) : bool :=
  match r with
  | App.NoCandidates | App.Candidate App.NotJson => true
  | App.Candidate (App.Json parsed) =>
      negb (App.truthy (Firestore.title parsed) && App.truthy (Firestore.date parsed)
            && App.truthy (Firestore.time parsed))
  | _ => false
  end.

(** The same for [handleOptimizeSchedule]: the object has no array of
    suggestions. *)
Definition optimizeShapeError (r : App.Reply (option (list App.Suggestion))) : bool :=
  match r with
  | App.NoCandidates | App.Candidate App.NotJson | App.Candidate (App.Json None) => true
  | _ => false
  end.

(** The wait after the [k]-th failed attempt. *)
Definition backoff (baseDelay k : Z) : Z := baseDelay * 2 ^ (k - 1).

(** What a run of transport failures does to a loop that has made
    [retries] attempts and has some left: it uses them all, waits between
    them, and ends with the terminal message; the database is not touched. *)
Definition exhausted (maxRetries baseDelay : Z) (terminal : string) (retries : Z)
    (s s' : App.State) : Prop :=
  App.fetches s' = (App.fetches s + Z.to_nat (maxRetries - retries))%nat
  /\ App.waits s'
     = App.waits s ++ (backoff baseDelay <$> seqZ (retries + 1) (maxRetries - retries - 1))
  /\ App.error s' = terminal
  /\ App.db s' = App.db s.

(** An event that may be stored: title, date and time are non-empty
    strings, description and locationType are present. *)
Definition persistable (f : Firestore.Fields) : bool :=
  App.truthy (Firestore.title f) && App.truthy (Firestore.date f)
  && App.truthy (Firestore.time f)
  && negb (Firestore.isUndefined (Firestore.description f))
  && negb (Firestore.isUndefined (Firestore.locationType f)).

Definition allPersistable (d : Firestore.Db) : Prop :=
  map_Forall (fun _ f => persistable f = true) (Firestore.docs d).

(** The calendar date an event's [date] string names, when it has the form
    [YYYY-MM-DD] and names a day that exists: year, month from 1, day. *)
Definition dateOf (e : Matcher.Event) : option (Z * Z * Z) :=
  match parseYMD (list_ascii_of_string (Matcher.date e)) with
  | Some (y, m, d, []) => Some (y, m, d)
  | _ => None
  end.

(** The time of day an event's [time] string names, when it has the form
    [HH:MM]. *)
Definition timeOf (e : Matcher.Event) : option (Z * Z) :=
  parseHM (list_ascii_of_string (Matcher.time e)).

(** The local calendar date of a time value: year, month from 1, day. *)
Definition localDate (LocalTZA t : Z) : Z * Z * Z :=
  let l := LocalTime LocalTZA t in
  (YearFromTime l, MonthFromTime l + 1, DateFromTime l).

(** The time value of a local date and time of day, month from 1. *)
Definition localInstant (LocalTZA y m d h mi : Z) : Z :=
  UTC LocalTZA (MakeDate (MakeDay y (m - 1) d) (MakeTime h mi 0 0)).

(** Dates the clock can show with a day to spare on either side. *)
Definition clockInRange (now : Z) : Prop := Z.abs now <= 8640000000000000 - 2 * msPerDay.

(** An event whose date and time have the forms of the data model. *)
Definition wellFormed (e : Matcher.Event) : Prop :=
  is_Some (dateOf e) /\ is_Some (timeOf e).

End Spec.

(** ** Sample data *)

Module Examples.
Local Open Scope Z_scope.

(** Two zones without daylight saving: UTC+05:30 and UTC-05:00. *)
Definition Kolkata : Z := 19800000.
Definition Bogota : Z := -18000000.

Definition standup : Matcher.Event := {|
  Matcher.id := "a";
  Matcher.title := "Standup";
  Matcher.date := "2025-08-04";
  Matcher.time := "14:00";
  Matcher.description := None;
  Matcher.locationType := Some "Office"
|}.

Definition review : Matcher.Event := {|
  Matcher.id := "b";
  Matcher.title := "Review";
  Matcher.date := "2025-08-06";
  Matcher.time := "09:00";
  Matcher.description := None;
  Matcher.locationType := Some "office"
|}.

Definition meeting : Firestore.Fields := {|
  Firestore.title := Some "Meeting with client";
  Firestore.date := Some "2025-08-04";
  Firestore.time := Some "10:00";
  Firestore.description := Some "";
  Firestore.locationType := Some "office"
|}.

Definition deepWork : Firestore.Fields := {|
  Firestore.title := Some "Deep work session";
  Firestore.date := Some "2025-08-04";
  Firestore.time := Some "14:00";
  Firestore.description := Some "";
  Firestore.locationType := Some ""
|}.

(** A signed-in session with two stored events and nothing in progress. *)
Definition idle : App.State := {|
  App.db := {| Firestore.docs := <["a" := meeting]> (<["b" := deepWork]> ∅);
               Firestore.calls := [] |};
  App.ready := true;
  App.eventInput := "lunch with Sarah tomorrow";
  App.parsedEvent := None;
  App.events := [];
  App.isLoading := false;
  App.isOptimizing := false;
  App.error := "";
  App.optimizationInput := "my meeting got cancelled";
  App.optimizedSuggestions := None;
  App.editingEvent := None;
  App.editFormData := {| App.title := ""; App.date := ""; App.time := "";
                         App.formDescription := ""; App.locationType := "" |};
  App.fetches := 0;
  App.waits := [];
  App.warned := [];
  App.trace := []
|}.

Definition deleteA : App.Change := {|
  App.type := "delete"; App.eventTitle := Some "Meeting with client";
  App.eventId := Some "a"; App.oldTime := None; App.newTime := None;
  App.eventDetails := None
|}.

Definition moveB : App.Change := {|
  App.type := "move"; App.eventTitle := Some "Deep work session";
  App.eventId := Some "b"; App.oldTime := Some "14:00"; App.newTime := Some "11:00";
  App.eventDetails := None
|}.

(** A move whose [eventId] is missing. *)
Definition moveNowhere : App.Change := {|
  App.type := "move"; App.eventTitle := Some "Deep work session";
  App.eventId := None; App.oldTime := Some "14:00"; App.newTime := Some "11:00";
  App.eventDetails := None
|}.

(** An add whose details conform to the response schema and have an empty
    title. *)
Definition addUntitled : App.Change := {|
  App.type := "add"; App.eventTitle := None; App.eventId := None;
  App.oldTime := None; App.newTime := None;
  App.eventDetails := Some {|
    Firestore.title := Some "";
    Firestore.date := Some "2025-08-05";
    Firestore.time := Some "09:00";
    Firestore.description := None;
    Firestore.locationType := None
  |}
|}.

(** A backend that refuses the first write and accepts the later ones, and
    one that accepts every write. *)
Definition firstRefused (n : nat) : bool := negb (n =? 0)%nat.
Definition allAccepted (n : nat) : bool := true.

End Examples.

(** ** The snapshot listener and the delete handler of [App] *)

Module AppStore.
Local Open Scope Z_scope.

Section Handlers.
Variable accepts : nat -> bool.
Variable LocalTZA : Z.

(** The callback of [onSnapshot], from the mapped documents on:
    [fetchedEvents.sort(...)], the value given to [setEvents]. *)
Definition onSnapshot (fetchedEvents : list Matcher.Event) : list Matcher.Event :=
  JSArray.sort (Matcher.byTimestamp LocalTZA) fetchedEvents.

(** [handleDeleteEvent(eventId)] *)
Definition handleDeleteEvent (eventId : string) (s : App.State) : App.State :=
  if negb (App.ready s) then
    App.setError "Firebase is not initialized or user is not authenticated. Cannot delete event." s
  else
    let s := App.setError "" (App.setIsLoading true s) in
    match App.await accepts (Firestore.deleteDoc eventId) s with
    | (s, None) => App.setIsLoading false s
    | (s, Some message) =>
        App.setIsLoading false (App.setError ("Failed to delete event: " +:+ message) s)
    end.

End Handlers.

End AppStore.

(** ** The state of [CalendarGrid]: navigation, selection, grouping *)

Module CalendarGrid.
Local Open Scope Z_scope.

(** [currentMonth], [currentYear] and the time value of [selectedDate]. *)
Record State : Type := {
  currentMonth : Z;
  currentYear : Z;
  selectedDate : Num
}.

(** [goToPreviousMonth] *)
Definition goToPreviousMonth (s : State) : State :=
  if currentMonth s =? 0
  then {| currentMonth := 11; currentYear := currentYear s - 1;
          selectedDate := selectedDate s |}
  else {| currentMonth := currentMonth s - 1; currentYear := currentYear s;
          selectedDate := selectedDate s |}.

(** [goToNextMonth] *)
Definition goToNextMonth (s : State) : State :=
  if currentMonth s =? 11
  then {| currentMonth := 0; currentYear := currentYear s + 1;
          selectedDate := selectedDate s |}
  else {| currentMonth := currentMonth s + 1; currentYear := currentYear s;
          selectedDate := selectedDate s |}.

(** Truthiness of a cell: [null] and 0 are falsy. *)
Definition isDay (day : option Z) : bool :=
  match day with
  | Some d => negb (d =? 0)
  | None => false
  end.

Section Zone.
Variable LocalTZA : Z.

(** [handleDayClick(day)] *)
Definition handleDayClick (day : option Z) (s : State) : State :=
  if isDay day
  then {| currentMonth := currentMonth s; currentYear := currentYear s;
          selectedDate := newDate3 LocalTZA (currentYear s) (currentMonth s) (default 0 day) |}
  else s.

(** [isSelected] of the cell [day]; a Date object is truthy. *)
Definition isSelected (s : State) (day : option Z) : bool :=
  isDay day
  && num_eq (getDate LocalTZA (selectedDate s)) day
  && num_eq (getMonth LocalTZA (selectedDate s)) (Some (currentMonth s))
  && num_eq (getFullYear LocalTZA (selectedDate s)) (Some (currentYear s)).

End Zone.

(** The names every object inherits from [Object.prototype]: under such a
    key [acc[dateKey]] is already something, and it has no [push]. *)
Definition objectPrototypeKeys : list string :=
  ["constructor"; "__defineGetter__"; "__defineSetter__"; "hasOwnProperty";
   "__lookupGetter__"; "__lookupSetter__"; "isPrototypeOf"; "propertyIsEnumerable";
   "toString"; "valueOf"; "__proto__"; "toLocaleString"].

(** The callback of [events.reduce]; [None] is the TypeError thrown by
    [acc[dateKey].push] under an inherited key. *)
Definition groupStep (acc : option (gmap string (list Matcher.Event)))
    (event : Matcher.Event) : option (gmap string (list Matcher.Event)) :=
  acc ← acc;
  let dateKey := Matcher.date event in
  if bool_decide (dateKey ∈ objectPrototypeKeys) then None
  else Some (<[dateKey := default [] (acc !! dateKey) ++ [event]]> acc).

(** [eventsByDate] *)
Definition eventsByDate (events : list Matcher.Event)
    : option (gmap string (list Matcher.Event)) :=
  foldl groupStep (Some ∅) events.

(** The number on the badge of the cell of [day],
    [eventsByDate[dateString].length], and 0 when [hasEvents] is false. *)
Definition badge (byDate : gmap string (list Matcher.Event))
    (currentYear currentMonth day : Z) : nat :=
  length (default [] (byDate !! GridMarks.dateString currentYear currentMonth day)).

End CalendarGrid.

(** ** Notions the further properties are written in *)

Module Notions.
Import Spec.
Local Open Scope Z_scope.

(** The timestamp of an event as an integer, 0 when it is not a time. *)
Definition timestampKey (LocalTZA : Z) (e : Matcher.Event) : Z :=
  default 0 (Matcher.timestamp LocalTZA e).

(** The comparator subtracts keys on the elements of [l]. *)
Definition keyed {A : Type} (comparefn : A -> A -> Num) (key : A -> Z) (l : list A) : Prop :=
  forall a b, a ∈ l -> b ∈ l -> comparefn a b = Some (key a - key b).

(** The object [handleUpdateEvent] passes to [updateDoc]. *)
Definition formFields (f : App.EditForm) : Firestore.Fields := {|
  Firestore.title := Some (App.title f);
  Firestore.date := Some (App.date f);
  Firestore.time := Some (App.time f);
  Firestore.description := Some (App.formDescription f);
  Firestore.locationType := Some (App.locationType f)
|}.

(** The event the snapshot shows for a stored document that has its title,
    date and time: [{ id: doc.id, ...doc.data() }]. *)
Definition eventOf (id : string) (f : Firestore.Fields) : Matcher.Event := {|
  Matcher.id := id;
  Matcher.title := default "" (Firestore.title f);
  Matcher.date := default "" (Firestore.date f);
  Matcher.time := default "" (Firestore.time f);
  Matcher.description := Firestore.description f;
  Matcher.locationType := Firestore.locationType f
|}.

(** The event [saveParsed] builds from a parsed reply. *)
Definition finalEvent (fullYear : Z) (parsed : Firestore.Fields) : Firestore.Fields := {|
  Firestore.title := Firestore.title parsed;
  Firestore.date := Some (App.inferYear fullYear (default "" (Firestore.date parsed)));
  Firestore.time := Firestore.time parsed;
  Firestore.description := Some (App.orEmpty (Firestore.description parsed));
  Firestore.locationType := Some (App.orEmpty (Firestore.locationType parsed))
|}.

(** A reply the parse loop accepts: an object with title, date and time. *)
Definition complete (parsed : Firestore.Fields) : bool :=
  App.truthy (Firestore.title parsed) && App.truthy (Firestore.date parsed)
  && App.truthy (Firestore.time parsed).

(** The outcomes of one parse: nothing stored, or one new document under
    an id no document had, or (signed out) one new local entry. *)
Definition storedAtMostOne (s s' : App.State) : Prop :=
  (Firestore.docs (App.db s') = Firestore.docs (App.db s) /\ App.events s' = App.events s)
  \/ (exists f, persistable f = true
        /\ Firestore.docs (App.db s) !! Firestore.newId (Firestore.docs (App.db s)) = None
        /\ Firestore.docs (App.db s')
           = <[Firestore.newId (Firestore.docs (App.db s)) := f]> (Firestore.docs (App.db s))
        /\ App.events s' = App.events s /\ App.ready s = true)
  \/ (exists id f, persistable f = true
        /\ Firestore.docs (App.db s') = Firestore.docs (App.db s)
        /\ App.events s' = App.events s ++ [(id, f)] /\ App.ready s = false).

(** The changes the applier only warns about. *)
Definition skipped (c : App.Change) : bool := lacks (callOf c).

(** A change whose add, if it is one with details, names a title, a date
    and a time. *)
Definition addsComplete (c : App.Change) : bool :=
  if String.eqb (App.type c) "add"
  then match App.eventDetails c with
       | Some details => complete details
       | None => true
       end
  else true.

(** What [n] failed attempts in a row do on the network, the first of
    them being attempt number [k]: each is a request followed by the wait
    of that attempt. *)
Fixpoint retried (baseDelay k : Z) (n : nat) : list App.Effect :=
  match n with
  | O => []
  | S n' => App.Request :: App.Delay (backoff baseDelay k) :: retried baseDelay (k + 1) n'
  end.

(** Text in ASCII: every byte is below 128. *)
Definition isAscii (s : string) : bool :=
  forallb (fun c => (N_of_ascii c <? 128)%N) (list_ascii_of_string s).

(** The location tag of an event is missing or in ASCII. *)
Definition tagIsAscii (e : Matcher.Event) : bool :=
  match Matcher.locationType e with
  | Some tag => isAscii tag
  | None => true
  end.

(** The character of a decimal digit. *)
Definition digitChar (v : Z) : ascii := ascii_of_N (Z.to_N (48 + v)).

(** The calendar date a string of the form [YYYY-MM-DD] names. *)
Definition dateOfString (s : string) : option (Z * Z * Z) :=
  match parseYMD (list_ascii_of_string s) with
  | Some (y, m, d, []) => Some (y, m, d)
  | _ => None
  end.

End Notions.

(** ** More sample data *)

Module Samples.
Local Open Scope Z_scope.

(** One o'clock in the afternoon of 4 August 2025 in each zone. *)
Definition kolkataAfternoon : Z := Spec.localInstant Examples.Kolkata 2025 8 4 13 0.
Definition bogotaAfternoon : Z := Spec.localInstant Examples.Bogota 2025 8 4 13 0.

(** The session of [Examples.idle] before sign-in. *)
Definition signedOut : App.State := {|
  App.db := App.db Examples.idle;
  App.ready := false;
  App.eventInput := "lunch with Sarah tomorrow";
  App.parsedEvent := None;
  App.events := [];
  App.isLoading := false;
  App.isOptimizing := false;
  App.error := "";
  App.optimizationInput := "";
  App.optimizedSuggestions := None;
  App.editingEvent := None;
  App.editFormData := {| App.title := ""; App.date := ""; App.time := "";
                         App.formDescription := ""; App.locationType := "" |};
  App.fetches := 0;
  App.waits := [];
  App.warned := [];
  App.trace := []
|}.

(** The edit form open on the stored meeting, with a new time typed in. *)
Definition editing : App.State :=
  App.setEditFormData {| App.title := "Meeting with client"; App.date := "2025-08-04";
                         App.time := "11:30"; App.formDescription := "";
                         App.locationType := "office" |}
    (App.handleEditEvent (Notions.eventOf "a" Examples.meeting) Examples.idle).

(** A reply of the LLM with a date that lacks its year. *)
Definition lunch : Firestore.Fields := {|
  Firestore.title := Some "Lunch with Sarah";
  Firestore.date := Some "08-05";
  Firestore.time := Some "12:30";
  Firestore.description := None;
  Firestore.locationType := None
|}.

(** The grid showing August 2025 with nothing selected yet. *)
Definition august : CalendarGrid.State := {|
  CalendarGrid.currentMonth := 7;
  CalendarGrid.currentYear := 2025;
  CalendarGrid.selectedDate := None
|}.

End Samples.

Import Spec.
Local Open Scope Z_scope.

(** * Facts about the Date model *)

(** The model on dates whose answers are known: 1 January 1970 was a
    Thursday, 4 August 2025 a Monday; February has 29 days in 2024 and 2000
    and 28 in 2025 and 1900; a date-only string is UTC midnight and a
    date-time string is local time. *)
Example known_dates :
  WeekDay 0 = 4
  /\ getDay Examples.Kolkata (newDate3 Examples.Kolkata 2025 7 4) = Some 1
  /\ Grid.getDaysInMonth Examples.Bogota 2024 1 = Some 29
  /\ Grid.getDaysInMonth Examples.Bogota 2000 1 = Some 29
  /\ Grid.getDaysInMonth Examples.Bogota 2025 1 = Some 28
  /\ Grid.getDaysInMonth Examples.Bogota 1900 1 = Some 28
  /\ Grid.getDaysInMonth Examples.Bogota 2025 11 = Some 31
  /\ parse Examples.Bogota "2025-08-04" = Some 1754265600000
  /\ parse Examples.Bogota "2025-08-04T14:00" = Some (1754265600000 + 19 * msPerHour)
  /\ Matcher.hourMinute "14:05" = (Some 14, Some 5)
  /\ Matcher.hourMinute "1405" = (Some 1405, None).
Proof. repeat split. Qed.

(** The blank test on known inputs: spaces and tabs, a NO-BREAK SPACE
    (U+00A0, bytes C2 A0) and an IDEOGRAPHIC SPACE (U+3000, bytes E3 80
    80) are blank, as for [trim]; a letter, and a byte C2 that starts
    another character, are not. *)
Example blank_inputs :
  App.isBlank "" = true
  /\ App.isBlank (String " " (String (ascii_of_N 9) "")) = true
  /\ App.isBlank (String (ascii_of_N 194) (String (ascii_of_N 160) " ")) = true
  /\ App.isBlank (String (ascii_of_N 227) (String (ascii_of_N 128)
                     (String (ascii_of_N 128) ""))) = true
  /\ App.isBlank " a " = false
  /\ App.isBlank (String (ascii_of_N 194) (String (ascii_of_N 169) "")) = false.
Proof. repeat split. Qed.

Lemma DayFromYear_step y : DayFromYear (y + 1) = DayFromYear y + DaysInYear y.
Proof.
  unfold DayFromYear, DaysInYear, isLeapYear.
  destruct (Z.eqb_spec (y mod 4) 0); destruct (Z.eqb_spec (y mod 100) 0);
    destruct (Z.eqb_spec (y mod 400) 0); cbn [andb orb negb];
    Z.div_mod_to_equations; lia.
Qed.

Lemma DayFromYear_mono y1 y2 : y1 <= y2 -> DayFromYear y1 <= DayFromYear y2.
Proof. unfold DayFromYear. intros. Z.div_mod_to_equations. lia. Qed.

Lemma YearFromDay_spec d :
  DayFromYear (YearFromDay d) <= d < DayFromYear (YearFromDay d + 1).
Proof.
  unfold YearFromDay.
  set (y := 1970 + 400 * d / 146097).
  destruct (Z.ltb_spec d (DayFromYear y)) as [E1|E1].
  - unfold DayFromYear in *. subst y. Z.div_mod_to_equations; lia.
  - destruct (Z.leb_spec (DayFromYear (y + 1)) d) as [E2|E2].
    + unfold DayFromYear in *. subst y. Z.div_mod_to_equations; lia.
    + lia.
Qed.

Lemma YearFromDay_unique y d :
  DayFromYear y <= d < DayFromYear (y + 1) -> YearFromDay d = y.
Proof.
  intros H. pose proof (YearFromDay_spec d) as S.
  destruct (Z.lt_trichotomy (YearFromDay d) y) as [L|[E|G]]; [|exact E|].
  - pose proof (DayFromYear_mono (YearFromDay d + 1) y). lia.
  - pose proof (DayFromYear_mono (y + 1) (YearFromDay d)). lia.
Qed.

Ltac split_ltb :=
  repeat match goal with
         | |- context [?a <? ?b] => destruct (Z.ltb_spec a b); try lia
         end.

Lemma monthOfDay_start L m k :
  0 <= L <= 1 -> 0 <= m <= 11 ->
  monthStart L m <= k < monthStart L (m + 1) -> monthOfDay L k = m.
Proof.
  intros HL Hm Hk. unfold monthOfDay.
  assert (m = 0 \/ m = 1 \/ m = 2 \/ m = 3 \/ m = 4 \/ m = 5 \/ m = 6 \/ m = 7
          \/ m = 8 \/ m = 9 \/ m = 10 \/ m = 11) as C by lia.
  repeat match goal with H : _ \/ _ |- _ => destruct H end;
    subst m;
    match type of Hk with
    | context [(?c + 1)] => let v := eval vm_compute in (c + 1) in change (c + 1) with v in Hk
    end;
    cbv [monthStart] in Hk; split_ltb.
Qed.

Lemma monthOfDay_range L k : 0 <= monthOfDay L k <= 11.
Proof.
  unfold monthOfDay. split_ltb.
Qed.

Lemma monthOfDay_bounds L k :
  0 <= L <= 1 -> 0 <= k < 365 + L ->
  monthStart L (monthOfDay L k) <= k < monthStart L (monthOfDay L k + 1).
Proof.
  intros HL Hk. unfold monthOfDay.
  repeat (match goal with |- context [?a <? ?b] => destruct (Z.ltb_spec a b) end;
          [vm_compute (_ + 1); cbv [monthStart]; lia|]).
  vm_compute (_ + 1); cbv [monthStart]; lia.
Qed.

Lemma leapFlag_range y : 0 <= leapFlag y <= 1.
Proof. unfold leapFlag. destruct (isLeapYear y); lia. Qed.

Lemma DaysInYear_flag y : DaysInYear y = 365 + leapFlag y.
Proof. unfold DaysInYear, leapFlag. destruct (isLeapYear y); lia. Qed.

Lemma monthStart_step L m :
  0 <= L <= 1 -> 0 <= m <= 11 ->
  0 <= monthStart L m /\ 28 <= monthStart L (m + 1) - monthStart L m <= 31
  /\ monthStart L (m + 1) <= 365 + L.
Proof.
  intros HL Hm.
  assert (m = 0 \/ m = 1 \/ m = 2 \/ m = 3 \/ m = 4 \/ m = 5 \/ m = 6 \/ m = 7
          \/ m = 8 \/ m = 9 \/ m = 10 \/ m = 11) as C by lia.
  repeat match goal with H : _ \/ _ |- _ => destruct H end;
    subst m; vm_compute (_ + 1); cbv [monthStart]; lia.
Qed.

Lemma monthLength_range y m : 28 <= monthLength y m <= 31.
Proof.
  unfold monthLength.
  pose proof (monthStart_step (leapFlag (y + m / 12)) (m mod 12)
                (leapFlag_range _) ltac:(Z.div_mod_to_equations; lia)).
  lia.
Qed.

Lemma civil_of_MakeDay y m dt :
  1 <= dt <= monthLength y m ->
  let D := MakeDay y m dt in
  YearFromDay D = y + m / 12
  /\ monthOfDay (leapFlag (y + m / 12)) (D - DayFromYear (y + m / 12)) = m mod 12
  /\ D - DayFromYear (y + m / 12) - monthStart (leapFlag (y + m / 12)) (m mod 12) + 1 = dt.
Proof.
  intros Hdt D. subst D. unfold MakeDay, monthLength in *. fold (leapFlag (y + m / 12)) in *.
  set (ym := y + m / 12) in *. set (mn := m mod 12) in *. set (L := leapFlag ym) in *.
  assert (HL : 0 <= L <= 1) by apply leapFlag_range.
  assert (Hmn : 0 <= mn <= 11) by (subst mn; Z.div_mod_to_equations; lia).
  pose proof (monthStart_step L mn HL Hmn) as (S0 & S1 & S2).
  assert (HY : YearFromDay (DayFromYear ym + monthStart L mn + dt - 1) = ym).
  { apply YearFromDay_unique. rewrite DayFromYear_step, DaysInYear_flag. fold L. lia. }
  split; [exact HY|]. split; [|lia].
  apply monthOfDay_start; auto. lia.
Qed.

Lemma MakeDay_last y m : MakeDay y (m + 1) 0 = MakeDay y m (monthLength y m).
Proof.
  unfold MakeDay, monthLength. fold (leapFlag (y + m / 12)) (leapFlag (y + (m + 1) / 12)).
  destruct (Z.eq_dec (m mod 12) 11) as [E|E].
  - assert ((m + 1) / 12 = m / 12 + 1) as -> by (Z.div_mod_to_equations; lia).
    assert ((m + 1) mod 12 = 0) as -> by (Z.div_mod_to_equations; lia).
    rewrite E. replace (y + (m / 12 + 1)) with (y + m / 12 + 1) by lia.
    rewrite DayFromYear_step, DaysInYear_flag.
    vm_compute (11 + 1). cbv [monthStart]. lia.
  - assert ((m + 1) / 12 = m / 12) as -> by (Z.div_mod_to_equations; lia).
    assert ((m + 1) mod 12 = m mod 12 + 1) as -> by (Z.div_mod_to_equations; lia).
    lia.
Qed.

Lemma MakeDay_date y m dt : MakeDay y m dt = MakeDay y m 1 + (dt - 1).
Proof. unfold MakeDay. lia. Qed.

Lemma Day_local_midnight tz D : Day (LocalTime tz (UTC tz (MakeDate D (MakeTime 0 0 0 0)))) = D.
Proof.
  unfold Day, LocalTime, UTC, MakeDate, MakeTime, msPerDay, msPerHour, msPerMinute, msPerSecond.
  Z.div_mod_to_equations. lia.
Qed.

Lemma MakeFullYear_range year : yearInRange year -> yearInRange (MakeFullYear year).
Proof.
  unfold yearInRange, MakeFullYear.
  destruct (Z.leb_spec 0 year), (Z.leb_spec year 99); cbn [andb]; lia.
Qed.

Lemma MakeDay_range Y m dt :
  yearInRange Y -> 0 <= m <= 12 -> 0 <= dt <= 31 ->
  -99999999 <= MakeDay Y m dt <= 99999999.
Proof.
  unfold yearInRange. intros HY Hm Hdt. unfold MakeDay.
  fold (leapFlag (Y + m / 12)).
  pose proof (leapFlag_range (Y + m / 12)) as HL.
  pose proof (DayFromYear_mono (-271820) (Y + m / 12)
                ltac:(Z.div_mod_to_equations; lia)) as Lo.
  change (DayFromYear (-271820)) with (-99999744) in Lo.
  destruct (Z.eq_dec m 12) as [->|Hne].
  - change (12 / 12) with 1 in *. change (12 mod 12) with 0. cbv [monthStart].
    pose proof (DayFromYear_mono (Y + 1) 275760 ltac:(lia)) as Hi.
    change (DayFromYear 275760) with 99999744 in Hi. lia.
  - assert (Hq : m / 12 = 0) by (Z.div_mod_to_equations; lia).
    assert (Hr : 0 <= m mod 12 <= 11) by (Z.div_mod_to_equations; lia).
    pose proof (monthStart_step (leapFlag (Y + m / 12)) (m mod 12) HL Hr).
    rewrite Hq in *.
    pose proof (DayFromYear_mono (Y + 0) 275759 ltac:(lia)) as Hi.
    change (DayFromYear 275759) with 99999379 in Hi. lia.
Qed.

Lemma newDate3_value tz year m dt :
  - msPerDay <= tz <= msPerDay ->
  yearInRange year -> 0 <= m <= 12 -> 0 <= dt <= 31 ->
  newDate3 tz year m dt
  = Some (UTC tz (MakeDate (MakeDay (MakeFullYear year) m dt) (MakeTime 0 0 0 0))).
Proof.
  intros Htz HY Hm Hdt. unfold newDate3, TimeClip.
  pose proof (MakeDay_range _ m dt (MakeFullYear_range _ HY) Hm Hdt) as HD.
  destruct (Z.leb_spec (Z.abs (UTC tz (MakeDate (MakeDay (MakeFullYear year) m dt) (MakeTime 0 0 0 0))))
              8640000000000000) as [|Bad]; [reflexivity|].
  exfalso. revert Bad. unfold UTC, MakeDate, MakeTime, msPerDay in *. lia.
Qed.

Lemma for_push_below cond cell lim :
  (forall j, cond j = (j <? lim)) ->
  forall fuel i acc, (Z.to_nat (lim - i) < fuel)%nat ->
  Grid.for_push fuel cond cell i acc = acc ++ (cell <$> seqZ i (lim - i)).
Proof.
  intros Hc. induction fuel as [|fuel IH]; intros i acc Hf; [lia|].
  cbn [Grid.for_push]. rewrite Hc.
  destruct (Z.ltb_spec i lim) as [Lt|Ge].
  - rewrite IH by lia.
    rewrite (seqZ_cons i (lim - i)) by lia. cbn [fmap list_fmap].
    rewrite <- app_assoc. cbn [app].
    replace (Z.succ i) with (i + 1) by lia.
    replace (Z.pred (lim - i)) with (lim - (i + 1)) by lia. reflexivity.
  - rewrite seqZ_nil by lia. cbn. now rewrite app_nil_r.
Qed.

Lemma fmap_const_seqZ {A} (x : A) i n :
  (fun _ : Z => x) <$> seqZ i n = replicate (Z.to_nat n) x.
Proof.
  unfold seqZ. rewrite <- list_fmap_compose.
  generalize 0%nat. induction (Z.to_nat n) as [|k IH]; intros s; [reflexivity|].
  cbn. f_equal. apply IH.
Qed.

Lemma civil_of_time t y m dt :
  Day t = MakeDay y m dt -> 1 <= dt <= monthLength y m ->
  YearFromTime t = y + m / 12 /\ MonthFromTime t = m mod 12 /\ DateFromTime t = dt.
Proof.
  intros HD Hdt. destruct (civil_of_MakeDay y m dt Hdt) as (HY & HM & HDt).
  assert (EY : YearFromTime t = y + m / 12) by (unfold YearFromTime; now rewrite HD).
  assert (EL : InLeapYear t = leapFlag (y + m / 12)) by (unfold InLeapYear; now rewrite EY).
  assert (EW : DayWithinYear t = MakeDay y m dt - DayFromYear (y + m / 12))
    by (unfold DayWithinYear; now rewrite EY, HD).
  assert (EM : MonthFromTime t = m mod 12) by (unfold MonthFromTime; now rewrite EL, EW).
  repeat split; auto.
  unfold DateFromTime. rewrite EL, EW, EM. exact HDt.
Qed.

Lemma getFirstDayOfMonth_value tz year month :
  - msPerDay <= tz <= msPerDay -> yearInRange year -> 0 <= month <= 11 ->
  Grid.getFirstDayOfMonth tz year month
  = Some ((MakeDay (MakeFullYear year) month 1 + 4) mod 7).
Proof.
  intros Htz HY Hm. unfold Grid.getFirstDayOfMonth.
  rewrite newDate3_value by (auto; lia). cbn [getDay mbind option_bind].
  unfold WeekDay. now rewrite Day_local_midnight.
Qed.

Lemma getDaysInMonth_value tz year month :
  - msPerDay <= tz <= msPerDay -> yearInRange year -> 0 <= month <= 11 ->
  Grid.getDaysInMonth tz year month = Some (monthLength (MakeFullYear year) month).
Proof.
  intros Htz HY Hm. unfold Grid.getDaysInMonth.
  rewrite newDate3_value by (auto; lia). cbn [getDate mbind option_bind].
  f_equal.
  pose proof (monthLength_range (MakeFullYear year) month) as HR.
  eapply civil_of_time; [|split; [lia|reflexivity]].
  rewrite Day_local_midnight. apply MakeDay_last.
Qed.

Lemma leb_ltb_succ j n : (j <=? n) = (j <? n + 1).
Proof. destruct (Z.leb_spec j n), (Z.ltb_spec j (n + 1)); lia || reflexivity. Qed.

Lemma calendarDays_value tz year month f n :
  Grid.getFirstDayOfMonth tz year month = Some f ->
  Grid.getDaysInMonth tz year month = Some n ->
  Grid.calendarDays tz year month = replicate (Z.to_nat f) None ++ (Some <$> seqZ 1 n).
Proof.
  intros Hf Hn. unfold Grid.calendarDays. rewrite Hf, Hn. cbn [Grid.tests].
  rewrite (for_push_below _ _ (n + 1)) by first [intros; apply leb_ltb_succ | lia].
  rewrite (for_push_below _ _ f) by first [intros; reflexivity | lia].
  cbn [app]. rewrite fmap_const_seqZ.
  replace (f - 0) with f by lia. replace (n + 1 - 1) with n by lia. reflexivity.
Qed.

(** C10: for a year a Date can hold and a month from 0 to 11, the grid is
    [getFirstDayOfMonth] empty cells followed by the days 1 to
    [getDaysInMonth] in increasing order; its length is the sum of the two;
    day d is at index first + d - 1, which is its week-day column, and
    nowhere else. *)
Theorem calendarDays_layout tz year month :
  - msPerDay <= tz <= msPerDay -> yearInRange year -> 0 <= month <= 11 ->
  exists f n,
    Grid.getFirstDayOfMonth tz year month = Some f /\
    Grid.getDaysInMonth tz year month = Some n /\
    0 <= f <= 6 /\ 28 <= n <= 31 /\
    Grid.calendarDays tz year month = replicate (Z.to_nat f) None ++ (Some <$> seqZ 1 n) /\
    Z.of_nat (length (Grid.calendarDays tz year month)) = f + n /\
    (forall d, 1 <= d <= n ->
       Grid.calendarDays tz year month !! Z.to_nat (f + d - 1) = Some (Some d) /\
       getDay tz (newDate3 tz year month d) = Some ((f + d - 1) mod 7)) /\
    (forall (i : nat) d, Grid.calendarDays tz year month !! i = Some (Some d) ->
       1 <= d <= n /\ i = Z.to_nat (f + d - 1)).
Proof.
  intros Htz HY Hm.
  pose proof (getFirstDayOfMonth_value tz year month Htz HY Hm) as Hf.
  pose proof (getDaysInMonth_value tz year month Htz HY Hm) as Hn.
  set (f := (MakeDay (MakeFullYear year) month 1 + 4) mod 7) in *.
  set (n := monthLength (MakeFullYear year) month) in *.
  assert (Rf : 0 <= f <= 6) by (subst f; Z.div_mod_to_equations; lia).
  assert (Rn : 28 <= n <= 31) by apply monthLength_range.
  pose proof (calendarDays_value tz year month f n Hf Hn) as Hc.
  exists f, n. repeat (split; [assumption || lia|]).
  rewrite Hc. split; [|split].
  - rewrite length_app, length_replicate, length_fmap, length_seqZ. lia.
  - intros d Hd. split.
    + rewrite lookup_app_r by (rewrite length_replicate; lia).
      rewrite length_replicate, list_lookup_fmap.
      rewrite lookup_seqZ_lt by lia. cbn. do 2 f_equal. lia.
    + unfold getDay. rewrite newDate3_value by (auto; lia).
      cbn [mbind option_bind]. unfold WeekDay. rewrite Day_local_midnight.
      rewrite (MakeDay_date _ _ d). f_equal. subst f.
      Z.div_mod_to_equations. lia.
  - intros i d Hi.
    destruct (Nat.lt_ge_cases i (Z.to_nat f)) as [Lt|Ge].
    + rewrite lookup_app_l in Hi by (rewrite length_replicate; lia).
      apply lookup_replicate in Hi. destruct Hi as [Hi _]. discriminate.
    + rewrite lookup_app_r in Hi by (rewrite length_replicate; lia).
      rewrite length_replicate, list_lookup_fmap in Hi.
      destruct (seqZ 1 n !! (i - Z.to_nat f)%nat) as [k|] eqn:E; [|discriminate].
      apply lookup_seqZ in E. cbn in Hi. injection Hi as ->. lia.
Qed.

(** * The suggestion applier *)

Section Applier.
Variable accepts : nat -> bool.

Lemma perform_rejected c d d' m :
  Firestore.perform accepts c d = (d', Some m) ->
  Firestore.docs d' = Firestore.docs d /\ Firestore.calls d' = Firestore.calls d ++ [c].
Proof.
  unfold Firestore.perform. intros H.
  destruct c as [data|id data|id].
  - destruct (Firestore.hasUndefined data); [|destruct (accepts _)]; inversion H; auto.
  - destruct (accepts _); [destruct (Firestore.docs d !! id)|]; inversion H; auto.
  - destruct (accepts _); inversion H; auto.
Qed.

Lemma perform_calls c d :
  Firestore.calls (fst (Firestore.perform accepts c d)) = Firestore.calls d ++ [c].
Proof.
  unfold Firestore.perform.
  destruct c as [data|id data|id].
  - destruct (Firestore.hasUndefined data); [|destruct (accepts _)]; reflexivity.
  - destruct (accepts _); [destruct (Firestore.docs d !! id)|]; reflexivity.
  - destruct (accepts _); reflexivity.
Qed.

Lemma applyChange_callOf c s :
  App.applyChange accepts c s
  = match callOf c with
    | Some call => App.await accepts call s
    | None => (App.warn c s, None)
    end.
Proof.
  unfold App.applyChange, callOf.
  destruct (String.eqb (App.type c) "add"), (App.eventDetails c); try reflexivity;
    destruct (String.eqb (App.type c) "move" && _ && _); try reflexivity;
    destruct (String.eqb (App.type c) "delete" && _); reflexivity.
Qed.

Lemma malformed_callOf c : malformed c = true -> callOf c = None.
Proof.
  unfold malformed, callOf.
  destruct (String.eqb (App.type c) "add") eqn:Ea.
  - destruct (App.eventDetails c); [discriminate|]. intros _.
    apply String.eqb_eq in Ea. rewrite Ea. reflexivity.
  - destruct (String.eqb (App.type c) "move") eqn:Em.
    + apply String.eqb_eq in Em. rewrite Em. cbn.
      destruct (App.eventId c), (App.newTime c); try discriminate; intros _;
        cbn; rewrite ?andb_false_r; destruct (App.eventDetails c); reflexivity.
    + destruct (String.eqb (App.type c) "delete") eqn:Ed.
      * destruct (App.eventId c); [discriminate|]. intros _. cbn.
        destruct (App.eventDetails c); reflexivity.
      * intros _. cbn. destruct (App.eventDetails c); reflexivity.
Qed.

Lemma applyChanges_app l1 l2 s :
  App.applyChanges accepts (l1 ++ l2) s
  = match App.applyChanges accepts l1 s with
    | (s1, None) => App.applyChanges accepts l2 s1
    | (s1, Some message) => (s1, Some message)
    end.
Proof.
  revert s. induction l1 as [|c l1 IH]; intros s; [reflexivity|].
  cbn [app App.applyChanges].
  destruct (App.applyChange accepts c s) as [s' [m|]]; [reflexivity|apply IH].
Qed.

Lemma await_rejected c s s' m :
  App.await accepts c s = (s', Some m) ->
  Firestore.docs (App.db s') = Firestore.docs (App.db s)
  /\ Firestore.calls (App.db s') = Firestore.calls (App.db s) ++ [c].
Proof.
  unfold App.await. destruct (Firestore.perform accepts c (App.db s)) as [d' r] eqn:E.
  intros H. inversion H; subst. cbn. eapply perform_rejected; eauto.
Qed.

Lemma await_calls c s :
  Firestore.calls (App.db (fst (App.await accepts c s))) = Firestore.calls (App.db s) ++ [c].
Proof.
  unfold App.await. pose proof (perform_calls c (App.db s)) as H.
  destruct (Firestore.perform accepts c (App.db s)) as [d' r]. exact H.
Qed.

Lemma applyChange_calls c s :
  Firestore.calls (App.db (fst (App.applyChange accepts c s)))
  = Firestore.calls (App.db s) ++ option_list (callOf c).
Proof.
  rewrite applyChange_callOf. destruct (callOf c) as [call|]; cbn [option_list].
  - apply await_calls.
  - cbn. now rewrite app_nil_r.
Qed.

Lemma applyChanges_done_calls l : forall s s',
  App.applyChanges accepts l s = (s', None) ->
  Firestore.calls (App.db s') = Firestore.calls (App.db s) ++ omap callOf l.
Proof.
  induction l as [|c l IH]; intros s s' H; cbn in H.
  - inversion H; subst. now rewrite app_nil_r.
  - pose proof (applyChange_calls c s) as Hc.
    destruct (App.applyChange accepts c s) as [s1 [m|]]; [discriminate|].
    cbn [fst] in Hc. rewrite (IH _ _ H), Hc, <- app_assoc. f_equal.
    cbn [omap list_omap]. destruct (callOf c); reflexivity.
Qed.

Lemma applyChanges_stopped l : forall s s2 message,
  App.applyChanges accepts l s = (s2, Some message) ->
  exists pre c post s1,
    l = pre ++ c :: post
    /\ App.applyChanges accepts pre s = (s1, None)
    /\ App.applyChange accepts c s1 = (s2, Some message).
Proof.
  induction l as [|c l IH]; intros s s2 message H; cbn in H; [discriminate|].
  destruct (App.applyChange accepts c s) as [s' [m|]] eqn:Ec.
  - inversion H; subst. exists [], c, l, s. repeat split. exact Ec.
  - destruct (IH _ _ _ H) as (pre & c' & post & s1 & -> & Hpre & Hc).
    exists (c :: pre), c', post, s1. repeat split; [|exact Hc].
    cbn [App.applyChanges]. now rewrite Ec.
Qed.

(** C1 (amended): the applier works through the list in order.  Either
    every write is accepted, and the writes attempted are those of the whole
    list in list order; or the first rejected write ends the loop: the
    writes attempted are those of the operations before it, in list order,
    followed by the rejected one, nothing of the operations after it is
    attempted, the documents are as the operations before the failure left
    them, and the handler reports the error. *)
Theorem applier_stops_at_first_rejection changes s :
  App.ready s = true ->
  match App.applyChanges accepts changes (App.setError "" (App.setIsLoading true s)) with
  | (s1, None) =>
      App.handleAcceptSuggestion accepts changes s
      = App.setIsLoading false
          (App.setOptimizationInput "" (App.setOptimizedSuggestions None s1))
      /\ Firestore.calls (App.db s1) = Firestore.calls (App.db s) ++ omap callOf changes
  | (s2, Some message) =>
      App.handleAcceptSuggestion accepts changes s
      = App.setIsLoading false
          (App.setError ("Failed to apply optimization: " +:+ message) s2)
      /\ exists pre c post s1 call,
           changes = pre ++ c :: post
           /\ App.applyChanges accepts pre (App.setError "" (App.setIsLoading true s))
              = (s1, None)
           /\ callOf c = Some call
           /\ Firestore.calls (App.db s2)
              = Firestore.calls (App.db s) ++ omap callOf pre ++ [call]
           /\ Firestore.docs (App.db s2) = Firestore.docs (App.db s1)
  end.
Proof.
  intros Hr. unfold App.handleAcceptSuggestion. rewrite Hr. cbn [negb].
  destruct (App.applyChanges accepts changes _) as [s' [message|]] eqn:E.
  - split; [reflexivity|].
    destruct (applyChanges_stopped _ _ _ _ E) as (pre & c & post & s1 & -> & Hpre & Hc).
    rewrite applyChange_callOf in Hc. destruct (callOf c) as [call|] eqn:Ecall; [|discriminate].
    apply await_rejected in Hc. destruct Hc as [Hdocs Hcalls].
    exists pre, c, post, s1, call. repeat split; auto.
    rewrite Hcalls, (applyChanges_done_calls _ _ _ Hpre), <- app_assoc. reflexivity.
  - split; [reflexivity|]. now rewrite (applyChanges_done_calls _ _ _ E).
Qed.

(** C6: a change that lacks what its type needs, or has an unknown type, is
    skipped with a warning and without any write, and the loop goes on with
    the changes after it. *)
Theorem malformed_change_is_skipped c :
  malformed c = true ->
  (forall s, App.applyChange accepts c s = (App.warn c s, None)
             /\ App.db (App.warn c s) = App.db s
             /\ App.warned (App.warn c s) = App.warned s ++ [c])
  /\ (forall pre post s s1,
        App.applyChanges accepts pre s = (s1, None) ->
        App.applyChanges accepts (pre ++ c :: post) s
        = App.applyChanges accepts post (App.warn c s1)).
Proof.
  intros Hm. pose proof (malformed_callOf c Hm) as Hc. split.
  - intros s. rewrite applyChange_callOf, Hc. repeat split.
  - intros pre post s s1 Hpre. rewrite applyChanges_app, Hpre.
    cbn [App.applyChanges]. now rewrite applyChange_callOf, Hc.
Qed.

Lemma truthy_nonempty v : v <> EmptyString -> App.truthy (Some v) = true.
Proof.
  intros H. cbn. destruct (String.eqb_spec v EmptyString); [contradiction|reflexivity].
Qed.

Lemma move_callOf c id t :
  App.type c = "move" -> App.eventId c = Some id -> App.newTime c = Some t ->
  id <> EmptyString -> t <> EmptyString ->
  callOf c = Some (Firestore.updateDoc id (App.timeOnly (Some t))).
Proof.
  intros Ht Hi Hn Hid Htm. unfold callOf. rewrite Ht, Hi, Hn.
  change (String.eqb "move" "add") with false.
  change (String.eqb "move" "move") with true.
  rewrite !truthy_nonempty by assumption. cbn [andb].
  unfold App.orEmpty. rewrite truthy_nonempty by assumption. reflexivity.
Qed.

(** C8: a move with an id and a new time touches the [time] of the
    document with that id and nothing else: every other document, and the
    other four properties of the target, stay as they were. *)
Theorem move_changes_only_time c s id t :
  App.type c = "move" -> App.eventId c = Some id -> App.newTime c = Some t ->
  id <> EmptyString -> t <> EmptyString ->
  let before := Firestore.docs (App.db s) in
  let after := Firestore.docs (App.db (fst (App.applyChange accepts c s))) in
  after = (if accepts (length (Firestore.calls (App.db s)))
           then alter (withTime t) id before else before)
  /\ (forall id', id' <> id -> after !! id' = before !! id')
  /\ (before !! id = None -> after !! id = None)
  /\ (forall old, before !! id = Some old ->
       exists new, after !! id = Some new
         /\ Firestore.title new = Firestore.title old
         /\ Firestore.date new = Firestore.date old
         /\ Firestore.description new = Firestore.description old
         /\ Firestore.locationType new = Firestore.locationType old
         /\ (accepts (length (Firestore.calls (App.db s))) = true ->
             Firestore.time new = Some t)).
Proof.
  intros Ht Hi Hn Hid Htm before after.
  assert (E : after = (if accepts (length (Firestore.calls (App.db s)))
                       then alter (withTime t) id before else before)).
  { subst after before. rewrite applyChange_callOf, (move_callOf c id t) by assumption.
    unfold App.await, Firestore.perform.
    destruct (accepts _); [|reflexivity].
    destruct (Firestore.docs (App.db s) !! id) as [old|] eqn:L; cbn.
    - apply map_eq. intros j. destruct (decide (id = j)) as [<-|Hne].
      + rewrite lookup_insert_eq, lookup_alter_eq, L. reflexivity.
      + rewrite lookup_insert_ne, lookup_alter_ne by assumption. reflexivity.
    - apply map_eq. intros j. destruct (decide (id = j)) as [<-|Hne].
      + rewrite lookup_alter_eq, L. reflexivity.
      + rewrite lookup_alter_ne by assumption. reflexivity. }
  split; [exact E|]. rewrite E. clear E.
  destruct (accepts _).
  - split; [|split].
    + intros j Hj. now rewrite lookup_alter_ne.
    + intros L. now rewrite lookup_alter_eq, L.
    + intros old L. exists (withTime t old). rewrite lookup_alter_eq, L. now repeat split.
  - split; [|split]; [reflexivity|tauto|].
    intros old L. exists old. repeat split; [assumption|discriminate].
Qed.

End Applier.

(** * The retry loops *)

Section Loops.
Variable accepts : nat -> bool.
Variable LocalTZA : Z.
Variable now : Z.
Variable maxRetries : Z.
Variable baseDelay : Z.

Local Abbreviation parseLoop := (App.parseLoop accepts LocalTZA now maxRetries baseDelay).
Local Abbreviation optimizeLoop := (App.optimizeLoop maxRetries baseDelay).

Lemma parseLoop_exit replies retries s :
  maxRetries <= retries -> parseLoop replies retries s = (s, true).
Proof.
  intros H. destruct replies; cbn [App.parseLoop];
    destruct (Z.ltb_spec retries maxRetries); (lia || reflexivity).
Qed.

Lemma optimizeLoop_exit replies retries s :
  maxRetries <= retries -> optimizeLoop replies retries s = (s, true).
Proof.
  intros H. destruct replies; cbn [App.optimizeLoop];
    destruct (Z.ltb_spec retries maxRetries); (lia || reflexivity).
Qed.

Lemma seqZ_backoff retries :
  retries + 1 < maxRetries ->
  backoff baseDelay <$> seqZ (retries + 1) (maxRetries - retries - 1)
  = baseDelay * 2 ^ (retries + 1 - 1)
    :: (backoff baseDelay <$> seqZ (retries + 1 + 1) (maxRetries - (retries + 1) - 1)).
Proof.
  intros H. rewrite seqZ_cons by lia. cbn [fmap list_fmap]. unfold backoff at 1.
  do 3 f_equal; lia.
Qed.

(** One transport failure with attempts left, then the induction
    hypothesis; or the last failure, after which the loop condition fails. *)
Ltac failure_step IH exit retries s HF :=
  let s' := fresh "s'" in
  let E := fresh "E" in let F := fresh "F" in let W := fresh "W" in
  let Er := fresh "Er" in let D := fresh "D" in
  unfold App.onFetchError;
  destruct (Z.ltb_spec (retries + 1) maxRetries);
  [ match goal with
    | |- context [App.setIsLoading false ?st] =>
        destruct (IH (retries + 1) (App.setIsLoading false st) HF ltac:(lia) ltac:(lia))
          as (s' & E & F & W & Er & D)
    | |- context [App.setIsOptimizing false ?st] =>
        destruct (IH (retries + 1) (App.setIsOptimizing false st) HF ltac:(lia) ltac:(lia))
          as (s' & E & F & W & Er & D)
    end;
    exists s'; split; [exact E|]; unfold exhausted; cbn in F, W, D;
    rewrite F, W, Er, D, (seqZ_backoff retries) by lia;
    repeat split; [lia | now rewrite <- app_assoc]
  | rewrite exit by lia; eexists; split; [reflexivity|];
    unfold exhausted; cbn; rewrite seqZ_nil by lia; cbn; rewrite app_nil_r;
    replace (maxRetries - retries) with 1 by lia; repeat split; lia ].

Lemma parseLoop_failures replies : forall retries s,
  Forall (fun r => transportFailure r = true) replies ->
  0 <= retries < maxRetries ->
  (Z.to_nat (maxRetries - retries) <= length replies)%nat ->
  exists s', parseLoop replies retries s = (s', true)
             /\ exhausted maxRetries baseDelay (App.parseTerminal maxRetries) retries s s'.
Proof.
  induction replies as [|reply replies IH]; intros retries s HF Hr Hl; [cbn in Hl; lia|].
  apply Forall_cons in HF. destruct HF as [Hf HF].
  cbn [App.parseLoop]. destruct (Z.ltb_spec retries maxRetries) as [_|]; [|lia].
  cbn [negb]. cbn [length] in Hl.
  destruct reply as [|status| |text]; try discriminate Hf;
    failure_step IH parseLoop_exit retries s HF.
Qed.

Lemma optimizeLoop_failures replies : forall retries s,
  Forall (fun r => transportFailure r = true) replies ->
  0 <= retries < maxRetries ->
  (Z.to_nat (maxRetries - retries) <= length replies)%nat ->
  exists s', optimizeLoop replies retries s = (s', true)
             /\ exhausted maxRetries baseDelay (App.optimizeTerminal maxRetries) retries s s'.
Proof.
  induction replies as [|reply replies IH]; intros retries s HF Hr Hl; [cbn in Hl; lia|].
  apply Forall_cons in HF. destruct HF as [Hf HF].
  cbn [App.optimizeLoop]. destruct (Z.ltb_spec retries maxRetries) as [_|]; [|lia].
  cbn [negb]. cbn [length] in Hl.
  destruct reply as [|status| |text]; try discriminate Hf;
    failure_step IH optimizeLoop_exit retries s HF.
Qed.

(** A body of the wrong shape neither counts as an attempt nor ends the
    loop: the next request goes out at once. *)
Lemma parseLoop_shape_errors replies : forall retries s,
  Forall (fun r => parseShapeError r = true) replies ->
  retries < maxRetries ->
  exists s', parseLoop replies retries s = (s', false)
             /\ App.fetches s' = (App.fetches s + length replies)%nat
             /\ App.waits s' = App.waits s
             /\ App.db s' = App.db s.
Proof.
  induction replies as [|reply replies IH]; intros retries s HF Hr.
  - exists s. cbn. destruct (Z.ltb_spec retries maxRetries); [|lia].
    repeat split. cbn. lia.
  - apply Forall_cons in HF. destruct HF as [Hf HF].
    cbn [App.parseLoop]. destruct (Z.ltb_spec retries maxRetries) as [_|]; [|lia].
    cbn [negb length].
    destruct reply as [|status| |[|parsed]]; try discriminate Hf.
    + destruct (IH retries (App.setIsLoading false
        (App.setError "LLM response was empty or malformed. Please try again." (App.fetched s)))
        HF Hr) as (s' & E & F & W & D).
      exists s'. rewrite E, F, W, D. cbn. repeat split. lia.
    + destruct (IH retries (App.setIsLoading false
        (App.setError "Failed to parse LLM response JSON. The AI might have returned an unexpected format. Please try again." (App.fetched s)))
        HF Hr) as (s' & E & F & W & D).
      exists s'. rewrite E, F, W, D. cbn. repeat split. lia.
    + cbn in Hf. apply negb_true_iff in Hf. rewrite Hf.
      destruct (IH retries (App.setIsLoading false
        (App.setError "LLM returned incomplete or invalid event data. Please try rephrasing." (App.fetched s)))
        HF Hr) as (s' & E & F & W & D).
      exists s'. rewrite E, F, W, D. cbn. repeat split. lia.
Qed.

Lemma optimizeLoop_shape_errors replies : forall retries s,
  Forall (fun r => optimizeShapeError r = true) replies ->
  retries < maxRetries ->
  exists s', optimizeLoop replies retries s = (s', false)
             /\ App.fetches s' = (App.fetches s + length replies)%nat
             /\ App.waits s' = App.waits s
             /\ App.db s' = App.db s.
Proof.
  induction replies as [|reply replies IH]; intros retries s HF Hr.
  - exists s. cbn. destruct (Z.ltb_spec retries maxRetries); [|lia].
    repeat split. cbn. lia.
  - apply Forall_cons in HF. destruct HF as [Hf HF].
    cbn [App.optimizeLoop]. destruct (Z.ltb_spec retries maxRetries) as [_|]; [|lia].
    cbn [negb length].
    destruct reply as [|status| |[|[suggestions|]]]; try discriminate Hf.
    + destruct (IH retries (App.setIsOptimizing false
        (App.setError "LLM optimization response was empty or malformed. Please try again." (App.fetched s)))
        HF Hr) as (s' & E & F & W & D).
      exists s'. rewrite E, F, W, D. cbn. repeat split. lia.
    + destruct (IH retries (App.setIsOptimizing false
        (App.setError "Failed to parse LLM optimization response JSON. Please try again." (App.fetched s)))
        HF Hr) as (s' & E & F & W & D).
      exists s'. rewrite E, F, W, D. cbn. repeat split. lia.
    + destruct (IH retries (App.setIsOptimizing false
        (App.setError "LLM returned an invalid suggestion format. Please try rephrasing." (App.fetched s)))
        HF Hr) as (s' & E & F & W & D).
      exists s'. rewrite E, F, W, D. cbn. repeat split. lia.
Qed.

(** The order of requests and waits in a run of transport failures that
    uses up the attempts: every failed attempt but the last is followed by
    its wait, and nothing follows the last request. *)
Lemma parseLoop_failures_trace replies : forall retries s,
  Forall (fun r => transportFailure r = true) replies ->
  0 <= retries < maxRetries ->
  (Z.to_nat (maxRetries - retries) <= length replies)%nat ->
  App.trace (fst (parseLoop replies retries s))
  = App.trace s
    ++ Notions.retried baseDelay (retries + 1) (Z.to_nat (maxRetries - retries - 1))
    ++ [App.Request].
Proof.
  induction replies as [|reply replies IH]; intros retries s HF Hr Hl; [cbn in Hl; lia|].
  apply Forall_cons in HF. destruct HF as [Hf HF].
  cbn [App.parseLoop]. destruct (Z.ltb_spec retries maxRetries) as [_|]; [|lia].
  cbn [negb]. cbn [length] in Hl.
  assert (Step : App.trace (fst (parseLoop replies (retries + 1)
                   (App.setIsLoading false
                      (App.onFetchError maxRetries baseDelay (App.parseTerminal maxRetries)
                         (retries + 1) (App.fetched s)))))
                 = App.trace s
                   ++ Notions.retried baseDelay (retries + 1)
                        (Z.to_nat (maxRetries - retries - 1))
                   ++ [App.Request]).
  { unfold App.onFetchError. destruct (Z.ltb_spec (retries + 1) maxRetries).
    - rewrite IH by (auto; lia). cbn [App.trace App.setIsLoading App.waited App.fetched].
      replace (Z.to_nat (maxRetries - retries - 1))
        with (S (Z.to_nat (maxRetries - (retries + 1) - 1))) by lia.
      cbn [Notions.retried]. unfold backoff.
      rewrite <- !app_assoc. reflexivity.
    - rewrite parseLoop_exit by lia.
      replace (Z.to_nat (maxRetries - retries - 1)) with 0%nat by lia. reflexivity. }
  destruct reply as [|status| |text]; try discriminate Hf; exact Step.
Qed.

Lemma optimizeLoop_failures_trace replies : forall retries s,
  Forall (fun r => transportFailure r = true) replies ->
  0 <= retries < maxRetries ->
  (Z.to_nat (maxRetries - retries) <= length replies)%nat ->
  App.trace (fst (optimizeLoop replies retries s))
  = App.trace s
    ++ Notions.retried baseDelay (retries + 1) (Z.to_nat (maxRetries - retries - 1))
    ++ [App.Request].
Proof.
  induction replies as [|reply replies IH]; intros retries s HF Hr Hl; [cbn in Hl; lia|].
  apply Forall_cons in HF. destruct HF as [Hf HF].
  cbn [App.optimizeLoop]. destruct (Z.ltb_spec retries maxRetries) as [_|]; [|lia].
  cbn [negb]. cbn [length] in Hl.
  assert (Step : App.trace (fst (optimizeLoop replies (retries + 1)
                   (App.setIsOptimizing false
                      (App.onFetchError maxRetries baseDelay (App.optimizeTerminal maxRetries)
                         (retries + 1) (App.fetched s)))))
                 = App.trace s
                   ++ Notions.retried baseDelay (retries + 1)
                        (Z.to_nat (maxRetries - retries - 1))
                   ++ [App.Request]).
  { unfold App.onFetchError. destruct (Z.ltb_spec (retries + 1) maxRetries).
    - rewrite IH by (auto; lia). cbn [App.trace App.setIsOptimizing App.waited App.fetched].
      replace (Z.to_nat (maxRetries - retries - 1))
        with (S (Z.to_nat (maxRetries - (retries + 1) - 1))) by lia.
      cbn [Notions.retried]. unfold backoff.
      rewrite <- !app_assoc. reflexivity.
    - rewrite optimizeLoop_exit by lia.
      replace (Z.to_nat (maxRetries - retries - 1)) with 0%nat by lia. reflexivity. }
  destruct reply as [|status| |text]; try discriminate Hf; exact Step.
Qed.

End Loops.

Section Claims.
Variable accepts : nat -> bool.
Variable LocalTZA : Z.
Variable now : Z.

(** C3: with three attempts allowed and a transport that fails every time,
    each loop sends exactly three requests, waits [baseDelay] after the
    first failure and [2 * baseDelay] after the second (that is
    [baseDelay * 2 ^ (k - 1)] after the k-th), and ends with its
    terminal error message.  The waits fall between the attempts: on the
    network the loop does request, wait [baseDelay], request, wait
    [2 * baseDelay], request, in this order and nothing else. *)
Theorem retry_three_attempts_then_terminal baseDelay :
  (forall replies s,
     Forall (fun r => transportFailure r = true) replies ->
     (3 <= length replies)%nat ->
     exists s',
       App.parseLoop accepts LocalTZA now 3 baseDelay replies 0 s = (s', true)
       /\ App.fetches s' = (App.fetches s + 3)%nat
       /\ App.waits s' = App.waits s ++ [baseDelay; 2 * baseDelay]
       /\ App.waits s' = App.waits s ++ [backoff baseDelay 1; backoff baseDelay 2]
       /\ App.error s' = "Failed to get a valid response from LLM after 3 attempts. Please check your prompt or ensure your API key is correct and try again later."
       /\ App.trace s'
          = App.trace s ++ [App.Request; App.Delay baseDelay; App.Request;
                            App.Delay (2 * baseDelay); App.Request])
  /\ (forall replies s,
     Forall (fun r => transportFailure r = true) replies ->
     (3 <= length replies)%nat ->
     exists s',
       App.optimizeLoop 3 baseDelay replies 0 s = (s', true)
       /\ App.fetches s' = (App.fetches s + 3)%nat
       /\ App.waits s' = App.waits s ++ [baseDelay; 2 * baseDelay]
       /\ App.waits s' = App.waits s ++ [backoff baseDelay 1; backoff baseDelay 2]
       /\ App.error s' = "Failed to get a valid response from LLM for optimization after 3 attempts."
       /\ App.trace s'
          = App.trace s ++ [App.Request; App.Delay baseDelay; App.Request;
                            App.Delay (2 * baseDelay); App.Request]).
Proof.
  split; intros replies s HF Hl.
  - destruct (parseLoop_failures accepts LocalTZA now 3 baseDelay replies 0 s HF
                ltac:(lia) ltac:(cbn; lia)) as (s' & E & F & W & Er & D).
    pose proof (parseLoop_failures_trace accepts LocalTZA now 3 baseDelay replies 0 s HF
                  ltac:(lia) ltac:(cbn; lia)) as T.
    rewrite E in T. cbn [fst] in T.
    exists s'. split; [exact E|]. rewrite F, W, Er, T.
    change (seqZ (0 + 1) (3 - 0 - 1)) with [1; 2]. cbn [fmap list_fmap].
    change (Z.to_nat (3 - 0 - 1)) with 2%nat. cbn [Notions.retried app].
    unfold backoff. change (0 + 1 + 1 - 1) with 1. change (0 + 1 - 1) with 0.
    change (2 ^ (1 - 1)) with 1. change (2 ^ (2 - 1)) with 2.
    change (2 ^ 0) with 1. change (2 ^ 1) with 2.
    replace (baseDelay * 1) with baseDelay by lia.
    replace (baseDelay * 2) with (2 * baseDelay) by lia.
    repeat split.
  - destruct (optimizeLoop_failures 3 baseDelay replies 0 s HF
                ltac:(lia) ltac:(cbn; lia)) as (s' & E & F & W & Er & D).
    pose proof (optimizeLoop_failures_trace 3 baseDelay replies 0 s HF
                  ltac:(lia) ltac:(cbn; lia)) as T.
    rewrite E in T. cbn [fst] in T.
    exists s'. split; [exact E|]. rewrite F, W, Er, T.
    change (seqZ (0 + 1) (3 - 0 - 1)) with [1; 2]. cbn [fmap list_fmap].
    change (Z.to_nat (3 - 0 - 1)) with 2%nat. cbn [Notions.retried app].
    unfold backoff. change (0 + 1 + 1 - 1) with 1. change (0 + 1 - 1) with 0.
    change (2 ^ (1 - 1)) with 1. change (2 ^ (2 - 1)) with 2.
    change (2 ^ 0) with 1. change (2 ^ 1) with 2.
    replace (baseDelay * 1) with baseDelay by lia.
    replace (baseDelay * 2) with (2 * baseDelay) by lia.
    repeat split.
Qed.

(** C2, on the code: however many bodies of the wrong shape arrive in a
    row, each loop has sent a request for every one of them, has waited
    for none, and is still running, three attempts allowed or not. *)
Theorem shape_errors_are_refetched (n : nat) (s : App.State) :
  (exists s',
     App.parseLoop accepts LocalTZA now 3 1000 (replicate n App.NoCandidates) 0 s = (s', false)
     /\ App.fetches s' = (App.fetches s + n)%nat /\ App.waits s' = App.waits s)
  /\ (exists s',
     App.optimizeLoop 3 1000 (replicate n App.NoCandidates) 0 s = (s', false)
     /\ App.fetches s' = (App.fetches s + n)%nat /\ App.waits s' = App.waits s).
Proof.
  split.
  - destruct (parseLoop_shape_errors accepts LocalTZA now 3 1000
                (replicate n App.NoCandidates) 0 s) as (s' & E & F & W & D).
    + apply Forall_replicate. reflexivity.
    + lia.
    + exists s'. rewrite length_replicate in F. auto.
  - destruct (optimizeLoop_shape_errors 3 1000
                (replicate n App.NoCandidates) 0 s) as (s' & E & F & W & D).
    + apply Forall_replicate. reflexivity.
    + lia.
    + exists s'. rewrite length_replicate in F. auto.
Qed.

End Claims.

(** * What may be stored *)

Section Invariant.
Variable accepts : nat -> bool.

Lemma perform_persistable c d :
  allPersistable d ->
  (forall data, c = Firestore.setDoc data -> persistable data = true) ->
  (forall id data old, c = Firestore.updateDoc id data ->
     persistable old = true -> persistable (Firestore.merge old data) = true) ->
  allPersistable (fst (Firestore.perform accepts c d)).
Proof.
  unfold allPersistable, Firestore.perform. intros Hd Hset Hupd.
  destruct c as [data|id data|id].
  - destruct (Firestore.hasUndefined data); [exact Hd|].
    destruct (accepts _); [|exact Hd]. cbn.
    apply map_Forall_insert_2; eauto.
  - destruct (accepts _); [|exact Hd].
    destruct (Firestore.docs d !! id) as [old|] eqn:L; [|exact Hd]. cbn.
    apply map_Forall_insert_2; [|exact Hd]. eapply Hupd; eauto.
  - destruct (accepts _); [|exact Hd]. cbn.
    intros j f Hj. apply lookup_delete_Some in Hj. destruct Hj as [_ Hj]. exact (Hd _ _ Hj).
Qed.

Lemma append_nonempty a b : b <> EmptyString -> a +:+ b <> EmptyString.
Proof. destruct a; cbn; [auto|discriminate]. Qed.

Lemma inferYear_nonempty y d : d <> EmptyString -> App.inferYear y d <> EmptyString.
Proof.
  intros H. unfold App.inferYear.
  repeat case_match; try assumption;
    repeat (apply append_nonempty; try assumption).
Qed.

Lemma truthy_inv v : App.truthy v = true -> exists x, v = Some x /\ x <> EmptyString.
Proof.
  destruct v as [x|]; [|discriminate]. cbn. intros H. exists x. split; [reflexivity|].
  intros ->. discriminate.
Qed.

Section Paths.
Variable LocalTZA : Z.
Variable now : Z.
Variable maxRetries : Z.
Variable baseDelay : Z.

(** Parse-and-save stores only persistable events. *)
Lemma saveParsed_persistable parsed s :
  App.truthy (Firestore.title parsed) && App.truthy (Firestore.date parsed)
  && App.truthy (Firestore.time parsed) = true ->
  allPersistable (App.db s) ->
  allPersistable (App.db (fst (App.saveParsed accepts LocalTZA now parsed s))).
Proof.
  intros Ht Hs. apply andb_prop in Ht. destruct Ht as [Ht Htime].
  apply andb_prop in Ht. destruct Ht as [Htitle Hdate].
  unfold App.saveParsed. cbn [App.ready App.setParsedEvent App.db].
  destruct (App.ready s); [|exact Hs].
  match goal with
  | |- context [Firestore.perform accepts ?c ?d] =>
      pose proof (perform_persistable c d Hs) as P;
      destruct (Firestore.perform accepts c d) as [d' [e|]]
  end; cbn in *; apply P; try discriminate; intros data E; inversion E; subst;
    unfold persistable; cbn; rewrite Htitle, Htime; cbn;
    destruct (truthy_inv _ Hdate) as (x & -> & Hx); cbn;
    destruct (String.eqb_spec (App.inferYear (App.currentYear LocalTZA now) x) EmptyString)
      as [Bad|]; try reflexivity; now apply inferYear_nonempty in Bad.
Qed.

Lemma parseLoop_persistable replies : forall retries s,
  allPersistable (App.db s) ->
  allPersistable
    (App.db (fst (App.parseLoop accepts LocalTZA now maxRetries baseDelay replies retries s))).
Proof.
  induction replies as [|reply replies IH]; intros retries s Hs;
    cbn [App.parseLoop]; destruct (retries <? maxRetries); cbn [negb fst]; try exact Hs.
  destruct reply as [|status| |[|parsed]]; try (apply IH; cbn; unfold App.onFetchError;
    try destruct (_ <? _); exact Hs).
  destruct (App.truthy (Firestore.title parsed) && App.truthy (Firestore.date parsed)
            && App.truthy (Firestore.time parsed)) eqn:Ht; [|apply IH; exact Hs].
  pose proof (saveParsed_persistable parsed (App.fetched s) Ht Hs) as P.
  destruct (App.saveParsed accepts LocalTZA now parsed (App.fetched s)) as [s' [e|]];
    [apply IH|]; exact P.
Qed.

End Paths.

(** X15: the edit form stores only persistable events. *)
Lemma handleUpdateEvent_persistable s :
  allPersistable (App.db s) -> allPersistable (App.db (App.handleUpdateEvent accepts s)).
Proof.
  intros Hs. unfold App.handleUpdateEvent.
  destruct (App.editingEvent s) as [editing|]; [|exact Hs].
  destruct (App.ready s); cbn [negb]; [|exact Hs].
  destruct (String.eqb_spec (App.title (App.editFormData s)) EmptyString) as [|Ht]; [exact Hs|].
  destruct (String.eqb_spec (App.date (App.editFormData s)) EmptyString) as [|Hd]; [exact Hs|].
  destruct (String.eqb_spec (App.time (App.editFormData s)) EmptyString) as [|Hm]; [exact Hs|].
  cbn [orb App.db App.setError App.setIsLoading App.editFormData].
  match goal with
  | |- context [Firestore.perform accepts ?c ?d] =>
      pose proof (perform_persistable c d Hs) as P;
      destruct (Firestore.perform accepts c d) as [d' [e|]]
  end; cbn [fst App.db App.setDb App.setIsLoading App.setError App.handleCloseEditModal
              App.setEditFormData App.setEditingEvent] in *;
    apply P; try discriminate; intros id data old E _; inversion E; subst;
    unfold persistable, Firestore.merge;
    cbn [Firestore.title Firestore.date Firestore.time Firestore.description
         Firestore.locationType from_option Firestore.isUndefined negb];
    rewrite !truthy_nonempty by assumption; reflexivity.
Qed.

(** So do the move and delete branches of the applier, and the skip. *)
Lemma applyChange_not_add_persistable c s :
  String.eqb (App.type c) "add" = false ->
  allPersistable (App.db s) ->
  allPersistable (App.db (fst (App.applyChange accepts c s))).
Proof.
  intros Ha Hs. unfold App.applyChange. rewrite Ha.
  destruct (String.eqb (App.type c) "move" && App.truthy (App.eventId c)
            && App.truthy (App.newTime c)) eqn:Em.
  - apply andb_prop in Em. destruct Em as [_ Hn].
    destruct (truthy_inv _ Hn) as (t & Et & Hne).
    unfold App.await.
    match goal with
    | |- context [Firestore.perform accepts ?c ?d] =>
        pose proof (perform_persistable c d Hs) as P;
        destruct (Firestore.perform accepts c d) as [d' e]
    end. cbn in *. apply P; try discriminate.
    intros id data old E Ho. inversion E; subst. rewrite Et.
    unfold persistable, Firestore.merge, App.timeOnly in *.
    cbn [Firestore.title Firestore.date Firestore.time Firestore.description
         Firestore.locationType from_option].
    rewrite (truthy_nonempty t Hne).
    repeat (apply andb_prop in Ho; destruct Ho as [Ho ?]).
    repeat (apply andb_true_intro; split); auto.
  - destruct (String.eqb (App.type c) "delete" && App.truthy (App.eventId c)); [|exact Hs].
    unfold App.await.
    match goal with
    | |- context [Firestore.perform accepts ?c ?d] =>
        pose proof (perform_persistable c d Hs) as P;
        destruct (Firestore.perform accepts c d) as [d' e]
    end. cbn in *. apply P; discriminate.
Qed.

End Invariant.

(** * Facts about the matcher and the day filter *)

Lemma digitVal_range c v : digitVal c = Some v -> 0 <= v <= 9.
Proof.
  unfold digitVal. destruct (Z.leb_spec 48 (Z.of_N (N_of_ascii c)));
    destruct (Z.leb_spec (Z.of_N (N_of_ascii c)) 57); cbn; intros E; inversion E; lia.
Qed.

Lemma num2_range a b v : num2 a b = Some v -> 0 <= v <= 99.
Proof.
  unfold num2. destruct (digitVal a) as [x|] eqn:Ea; [|discriminate].
  destruct (digitVal b) as [y|] eqn:Eb; [|discriminate]. cbn. intros H. inversion H.
  apply digitVal_range in Ea, Eb. lia.
Qed.

Lemma num4_range a b c d v : num4 a b c d = Some v -> 0 <= v <= 9999.
Proof.
  unfold num4. destruct (num2 a b) as [x|] eqn:Ea; [|discriminate].
  destruct (num2 c d) as [y|] eqn:Eb; [|discriminate]. cbn. intros H. inversion H.
  apply num2_range in Ea, Eb. lia.
Qed.

Lemma DaysInMonth_monthLength y m : 1 <= m <= 12 -> DaysInMonth y m = monthLength y (m - 1).
Proof.
  intros Hm. unfold DaysInMonth, monthLength, leapFlag.
  assert ((m - 1) / 12 = 0) as -> by (Z.div_mod_to_equations; lia).
  assert ((m - 1) mod 12 = m - 1) as -> by (Z.div_mod_to_equations; lia).
  replace (y + 0) with y by lia. replace (m - 1 + 1) with m by lia. reflexivity.
Qed.

Lemma parseYMD_inv l y m d rest :
  parseYMD l = Some (y, m, d, rest) ->
  exists y1 y2 y3 y4 m1 m2 d1 d2,
    l = y1 :: y2 :: y3 :: y4 :: "-"%char :: m1 :: m2 :: "-"%char :: d1 :: d2 :: rest
    /\ num4 y1 y2 y3 y4 = Some y /\ num2 m1 m2 = Some m /\ num2 d1 d2 = Some d
    /\ 1 <= m <= 12 /\ 1 <= d <= DaysInMonth y m.
Proof.
  unfold parseYMD. do 10 (destruct l as [|? l]; [discriminate|]).
  destruct (Ascii.eqb_spec a3 "-"); [|discriminate].
  destruct (Ascii.eqb_spec a6 "-"); [|discriminate]. cbn [andb]. subst.
  destruct (num4 _ _ _ _) as [y'|] eqn:Ey; [|discriminate]. cbn [mbind option_bind].
  destruct (num2 a4 a5) as [m'|] eqn:Em; [|discriminate]. cbn [mbind option_bind].
  destruct (num2 a7 a8) as [d'|] eqn:Ed; [|discriminate]. cbn [mbind option_bind].
  destruct (Z.leb_spec 1 m'); [|discriminate].
  destruct (Z.leb_spec m' 12); [|discriminate].
  destruct (Z.leb_spec 1 d'); [|discriminate].
  destruct (Z.leb_spec d' (DaysInMonth y' m')); [|discriminate].
  cbn [andb]. intros Eq. inversion Eq; subst.
  do 8 eexists. repeat split; eauto.
Qed.

Lemma parseYMD_build y1 y2 y3 y4 m1 m2 d1 d2 rest y m d :
  num4 y1 y2 y3 y4 = Some y -> num2 m1 m2 = Some m -> num2 d1 d2 = Some d ->
  1 <= m <= 12 -> 1 <= d <= DaysInMonth y m ->
  parseYMD (y1 :: y2 :: y3 :: y4 :: "-"%char :: m1 :: m2 :: "-"%char :: d1 :: d2 :: rest)
  = Some (y, m, d, rest).
Proof.
  intros Ey Em Ed Hm Hd. unfold parseYMD. change (Ascii.eqb "-" "-") with true.
  cbn [andb]. rewrite Ey, Em, Ed. cbn [mbind option_bind].
  destruct (Z.leb_spec 1 m); [|lia]. destruct (Z.leb_spec m 12); [|lia].
  destruct (Z.leb_spec 1 d); [|lia]. destruct (Z.leb_spec d (DaysInMonth y m)); [|lia].
  reflexivity.
Qed.

Lemma parseYMD_range l y m d rest :
  parseYMD l = Some (y, m, d, rest) ->
  0 <= y <= 9999 /\ 1 <= m <= 12 /\ 1 <= d <= monthLength y (m - 1).
Proof.
  intros H. apply parseYMD_inv in H.
  destruct H as (y1 & y2 & y3 & y4 & m1 & m2 & d1 & d2 & _ & Ey & _ & _ & Hm & Hd).
  apply num4_range in Ey. rewrite <- DaysInMonth_monthLength by lia. lia.
Qed.

Lemma parseHM_inv l h mi :
  parseHM l = Some (h, mi) ->
  exists h1 h2 m1 m2,
    l = [h1; h2; ":"%char; m1; m2]
    /\ num2 h1 h2 = Some h /\ num2 m1 m2 = Some mi /\ 0 <= h <= 23 /\ 0 <= mi <= 59.
Proof.
  unfold parseHM. do 5 (destruct l as [|? l]; [discriminate|]).
  destruct l; [|discriminate].
  destruct (Ascii.eqb_spec a1 ":"); [|discriminate]. subst.
  destruct (num2 a a0) as [h'|] eqn:Eh; [|discriminate]. cbn [mbind option_bind].
  destruct (num2 a2 a3) as [m'|] eqn:Em; [|discriminate]. cbn [mbind option_bind].
  destruct (Z.leb_spec h' 23); [|discriminate].
  destruct (Z.leb_spec m' 59); [|discriminate].
  cbn [andb]. intros Eq. inversion Eq; subst.
  pose proof (num2_range _ _ _ Eh). pose proof (num2_range _ _ _ Em).
  do 4 eexists. repeat split; eauto; lia.
Qed.

Lemma list_ascii_of_string_app a b :
  list_ascii_of_string (a +:+ b) = list_ascii_of_string a ++ list_ascii_of_string b.
Proof.
  induction a as [|c a IH]; [reflexivity|].
  change (String c a +:+ b) with (String c (a +:+ b)).
  cbn [list_ascii_of_string app]. now rewrite IH.
Qed.

Lemma digitVal_not_colon c v : digitVal c = Some v -> Ascii.eqb c ":" = false.
Proof.
  intros H. destruct (Ascii.eqb_spec c ":") as [->|]; [|reflexivity].
  vm_compute in H. discriminate.
Qed.

Lemma num2_inv a b v :
  num2 a b = Some v -> exists x y, digitVal a = Some x /\ digitVal b = Some y /\ v = 10 * x + y.
Proof.
  unfold num2. destruct (digitVal a) as [x|]; [|discriminate].
  destruct (digitVal b) as [y|]; [|discriminate]. cbn. intros E. inversion E. eauto.
Qed.

Lemma hourMinute_wf e h mi :
  timeOf e = Some (h, mi) -> Matcher.hourMinute (Matcher.time e) = (Some h, Some mi).
Proof.
  unfold timeOf, Matcher.hourMinute, split, Number. intros H.
  apply parseHM_inv in H. destruct H as (h1 & h2 & m1 & m2 & -> & Eh & Em & _ & _).
  apply num2_inv in Eh, Em.
  destruct Eh as (x1 & x2 & E1 & E2 & ->). destruct Em as (x3 & x4 & E3 & E4 & ->).
  cbn [split_colon].
  rewrite (digitVal_not_colon _ _ E1), (digitVal_not_colon _ _ E2),
    (digitVal_not_colon _ _ E3), (digitVal_not_colon _ _ E4).
  change (Ascii.eqb ":" ":") with true. cbn [rev app map lookup list_lookup default].
  cbn [string_of_list_ascii list_ascii_of_string digitsVal].
  rewrite E1, E2, E3, E4. cbn [mbind option_bind digitsVal]. do 2 f_equal; f_equal; lia.
Qed.

Lemma setHours_value tz t h m :
  setHours tz (Some t) (Some h) (Some m) 0 0
  = TimeClip (Day (t + tz) * msPerDay + (h * msPerHour + m * msPerMinute) - tz).
Proof.
  unfold setHours, LocalTime, UTC, MakeDate, MakeTime. cbn [mbind option_bind].
  f_equal. lia.
Qed.

Lemma TimeClip_ok t : Z.abs t <= 8640000000000000 -> TimeClip t = Some t.
Proof. intros H. unfold TimeClip. destruct (Z.leb_spec (Z.abs t) 8640000000000000); [reflexivity|lia]. Qed.

Lemma Day_of_midnight D tz : Day (D * msPerDay - tz + tz) = D.
Proof. unfold Day, msPerDay. Z.div_mod_to_equations. lia. Qed.

Lemma Day_shift D tz : Day (D * msPerDay + tz) = D + tz / msPerDay.
Proof. unfold Day, msPerDay. Z.div_mod_to_equations. lia. Qed.

(** The day number of the date an event names. *)
Lemma eventDay_range y m d :
  0 <= y <= 9999 -> 1 <= m <= 12 -> 1 <= d <= monthLength y (m - 1) ->
  -99999999 <= MakeDay y (m - 1) d <= 99999999 - 2.
Proof.
  intros Hy Hm Hd. pose proof (monthLength_range y (m - 1)).
  unfold MakeDay.
  assert ((m - 1) / 12 = 0) as -> by (Z.div_mod_to_equations; lia).
  assert ((m - 1) mod 12 = m - 1) as -> by (Z.div_mod_to_equations; lia).
  replace (y + 0) with y by lia. fold (leapFlag y).
  pose proof (monthStart_step (leapFlag y) (m - 1) (leapFlag_range y) ltac:(lia)).
  pose proof (DayFromYear_mono 0 y ltac:(lia)) as Lo.
  pose proof (DayFromYear_mono y 9999 ltac:(lia)) as Hi.
  change (DayFromYear 0) with (-719528) in Lo.
  change (DayFromYear 9999) with 2932532 in Hi.
  pose proof (leapFlag_range y). lia.
Qed.

Lemma parse_date_wf tz e y m d :
  dateOf e = Some (y, m, d) ->
  parse tz (Matcher.date e) = Some (MakeDay y (m - 1) d * msPerDay)
  /\ 0 <= y <= 9999 /\ 1 <= m <= 12 /\ 1 <= d <= monthLength y (m - 1).
Proof.
  unfold dateOf, parse. intros H.
  destruct (parseYMD (list_ascii_of_string (Matcher.date e))) as [[[[y' m'] d'] rest]|] eqn:E;
    [|discriminate].
  destruct rest; [|discriminate]. inversion H; subst.
  pose proof (parseYMD_range _ _ _ _ _ E) as (Hy & Hm & Hd).
  pose proof (eventDay_range y m d Hy Hm Hd).
  split; [|auto]. unfold MakeDate. rewrite TimeClip_ok by (unfold msPerDay; lia).
  f_equal. lia.
Qed.

Lemma timestamp_wf tz e y m d h mi :
  - msPerDay <= tz <= msPerDay ->
  dateOf e = Some (y, m, d) -> timeOf e = Some (h, mi) ->
  Matcher.timestamp tz e = Some (localInstant tz y m d h mi)
  /\ 0 <= h <= 23 /\ 0 <= mi <= 59.
Proof.
  unfold dateOf, timeOf, Matcher.timestamp, parse. intros Htz Hd Ht.
  destruct (parseYMD (list_ascii_of_string (Matcher.date e))) as [[[[y' m'] d'] rest]|] eqn:E;
    [|discriminate].
  destruct rest; [|discriminate]. inversion Hd; subst.
  pose proof (parseYMD_range _ _ _ _ _ E) as (Hy & Hm & Hdd).
  pose proof (eventDay_range y m d Hy Hm Hdd).
  apply parseYMD_inv in E.
  destruct E as (y1 & y2 & y3 & y4 & m1 & m2 & d1 & d2 & El & Ey & Em & Ed & _ & Hdim).
  rewrite !list_ascii_of_string_app, El. cbn [list_ascii_of_string app].
  rewrite (parseYMD_build _ _ _ _ _ _ _ _ _ y m d Ey Em Ed) by lia.
  change (Ascii.eqb "T" "T") with true. cbv iota. rewrite Ht. cbn [mbind option_bind].
  apply parseHM_inv in Ht. destruct Ht as (h1 & h2 & mm1 & mm2 & _ & _ & _ & Hh & Hmi).
  split; [|auto]. unfold localInstant. apply TimeClip_ok.
  unfold UTC, MakeDate, MakeTime, msPerDay, msPerHour, msPerMinute, msPerSecond in *. lia.
Qed.

Lemma toDateString_same_day tz a b :
  Day (a + tz) = Day (b + tz) -> toDateString tz (Some a) = toDateString tz (Some b).
Proof.
  intros H. unfold toDateString, LocalTime. cbn [mbind option_bind].
  unfold WeekDay, MonthFromTime, DateFromTime, MonthFromTime, InLeapYear, DayWithinYear,
    YearFromTime. now rewrite H.
Qed.

Lemma toDateString_inj tz a b :
  toDateString tz (Some a) = toDateString tz (Some b) -> Day (a + tz) = Day (b + tz).
Proof.
  unfold toDateString, LocalTime. cbn [mbind option_bind]. intros H.
  injection H as _ HM HD HY.
  unfold DateFromTime in HD. rewrite HM in HD.
  unfold InLeapYear in HD. rewrite HY in HD.
  unfold DayWithinYear in HD. rewrite HY in HD. lia.
Qed.

Section MatcherFacts.
Variable tz : Z.
Variable now : Z.
Hypothesis Htz : - msPerDay <= tz < msPerDay.
Hypothesis Hnow : clockInRange now.

Lemma today_value :
  Matcher.startOfDay tz (Some now) = Some (Day (now + tz) * msPerDay - tz).
Proof.
  unfold Matcher.startOfDay. rewrite setHours_value.
  rewrite TimeClip_ok; [f_equal; lia|].
  unfold clockInRange, Day, msPerDay in *. Z.div_mod_to_equations. lia.
Qed.

Lemma eventDate_value e y m d :
  dateOf e = Some (y, m, d) ->
  Matcher.startOfDay tz (parse tz (Matcher.date e))
  = Some ((MakeDay y (m - 1) d + tz / msPerDay) * msPerDay - tz).
Proof.
  intros H. destruct (parse_date_wf tz e y m d H) as (-> & Hy & Hm & Hd).
  pose proof (eventDay_range y m d Hy Hm Hd).
  unfold Matcher.startOfDay. rewrite setHours_value, Day_shift.
  rewrite TimeClip_ok; [f_equal; lia|].
  unfold msPerDay in *. Z.div_mod_to_equations. lia.
Qed.

(** What the filter callback computes for an event with a well-formed date
    and time: [D] is the local day its date lands on after
    [new Date(event.date).setHours(0, 0, 0, 0)], [T] is today. *)
Lemma isMatchingUpcoming_wf label e y m d h mi :
  dateOf e = Some (y, m, d) -> timeOf e = Some (h, mi) ->
  let D := MakeDay y (m - 1) d + tz / msPerDay in
  let T := Day (now + tz) in
  Matcher.isMatchingUpcoming tz now label e
  = Matcher.locationMatches label e
    && (if D =? T then now <? T * msPerDay + (h * msPerHour + mi * msPerMinute) - tz
        else T <? D).
Proof.
  intros Hd Ht D T. unfold Matcher.isMatchingUpcoming.
  rewrite today_value, (eventDate_value e y m d Hd), (hourMinute_wf e h mi Ht).
  fold D T.
  destruct (timestamp_wf tz e y m d h mi ltac:(lia) Hd Ht) as (_ & Hh & Hmi).
  destruct (Z.eqb_spec D T) as [E|N].
  - rewrite bool_decide_eq_true_2
      by (apply toDateString_same_day; rewrite !Day_of_midnight; exact E).
    rewrite setHours_value. fold T.
    rewrite TimeClip_ok; [reflexivity|].
    unfold clockInRange, msPerDay, msPerHour, msPerMinute in *. subst T. unfold Day, msPerDay.
    Z.div_mod_to_equations. lia.
  - rewrite bool_decide_eq_false_2.
    + cbn [num_gt]. f_equal.
      destruct (Z.ltb_spec (T * msPerDay - tz) (D * msPerDay - tz)),
        (Z.ltb_spec T D); try reflexivity; unfold msPerDay in *; lia.
    + intros Eq. apply toDateString_inj in Eq. rewrite !Day_of_midnight in Eq. contradiction.
Qed.

(** The half of C4 that holds in every zone: an event the filter keeps
    lies strictly after now. *)
Lemma isMatchingUpcoming_future label e y m d h mi :
  dateOf e = Some (y, m, d) -> timeOf e = Some (h, mi) ->
  Matcher.isMatchingUpcoming tz now label e = true ->
  now < localInstant tz y m d h mi.
Proof.
  intros Hd Ht. rewrite (isMatchingUpcoming_wf label e y m d h mi Hd Ht).
  destruct (timestamp_wf tz e y m d h mi ltac:(lia) Hd Ht) as (_ & Hh & Hmi).
  intros H. apply andb_prop in H. destruct H as [_ H].
  assert (Hq : -1 <= tz / msPerDay <= 1) by (unfold msPerDay in *; Z.div_mod_to_equations; lia).
  unfold localInstant, UTC, MakeDate, MakeTime.
  destruct (Z.eqb_spec (MakeDay y (m - 1) d + tz / msPerDay) (Day (now + tz))) as [E|N].
  - apply Z.ltb_lt in H. rewrite <- E in H.
    assert (tz / msPerDay <= 0); [|unfold msPerDay, msPerHour, msPerMinute, msPerSecond in *; nia].
    unfold msPerDay in *. Z.div_mod_to_equations. lia.
  - apply Z.ltb_lt in H.
    assert (tz / msPerDay <= 0) by (unfold msPerDay in *; Z.div_mod_to_equations; lia).
    unfold Day, msPerDay, msPerHour, msPerMinute, msPerSecond in *.
    Z.div_mod_to_equations. nia.
Qed.

End MatcherFacts.

(** ** The sort *)

Section SortFacts.
Context {A : Type} (comparefn : A -> A -> Num).

Lemma insert_sorted_elem_of x y l :
  y ∈ JSArray.insert_sorted comparefn x l <-> y = x \/ y ∈ l.
Proof.
  induction l as [|z l IH]; cbn [JSArray.insert_sorted].
  - rewrite list_elem_of_singleton. rewrite elem_of_nil. tauto.
  - destruct (0 <? JSArray.SortCompare comparefn x z).
    + rewrite !elem_of_cons, IH. tauto.
    + rewrite !elem_of_cons. tauto.
Qed.

Lemma sort_elem_of y l : y ∈ JSArray.sort comparefn l <-> y ∈ l.
Proof.
  induction l as [|x l IH]; cbn [JSArray.sort]; [reflexivity|].
  rewrite insert_sorted_elem_of, elem_of_cons, IH. reflexivity.
Qed.

Lemma sort_nil_inv l : JSArray.sort comparefn l = [] -> l = [].
Proof.
  destruct l as [|x l]; [reflexivity|]. intros H.
  assert (x ∈ JSArray.sort comparefn (x :: l)) as Hx by (apply sort_elem_of; left).
  rewrite H in Hx. inversion Hx.
Qed.

(** With a comparator that subtracts keys, the first element of the sorted
    array has the least key. *)
Lemma head_sort_least (key : A -> Z) l x :
  (forall a b, a ∈ l -> b ∈ l -> comparefn a b = Some (key a - key b)) ->
  head (JSArray.sort comparefn l) = Some x ->
  x ∈ l /\ forall y, y ∈ l -> key x <= key y.
Proof.
  revert x. induction l as [|a l IH]; intros x Hc Hh; [discriminate|].
  cbn [JSArray.sort] in Hh.
  assert (Hc' : forall a0 b, a0 ∈ l -> b ∈ l -> comparefn a0 b = Some (key a0 - key b))
    by (intros; apply Hc; now right).
  destruct (JSArray.sort comparefn l) as [|s r] eqn:Es.
  - apply sort_nil_inv in Es. subst l. cbn in Hh. inversion Hh; subst.
    split; [left|]. intros y Hy. apply list_elem_of_singleton in Hy. subst. lia.
  - destruct (IH s Hc' eq_refl) as [Hs Hmin].
    cbn [JSArray.insert_sorted] in Hh. unfold JSArray.SortCompare in Hh.
    rewrite (Hc a s) in Hh by (try left; now right).
    change (default 0 (Some (key a - key s))) with (key a - key s) in Hh.
    destruct (Z.ltb_spec 0 (key a - key s)); cbn [head] in Hh; injection Hh as <-.
    + split; [apply elem_of_cons; right; exact Hs|]. intros y Hy. apply elem_of_cons in Hy.
      destruct Hy as [->|Hy]; [lia|auto].
    + split; [apply elem_of_cons; left; reflexivity|]. intros y Hy. apply elem_of_cons in Hy.
      destruct Hy as [->|Hy]; [lia|]. specialize (Hmin y Hy). lia.
Qed.

End SortFacts.

Lemma filter_ext_elem_of {A} (P Q : A -> Prop) `{!forall x, Decision (P x)}
    `{!forall x, Decision (Q x)} (l : list A) :
  (forall x, x ∈ l -> (P x <-> Q x)) -> filter P l = filter Q l.
Proof.
  induction l as [|x l IH]; intros Hpq; [reflexivity|].
  rewrite !filter_cons.
  assert (Hx : P x <-> Q x) by (apply Hpq; left).
  rewrite IH by (intros; apply Hpq; now right).
  destruct (decide (P x)), (decide (Q x)); tauto || reflexivity.
Qed.

(** The suggested event is one of the events, matches the label and was
    kept by the filter. *)
Lemma suggestion_from_filter tz now label events e :
  Matcher.proactiveSuggestion tz now label events = Some e ->
  label <> EmptyString /\ e ∈ events
  /\ Matcher.locationMatches label e = true
  /\ Matcher.isMatchingUpcoming tz now label e = true.
Proof.
  unfold Matcher.proactiveSuggestion, Matcher.matchingUpcomingEvents.
  destruct (String.eqb_spec label EmptyString) as [|Hl]; [discriminate|].
  destruct (length events =? 0)%nat; [discriminate|]. cbn [orb]. intros H.
  assert (He : e ∈ JSArray.sort (Matcher.byTimestamp tz)
                 (filter (fun e => Matcher.isMatchingUpcoming tz now label e = true) events)).
  { destruct (JSArray.sort _ _) as [|x l]; [discriminate|]. inversion H. left. }
  apply sort_elem_of, list_elem_of_filter in He. destruct He as [Hm He].
  repeat split; auto.
  unfold Matcher.isMatchingUpcoming in Hm.
  destruct (bool_decide _); [destruct (Matcher.hourMinute _) as [a b]|];
    apply andb_prop in Hm; tauto.
Qed.

Section Suggestion.
Variable tz : Z.
Variable now : Z.
Hypothesis Htz : - msPerDay <= tz < msPerDay.
Hypothesis Hnow : clockInRange now.


End Suggestion.

Section East.
Variable tz : Z.
Variable now : Z.
Hypothesis Htz : 0 <= tz < msPerDay.
Hypothesis Hnow : clockInRange now.

(** East of Greenwich the filter keeps exactly the matching events that lie
    strictly after now. *)
Lemma isMatchingUpcoming_east label e y m d h mi :
  dateOf e = Some (y, m, d) -> timeOf e = Some (h, mi) ->
  Matcher.isMatchingUpcoming tz now label e
  = Matcher.locationMatches label e && (now <? localInstant tz y m d h mi).
Proof.
  intros Hd Ht.
  rewrite (isMatchingUpcoming_wf tz now ltac:(lia) Hnow label e y m d h mi Hd Ht).
  destruct (timestamp_wf tz e y m d h mi ltac:(lia) Hd Ht) as (_ & Hh & Hmi).
  f_equal.
  assert (tz / msPerDay = 0) as -> by (unfold msPerDay in *; Z.div_mod_to_equations; lia).
  unfold localInstant, UTC, MakeDate, MakeTime.
  replace (MakeDay y (m - 1) d + 0) with (MakeDay y (m - 1) d) by lia.
  set (D := MakeDay y (m - 1) d).
  destruct (Z.eqb_spec D (Day (now + tz))) as [E|N].
  - rewrite <- E. f_equal. unfold msPerSecond. lia.
  - destruct (Z.ltb_spec (Day (now + tz)) D),
      (Z.ltb_spec now (D * msPerDay + (h * msPerHour + mi * msPerMinute + 0 * msPerSecond + 0) - tz));
      try reflexivity; exfalso;
      unfold Day, msPerDay, msPerHour, msPerMinute, msPerSecond in *;
      Z.div_mod_to_equations; nia.
Qed.

Lemma timestamp_key e :
  wellFormed e -> exists t, Matcher.timestamp tz e = Some t.
Proof.
  intros [[[[y m] d] Hd] [[h mi] Ht]].
  destruct (timestamp_wf tz e y m d h mi ltac:(lia) Hd Ht) as (E & _). eauto.
Qed.


End East.

(** ** The day filter *)

Lemma Day_decompose t :
  Day t = DayFromYear (YearFromTime t)
          + monthStart (InLeapYear t) (MonthFromTime t) + DateFromTime t - 1.
Proof. unfold DateFromTime, DayWithinYear. lia. Qed.

(** A time value falls on the calendar date (y, m, d) exactly when its day
    number is that of the date. *)
Lemma localDate_iff tz t y m d :
  1 <= m <= 12 -> 1 <= d <= monthLength y (m - 1) ->
  MakeDay y (m - 1) d = Day (t + tz) <-> localDate tz t = (y, m, d).
Proof.
  intros Hm Hd. unfold localDate, LocalTime.
  assert (Q : (m - 1) / 12 = 0) by (Z.div_mod_to_equations; lia).
  assert (R : (m - 1) mod 12 = m - 1) by (Z.div_mod_to_equations; lia).
  split.
  - intros E. symmetry in E.
    destruct (civil_of_time (t + tz) y (m - 1) d E Hd) as (-> & -> & ->).
    rewrite Q, R. do 2 f_equal; lia.
  - intros E. injection E as EY EM ED.
    rewrite (Day_decompose (t + tz)). unfold InLeapYear. rewrite EY, ED.
    replace (MonthFromTime (t + tz)) with (m - 1) by lia.
    unfold MakeDay. rewrite Q, R. replace (y + 0) with y by lia. lia.
Qed.

Section DayFilter.
Variable tz : Z.
Variable selected : Z.
Hypothesis Htz : - msPerDay <= tz < msPerDay.
Hypothesis Hsel : clockInRange selected.

(** What the day filter computes in any zone: the events dated on the local
    date of the selected instant moved back by the whole days in the zone
    offset, which is none east of Greenwich and minus one west of it. *)
Lemma filteredEvents_zone events :
  Forall (fun e => is_Some (dateOf e)) events ->
  Matcher.filteredEvents tz events (Some selected)
  = filter (fun e => dateOf e
                     = Some (localDate tz (selected - tz / msPerDay * msPerDay))) events.
Proof.
  intros Hwf. rewrite Forall_forall in Hwf. unfold Matcher.filteredEvents.
  apply filter_ext_elem_of. intros e He.
  destruct (Hwf e He) as [[[y m] d] Hd].
  rewrite (today_value tz selected Hsel), (eventDate_value tz e y m d Hd).
  destruct (parse_date_wf tz e y m d Hd) as (_ & Hy & Hm & Hdd).
  cbn [num_eq]. rewrite Hd.
  assert (S : Day (selected - tz / msPerDay * msPerDay + tz)
              = Day (selected + tz) - tz / msPerDay)
    by (unfold Day, msPerDay; Z.div_mod_to_equations; lia).
  split.
  - intros E. apply Z.eqb_eq in E. f_equal. symmetry.
    apply localDate_iff; auto. rewrite S. unfold msPerDay in *. lia.
  - intros E.
    assert (E2 : localDate tz (selected - tz / msPerDay * msPerDay) = (y, m, d)) by congruence.
    apply localDate_iff in E2; auto.
    rewrite S in E2. apply Z.eqb_eq. unfold msPerDay in *. lia.
Qed.

End DayFilter.

(** X4: east of Greenwich, for events whose dates all have the form
    [YYYY-MM-DD] and name a day that exists, and a selected instant the
    clock can show, the day filter keeps exactly the events dated on the
    local date of the selected instant. *)
Lemma filteredEvents_east tz selected events :
  0 <= tz < msPerDay -> clockInRange selected ->
  Forall (fun e => is_Some (dateOf e)) events ->
  Matcher.filteredEvents tz events (Some selected)
  = filter (fun e => dateOf e = Some (localDate tz selected)) events.
Proof.
  intros Htz Hsel Hwf. rewrite filteredEvents_zone by (auto; lia).
  assert (tz / msPerDay = 0) as -> by (unfold msPerDay in *; Z.div_mod_to_equations; lia).
  now replace (selected - 0 * msPerDay) with selected by lia.
Qed.

(** X5: west of Greenwich, for events whose dates all have the form
    [YYYY-MM-DD] and name a day that exists, and a selected instant the
    clock can show, the day filter keeps exactly the events dated on the
    day after the local date of the selected instant. *)
Lemma filteredEvents_west tz selected events :
  - msPerDay <= tz < 0 -> clockInRange selected ->
  Forall (fun e => is_Some (dateOf e)) events ->
  Matcher.filteredEvents tz events (Some selected)
  = filter (fun e => dateOf e = Some (localDate tz (selected + msPerDay))) events.
Proof.
  intros Htz Hsel Hwf. rewrite filteredEvents_zone by (auto; unfold msPerDay in *; lia).
  assert (tz / msPerDay = -1) as -> by (unfold msPerDay in *; Z.div_mod_to_equations; lia).
  now replace (selected - -1 * msPerDay) with (selected + msPerDay) by lia.
Qed.


Import Notions.

(** * Further properties: the sort and the snapshot handler *)

Section SortOrder.
Context {A : Type} (comparefn : A -> A -> Num) (key : A -> Z).

Lemma insert_sorted_perm x l : JSArray.insert_sorted comparefn x l ≡ₚ x :: l.
Proof.
  induction l as [|y l IH]; cbn [JSArray.insert_sorted]; [reflexivity|].
  destruct (0 <? JSArray.SortCompare comparefn x y); [|reflexivity].
  rewrite IH. apply Permutation_swap.
Qed.

Lemma sort_perm l : JSArray.sort comparefn l ≡ₚ l.
Proof.
  induction l as [|x l IH]; cbn [JSArray.sort]; [reflexivity|].
  now rewrite insert_sorted_perm, IH.
Qed.

Lemma keyed_cons x l : keyed comparefn key (x :: l) -> keyed comparefn key l.
Proof. intros H a b Ha Hb. apply H; now right. Qed.

Lemma keyed_perm l l' : l ≡ₚ l' -> keyed comparefn key l -> keyed comparefn key l'.
Proof. intros P H a b Ha Hb. apply H; now rewrite P. Qed.

Lemma insert_sorted_sorted x l :
  keyed comparefn key (x :: l) ->
  StronglySorted (fun a b => key a <= key b) l ->
  StronglySorted (fun a b => key a <= key b) (JSArray.insert_sorted comparefn x l).
Proof.
  intros Hk Hs. induction Hs as [|y l Hs IH Hy]; cbn [JSArray.insert_sorted].
  - repeat constructor.
  - unfold JSArray.SortCompare.
    rewrite (Hk x y) by (try left; right; left).
    change (default 0 (Some (key x - key y))) with (key x - key y).
    destruct (Z.ltb_spec 0 (key x - key y)).
    + constructor.
      * apply IH. intros a b Ha Hb. apply Hk.
        -- apply elem_of_cons in Ha. destruct Ha as [->|Ha]; [left|right; now right].
        -- apply elem_of_cons in Hb. destruct Hb as [->|Hb]; [left|right; now right].
      * apply Forall_forall. intros z Hz. apply insert_sorted_elem_of in Hz.
        destruct Hz as [->|Hz]; [lia|]. rewrite Forall_forall in Hy. now apply Hy.
    + constructor; [now constructor|]. constructor; [lia|].
      rewrite Forall_forall in Hy |- *. intros z Hz. specialize (Hy z Hz). lia.
Qed.

Lemma sort_sorted l :
  keyed comparefn key l -> StronglySorted (fun a b => key a <= key b) (JSArray.sort comparefn l).
Proof.
  induction l as [|x l IH]; intros Hk; cbn [JSArray.sort]; [constructor|].
  apply insert_sorted_sorted; [|apply IH; eapply keyed_cons; eauto].
  eapply keyed_perm; [|exact Hk]. constructor. symmetry. apply sort_perm.
Qed.

Lemma insert_sorted_stable x l k :
  keyed comparefn key (x :: l) ->
  filter (fun a => key a = k) (JSArray.insert_sorted comparefn x l)
  = filter (fun a => key a = k) (x :: l).
Proof.
  intros Hk. induction l as [|y l IH]; cbn [JSArray.insert_sorted]; [reflexivity|].
  unfold JSArray.SortCompare.
  rewrite (Hk x y) by (try left; right; left).
  change (default 0 (Some (key x - key y))) with (key x - key y).
  destruct (Z.ltb_spec 0 (key x - key y)); [|reflexivity].
  rewrite filter_cons, IH.
  - rewrite !filter_cons.
    destruct (decide (key y = k)), (decide (key x = k)); try reflexivity. lia.
  - intros a b Ha Hb. apply Hk.
    + apply elem_of_cons in Ha. destruct Ha as [->|Ha]; [left|right; now right].
    + apply elem_of_cons in Hb. destruct Hb as [->|Hb]; [left|right; now right].
Qed.

Lemma sort_stable l k :
  keyed comparefn key l ->
  filter (fun a => key a = k) (JSArray.sort comparefn l) = filter (fun a => key a = k) l.
Proof.
  induction l as [|x l IH]; intros Hk; cbn [JSArray.sort]; [reflexivity|].
  rewrite insert_sorted_stable.
  - rewrite !filter_cons, IH by (eapply keyed_cons; eauto). reflexivity.
  - eapply keyed_perm; [|exact Hk]. constructor. symmetry. apply sort_perm.
Qed.

Lemma sort_of_sorted l :
  keyed comparefn key l -> StronglySorted (fun a b => key a <= key b) l -> JSArray.sort comparefn l = l.
Proof.
  intros Hk Hs. induction Hs as [|x l Hs IH Hx]; cbn [JSArray.sort]; [reflexivity|].
  rewrite IH by (eapply keyed_cons; eauto).
  destruct l as [|y l]; [reflexivity|]. cbn [JSArray.insert_sorted].
  unfold JSArray.SortCompare. rewrite (Hk x y) by (try left; right; left).
  change (default 0 (Some (key x - key y))) with (key x - key y).
  apply Forall_cons in Hx. destruct Hx as [Hxy _].
  destruct (Z.ltb_spec 0 (key x - key y)); [lia|reflexivity].
Qed.

End SortOrder.

Lemma StronglySorted_filter_keep {A} (R : A -> A -> Prop) (P : A -> Prop)
    `{!forall x, Decision (P x)} (l : list A) :
  StronglySorted R l -> StronglySorted R (filter P l).
Proof.
  induction 1 as [|x l Hs IH Hx]; [constructor|].
  rewrite filter_cons. destruct (decide (P x)); [|exact IH].
  constructor; [exact IH|]. rewrite Forall_forall in Hx |- *.
  intros y Hy. apply list_elem_of_filter in Hy. apply Hx, Hy.
Qed.

Lemma StronglySorted_weaken {A} (R R' : A -> A -> Prop) (l : list A) :
  (forall a b, a ∈ l -> b ∈ l -> R a b -> R' a b) ->
  StronglySorted R l -> StronglySorted R' l.
Proof.
  intros H Hs. induction Hs as [|x l Hs IH Hx]; [constructor|].
  constructor.
  - apply IH. intros a b Ha Hb. apply H; now right.
  - rewrite Forall_forall in Hx |- *. intros y Hy. apply H; [left|right|]; auto.
Qed.

Section Snapshot.
Variable tz : Z.
Hypothesis Htz : - msPerDay <= tz <= msPerDay.

Lemma wellFormed_timestamp e :
  wellFormed e -> exists t, Matcher.timestamp tz e = Some t.
Proof.
  intros [[[[y m] d] Hd] [[h mi] Ht]].
  destruct (timestamp_wf tz e y m d h mi Htz Hd Ht) as (E & _). eauto.
Qed.

Lemma wellFormed_keyed l :
  Forall wellFormed l -> keyed (Matcher.byTimestamp tz) (timestampKey tz) l.
Proof.
  rewrite Forall_forall. intros Hwf a b Ha Hb.
  destruct (wellFormed_timestamp a (Hwf a Ha)) as [ta Ea].
  destruct (wellFormed_timestamp b (Hwf b Hb)) as [tb Eb].
  unfold Matcher.byTimestamp, timestampKey. now rewrite Ea, Eb.
Qed.

Lemma key_order a b :
  wellFormed a -> wellFormed b ->
  timestampKey tz a <= timestampKey tz b <->
  num_le (Matcher.timestamp tz a) (Matcher.timestamp tz b) = true.
Proof.
  intros Ha Hb.
  destruct (wellFormed_timestamp a Ha) as [ta Ea].
  destruct (wellFormed_timestamp b Hb) as [tb Eb].
  unfold timestampKey. rewrite Ea, Eb. cbn. symmetry. apply Z.leb_le.
Qed.

(** X7: the snapshot handler hands on the events it fetched, none lost,
    none added and none repeated, whatever their dates and times are. *)
Theorem snapshot_keeps_events fetched :
  AppStore.onSnapshot tz fetched ≡ₚ fetched.
Proof. apply sort_perm. Qed.

(** X8: when the dates and times of the fetched events are well formed,
    the snapshot handler puts them in ascending order of timestamp, and
    events with the same timestamp keep the order they were fetched in. *)
Theorem snapshot_sorts_by_timestamp fetched :
  Forall wellFormed fetched ->
  StronglySorted
    (fun a b => num_le (Matcher.timestamp tz a) (Matcher.timestamp tz b) = true)
    (AppStore.onSnapshot tz fetched)
  /\ forall t,
       filter (fun e => Matcher.timestamp tz e = Some t)
         (AppStore.onSnapshot tz fetched)
       = filter (fun e => Matcher.timestamp tz e = Some t) fetched.
Proof.
  unfold AppStore.onSnapshot.
  intros Hwf. pose proof (wellFormed_keyed fetched Hwf) as Hk.
  assert (Hwf' : forall e, e ∈ JSArray.sort (Matcher.byTimestamp tz) fetched -> wellFormed e).
  { intros e He. apply sort_elem_of in He. rewrite Forall_forall in Hwf. auto. }
  split.
  - eapply StronglySorted_weaken; [|apply (sort_sorted _ (timestampKey tz)); exact Hk].
    intros a b Ha Hb. apply key_order; auto.
  - intros t. rewrite Forall_forall in Hwf.
    rewrite (filter_ext_elem_of (fun e => Matcher.timestamp tz e = Some t)
               (fun e => timestampKey tz e = t) (JSArray.sort _ fetched)).
    + rewrite (sort_stable _ (timestampKey tz)) by exact Hk.
      apply filter_ext_elem_of. intros e He.
      destruct (wellFormed_timestamp e (Hwf e He)) as [te Ee].
      unfold timestampKey. rewrite Ee. cbn. split; congruence.
    + intros e He. destruct (wellFormed_timestamp e (Hwf' e He)) as [te Ee].
      unfold timestampKey. rewrite Ee. cbn. split; congruence.
Qed.

(** X9: on the events as the snapshot handler leaves them, the sort inside
    the suggestion effect changes nothing: the suggestion is the first
    event, in the order of the list, that the filter keeps. *)
Theorem suggestion_on_sorted_events now label fetched :
  Forall wellFormed fetched ->
  let events := AppStore.onSnapshot tz fetched in
  Matcher.matchingUpcomingEvents tz now label events
  = filter (fun e => Matcher.isMatchingUpcoming tz now label e = true) events
  /\ (label <> EmptyString ->
      Matcher.proactiveSuggestion tz now label events
      = head (filter (fun e => Matcher.isMatchingUpcoming tz now label e = true) events)).
Proof.
  intros Hwf events.
  assert (Hwf' : Forall wellFormed events).
  { rewrite Forall_forall in Hwf |- *. intros e He. apply Hwf.
    unfold events, AppStore.onSnapshot in He. now apply sort_elem_of in He. }
  assert (E : Matcher.matchingUpcomingEvents tz now label events
              = filter (fun e => Matcher.isMatchingUpcoming tz now label e = true) events).
  { unfold Matcher.matchingUpcomingEvents.
    apply (sort_of_sorted _ (timestampKey tz)).
    - apply wellFormed_keyed. rewrite Forall_forall in Hwf' |- *.
      intros e He. apply list_elem_of_filter in He. apply Hwf', He.
    - apply StronglySorted_filter_keep.
      apply (sort_sorted _ (timestampKey tz)). now apply wellFormed_keyed. }
  split; [exact E|]. intros Hl. unfold Matcher.proactiveSuggestion. rewrite E.
  destruct (String.eqb_spec label EmptyString); [contradiction|]. cbn [orb].
  destruct events as [|e0 events']; reflexivity.
Qed.

End Snapshot.

Section HandlerFacts.
Variable accepts : nat -> bool.

(** X10: deleting an event issues one [deleteDoc] for its id and touches
    no other document.  If the backend accepts the write the document is
    gone and no error is shown; if it refuses, the document stays and the
    error is reported.  Either way the loading flag is released and the
    stored events stay persistable. *)
Theorem delete_removes_only_that_event eventId s :
  App.ready s = true ->
  let s' := AppStore.handleDeleteEvent accepts eventId s in
  let accepted := accepts (length (Firestore.calls (App.db s))) in
  Firestore.calls (App.db s') = Firestore.calls (App.db s) ++ [Firestore.deleteDoc eventId]
  /\ (forall id, id <> eventId ->
        Firestore.docs (App.db s') !! id = Firestore.docs (App.db s) !! id)
  /\ Firestore.docs (App.db s') !! eventId
     = (if accepted then None else Firestore.docs (App.db s) !! eventId)
  /\ (if accepted then App.error s' = ""
      else exists message, App.error s' = "Failed to delete event: " +:+ message)
  /\ App.isLoading s' = false
  /\ (allPersistable (App.db s) -> allPersistable (App.db s')).
Proof.
  intros Hr. cbv zeta.
  unfold AppStore.handleDeleteEvent, App.await, Firestore.perform. rewrite Hr.
  cbn [negb App.db App.setError App.setIsLoading].
  destruct (accepts _); cbn.
  - split; [reflexivity|]. split; [intros id Hid; now rewrite lookup_delete_ne|].
    split; [now rewrite lookup_delete_eq|]. split; [reflexivity|]. split; [reflexivity|].
    intros Hp id f Hf. cbn in Hf. apply lookup_delete_Some in Hf. destruct Hf as [_ Hf].
    exact (Hp _ _ Hf).
  - split; [reflexivity|]. split; [reflexivity|]. split; [reflexivity|].
    split; [eexists; reflexivity|]. split; [reflexivity|]. auto.
Qed.

(** X11: without a signed-in session no handler writes anything: delete,
    update and accept each leave the database as it is and report an
    error. *)
Theorem no_write_before_sign_in s :
  App.ready s = false ->
  forall eventId changes,
    App.db (AppStore.handleDeleteEvent accepts eventId s) = App.db s
    /\ App.db (App.handleUpdateEvent accepts s) = App.db s
    /\ App.db (App.handleAcceptSuggestion accepts changes s) = App.db s
    /\ App.error (AppStore.handleDeleteEvent accepts eventId s) <> ""
    /\ App.error (App.handleUpdateEvent accepts s) <> ""
    /\ App.error (App.handleAcceptSuggestion accepts changes s) <> "".
Proof.
  intros Hr eventId changes.
  unfold AppStore.handleDeleteEvent, App.handleUpdateEvent, App.handleAcceptSuggestion.
  rewrite Hr. cbn [negb]. destruct (App.editingEvent s); cbn; repeat split; discriminate.
Qed.

Lemma handleUpdateEvent_accepted s e old :
  App.editingEvent s = Some e -> App.ready s = true ->
  App.title (App.editFormData s) <> "" ->
  App.date (App.editFormData s) <> "" ->
  App.time (App.editFormData s) <> "" ->
  accepts (length (Firestore.calls (App.db s))) = true ->
  Firestore.docs (App.db s) !! Matcher.id e = Some old ->
  App.handleUpdateEvent accepts s
  = App.setIsLoading false
      (App.handleCloseEditModal
         (App.setDb
            {| Firestore.docs := <[Matcher.id e := formFields (App.editFormData s)]>
                                   (Firestore.docs (App.db s));
               Firestore.calls :=
                 Firestore.calls (App.db s)
                 ++ [Firestore.updateDoc (Matcher.id e) (formFields (App.editFormData s))] |}
            (App.setError "" (App.setIsLoading true s)))).
Proof.
  intros He Hr Ht Hd Hm Ha Ho. unfold App.handleUpdateEvent. rewrite He, Hr.
  cbn [negb].
  destruct (String.eqb_spec (App.title (App.editFormData s)) "") as [|_]; [contradiction|].
  destruct (String.eqb_spec (App.date (App.editFormData s)) "") as [|_]; [contradiction|].
  destruct (String.eqb_spec (App.time (App.editFormData s)) "") as [|_]; [contradiction|].
  cbn [orb]. unfold Firestore.perform.
  cbn [App.db App.setError App.setIsLoading App.editFormData].
  rewrite Ha, Ho. reflexivity.
Qed.

(** X12: saving the edit form replaces the five properties of the edited
    document by the form's and touches no other document; the modal closes
    and the form is cleared. *)
Theorem update_replaces_the_event s e old :
  App.editingEvent s = Some e -> App.ready s = true ->
  App.title (App.editFormData s) <> "" ->
  App.date (App.editFormData s) <> "" ->
  App.time (App.editFormData s) <> "" ->
  accepts (length (Firestore.calls (App.db s))) = true ->
  Firestore.docs (App.db s) !! Matcher.id e = Some old ->
  let s' := App.handleUpdateEvent accepts s in
  Firestore.docs (App.db s') !! Matcher.id e = Some (formFields (App.editFormData s))
  /\ (forall id, id <> Matcher.id e ->
        Firestore.docs (App.db s') !! id = Firestore.docs (App.db s) !! id)
  /\ Firestore.calls (App.db s')
     = Firestore.calls (App.db s)
       ++ [Firestore.updateDoc (Matcher.id e) (formFields (App.editFormData s))]
  /\ App.editingEvent s' = None
  /\ App.editFormData s' = {| App.title := ""; App.date := ""; App.time := "";
                              App.formDescription := ""; App.locationType := "" |}
  /\ App.error s' = "" /\ App.isLoading s' = false.
Proof.
  intros He Hr Ht Hd Hm Ha Ho. cbv zeta.
  rewrite (handleUpdateEvent_accepted s e old) by assumption. cbn.
  split; [apply lookup_insert_eq|].
  split; [intros id Hid; now apply lookup_insert_ne|]. repeat split.
Qed.

(** X13: the edit form writes only when title, date and time are all
    filled in and an event is being edited: otherwise no write is
    attempted, the modal stays as it is and an error is shown. *)
Theorem update_needs_title_date_time s :
  App.editingEvent s = None
  \/ App.title (App.editFormData s) = "" \/ App.date (App.editFormData s) = ""
  \/ App.time (App.editFormData s) = "" ->
  let s' := App.handleUpdateEvent accepts s in
  App.db s' = App.db s
  /\ App.editingEvent s' = App.editingEvent s
  /\ App.editFormData s' = App.editFormData s
  /\ App.error s' <> "".
Proof.
  intros H. cbv zeta. unfold App.handleUpdateEvent.
  destruct (App.editingEvent s) as [e|] eqn:He; [|cbn; rewrite ?He; repeat split; discriminate].
  destruct (App.ready s); cbn [negb]; [|cbn; rewrite ?He; repeat split; discriminate].
  destruct H as [H|H]; [discriminate|].
  assert (E : String.eqb (App.title (App.editFormData s)) ""
              || String.eqb (App.date (App.editFormData s)) ""
              || String.eqb (App.time (App.editFormData s)) "" = true).
  { destruct H as [H|[H|H]]; rewrite H; cbn; rewrite ?orb_true_r; reflexivity. }
  rewrite E. cbn. rewrite He. repeat split; discriminate.
Qed.


End HandlerFacts.

Section LoopFacts.
Variable accepts : nat -> bool.
Variable LocalTZA : Z.
Variable now : Z.
Variable maxRetries : Z.
Variable baseDelay : Z.

Lemma onFetchError_frame terminal retries s :
  App.db (App.onFetchError maxRetries baseDelay terminal retries s) = App.db s
  /\ App.events (App.onFetchError maxRetries baseDelay terminal retries s) = App.events s
  /\ App.eventInput (App.onFetchError maxRetries baseDelay terminal retries s)
     = App.eventInput s.
Proof. unfold App.onFetchError. destruct (_ <? _); repeat split. Qed.

Lemma optimizeLoop_frame replies : forall retries s,
  let s' := fst (App.optimizeLoop maxRetries baseDelay replies retries s) in
  App.db s' = App.db s /\ App.events s' = App.events s
  /\ App.eventInput s' = App.eventInput s.
Proof.
  induction replies as [|reply replies IH]; intros retries s; cbv zeta;
    cbn [App.optimizeLoop]; destruct (retries <? maxRetries); cbn [negb fst]; auto.
  destruct reply as [|status| |[|[suggestions|]]];
    try (destruct (IH retries (App.setIsOptimizing false
           (App.setError "LLM optimization response was empty or malformed. Please try again." (App.fetched s)))) as (A & B & C); rewrite A, B, C; now cbn);
    try (match goal with
         | |- context [App.optimizeLoop _ _ _ ?r ?st] =>
             destruct (IH r st) as (A & B & C); rewrite A, B, C; cbn;
             try (destruct (onFetchError_frame (App.optimizeTerminal maxRetries) r (App.fetched s))
                    as (A' & B' & C'); rewrite A', B', C'); now cbn
         end).
  now cbn.
Qed.

(** X16: asking for an optimization never writes: whatever the replies,
    the database, its log of writes and the local events are as before.
    Only accepting a suggestion changes the store. *)
Theorem optimizing_never_writes geminiApiKey replies s :
  let s' := fst (App.handleOptimizeSchedule maxRetries baseDelay geminiApiKey replies s) in
  App.db s' = App.db s /\ App.events s' = App.events s.
Proof.
  cbv zeta. unfold App.handleOptimizeSchedule.
  destruct (App.isBlank _); [now cbn|].
  destruct (App.truthy geminiApiKey); cbn [negb]; [|now cbn].
  match goal with
  | |- context [App.optimizeLoop _ _ _ ?r ?st] =>
      destruct (optimizeLoop_frame replies r st) as (A & B & _)
  end. rewrite A, B. now cbn.
Qed.

Lemma parseLoop_released replies : forall retries s s',
  retries < maxRetries \/ App.isLoading s = false ->
  App.parseLoop accepts LocalTZA now maxRetries baseDelay replies retries s = (s', true) ->
  App.isLoading s' = false.
Proof.
  induction replies as [|reply replies IH]; intros retries s s' H;
    cbn [App.parseLoop]; destruct (Z.ltb_spec retries maxRetries); cbn [negb];
    intros E; try (inversion E; subst; destruct H; [lia|assumption]); try discriminate.
  destruct reply as [|status| |[|parsed]];
    try (eapply IH; [|exact E]; right; reflexivity).
  destruct (App.truthy (Firestore.title parsed) && App.truthy (Firestore.date parsed)
            && App.truthy (Firestore.time parsed)); [|eapply IH; [|exact E]; right; reflexivity].
  destruct (App.saveParsed accepts LocalTZA now parsed (App.fetched s)) as [s1 [e|]].
  - eapply IH; [|exact E]. right; reflexivity.
  - inversion E; subst. reflexivity.
Qed.

Lemma optimizeLoop_released replies : forall retries s s',
  retries < maxRetries \/ App.isOptimizing s = false ->
  App.optimizeLoop maxRetries baseDelay replies retries s = (s', true) ->
  App.isOptimizing s' = false.
Proof.
  induction replies as [|reply replies IH]; intros retries s s' H;
    cbn [App.optimizeLoop]; destruct (Z.ltb_spec retries maxRetries); cbn [negb];
    intros E; try (inversion E; subst; destruct H; [lia|assumption]); try discriminate.
  destruct reply as [|status| |[|[suggestions|]]];
    try (eapply IH; [|exact E]; right; reflexivity).
  inversion E; subst. reflexivity.
Qed.

(** X17: every handler that starts with its busy flag off ends with it
    off, so the buttons it disables come back: parse and optimize when
    their loop exits (at least one attempt being allowed), delete, update
    and accept always. *)
Theorem busy_flags_are_released s :
  0 < maxRetries -> App.isLoading s = false -> App.isOptimizing s = false ->
  (forall key replies s',
     App.handleParseEvent accepts LocalTZA now maxRetries baseDelay key replies s = (s', true) ->
     App.isLoading s' = false)
  /\ (forall key replies s',
     App.handleOptimizeSchedule maxRetries baseDelay key replies s = (s', true) ->
     App.isOptimizing s' = false)
  /\ (forall eventId, App.isLoading (AppStore.handleDeleteEvent accepts eventId s) = false)
  /\ App.isLoading (App.handleUpdateEvent accepts s) = false
  /\ (forall changes, App.isLoading (App.handleAcceptSuggestion accepts changes s) = false).
Proof.
  intros Hm Hl Ho. split; [|split; [|split; [|split]]].
  - intros key replies s'. unfold App.handleParseEvent.
    destruct (App.isBlank _); [intros E; inversion E; subst; exact Hl|].
    destruct (App.truthy key); cbn [negb]; [|intros E; inversion E; reflexivity].
    apply parseLoop_released. left. exact Hm.
  - intros key replies s'. unfold App.handleOptimizeSchedule.
    destruct (App.isBlank _); [intros E; inversion E; subst; exact Ho|].
    destruct (App.truthy key); cbn [negb]; [|intros E; inversion E; reflexivity].
    apply optimizeLoop_released. left. exact Hm.
  - intros eventId. unfold AppStore.handleDeleteEvent.
    destruct (App.ready s); cbn [negb]; [|exact Hl].
    destruct (App.await _ _ _) as [s1 [m|]]; reflexivity.
  - unfold App.handleUpdateEvent.
    destruct (App.editingEvent s); [|exact Hl].
    destruct (App.ready s); cbn [negb]; [|exact Hl].
    destruct (_ || _); [exact Hl|].
    destruct (Firestore.perform _ _ _) as [d [m|]]; reflexivity.
  - intros changes. unfold App.handleAcceptSuggestion.
    destruct (App.ready s); cbn [negb]; [|exact Hl].
    destruct (App.applyChanges _ _ _) as [s1 [m|]]; reflexivity.
Qed.

End LoopFacts.

Section ParseFacts.
Variable accepts : nat -> bool.
Variable LocalTZA : Z.
Variable now : Z.
Variable maxRetries : Z.
Variable baseDelay : Z.

Local Abbreviation fullYear := (App.currentYear LocalTZA now).

Lemma newId_fresh (m : gmap string Firestore.Fields) : m !! Firestore.newId m = None.
Proof. apply not_elem_of_dom. unfold Firestore.newId. apply is_fresh. Qed.

Lemma finalEvent_persistable y parsed :
  complete parsed = true -> persistable (finalEvent y parsed) = true.
Proof.
  unfold complete. intros Ht. apply andb_prop in Ht. destruct Ht as [Ht Htime].
  apply andb_prop in Ht. destruct Ht as [Htitle Hdate].
  unfold persistable, finalEvent. cbn. rewrite Htitle, Htime. cbn.
  destruct (truthy_inv _ Hdate) as (x & -> & Hx). cbn.
  destruct (String.eqb_spec (App.inferYear y x) EmptyString) as [Bad|]; [|reflexivity].
  now apply inferYear_nonempty in Bad.
Qed.

Lemma saveParsed_cases parsed s :
  complete parsed = true ->
  let r := App.saveParsed accepts LocalTZA now parsed s in
  App.ready (fst r) = App.ready s
  /\ match snd r with
     | Some _ =>
         Firestore.docs (App.db (fst r)) = Firestore.docs (App.db s)
         /\ App.events (fst r) = App.events s
     | None =>
         App.eventInput (fst r) = ""
         /\ App.parsedEvent (fst r) = Some (finalEvent fullYear parsed)
         /\ if App.ready s
            then Firestore.docs (App.db (fst r))
                 = <[Firestore.newId (Firestore.docs (App.db s)) := finalEvent fullYear parsed]>
                     (Firestore.docs (App.db s))
                 /\ App.events (fst r) = App.events s
                 /\ accepts (length (Firestore.calls (App.db s))) = true
            else Firestore.docs (App.db (fst r)) = Firestore.docs (App.db s)
                 /\ App.events (fst r)
                    = App.events s ++ [(showZ now, finalEvent fullYear parsed)]
     end.
Proof.
  intros Hc. cbv zeta. unfold App.saveParsed.
  fold (finalEvent fullYear parsed).
  cbn [App.ready App.setParsedEvent App.db App.events].
  destruct (App.ready s) eqn:Hr.
  - unfold Firestore.perform.
    assert (Hu : Firestore.hasUndefined (finalEvent fullYear parsed) = false).
    { pose proof (finalEvent_persistable fullYear parsed Hc) as P.
      unfold persistable in P. repeat (apply andb_prop in P; destruct P as [P ?]).
      unfold Firestore.hasUndefined.
      destruct (Firestore.title _), (Firestore.date _), (Firestore.time _),
        (Firestore.description _), (Firestore.locationType _); try discriminate; reflexivity. }
    rewrite Hu. destruct (accepts _); cbn; rewrite ?Hr; repeat split.
  - cbn. rewrite Hr. repeat split.
Qed.

Lemma storedAtMostOne_refl s s' :
  Firestore.docs (App.db s') = Firestore.docs (App.db s) ->
  App.events s' = App.events s -> storedAtMostOne s s'.
Proof. intros. left. auto. Qed.

Lemma storedAtMostOne_frame s s0 s' :
  Firestore.docs (App.db s0) = Firestore.docs (App.db s) ->
  App.events s0 = App.events s -> App.ready s0 = App.ready s ->
  storedAtMostOne s0 s' -> storedAtMostOne s s'.
Proof.
  unfold storedAtMostOne. intros D E R. rewrite D, E, R. tauto.
Qed.

Lemma parseLoop_storedAtMostOne replies : forall retries s,
  storedAtMostOne s
    (fst (App.parseLoop accepts LocalTZA now maxRetries baseDelay replies retries s)).
Proof.
  induction replies as [|reply replies IH]; intros retries s;
    cbn [App.parseLoop]; destruct (retries <? maxRetries); cbn [negb fst];
    try (now apply storedAtMostOne_refl).
  destruct reply as [|status| |[|parsed]];
    try (eapply storedAtMostOne_frame; [| | |apply IH]; cbn;
         rewrite ?(proj1 (onFetchError_frame maxRetries baseDelay _ _ _)),
                 ?(proj1 (proj2 (onFetchError_frame maxRetries baseDelay _ _ _)));
         try reflexivity; unfold App.onFetchError; destruct (_ <? _); reflexivity).
  fold (complete parsed). destruct (complete parsed) eqn:Hc;
    [|eapply storedAtMostOne_frame; [| | |apply IH]; reflexivity].
  pose proof (saveParsed_cases parsed (App.fetched s) Hc) as P. cbv zeta in P.
  destruct (App.saveParsed accepts LocalTZA now parsed (App.fetched s)) as [s1 [e|]].
  - cbn [fst snd] in P. destruct P as (R & D & E).
    eapply storedAtMostOne_frame; [| | |apply IH]; cbn; auto.
  - cbn [fst snd] in P. destruct P as (R & _ & _ & P). cbn [fst].
    pose proof (finalEvent_persistable fullYear parsed Hc) as Hp.
    change (App.ready (App.fetched s)) with (App.ready s) in *.
    change (App.db (App.fetched s)) with (App.db s) in *.
    change (App.events (App.fetched s)) with (App.events s) in *.
    destruct (App.ready s) eqn:Hr.
    + destruct P as (D & E & _). right. left. exists (finalEvent fullYear parsed).
      cbn. split; [exact Hp|]. split; [apply newId_fresh|]. auto.
    + destruct P as (D & E). right. right.
      exists (showZ now), (finalEvent fullYear parsed). cbn. auto.
Qed.

(** X18: one parse stores at most one event, however many replies the loop
    goes through: either nothing is stored, or exactly one persistable
    event is added, under an id no document had (signed in) or in the local
    list (signed out); no existing document is changed or removed. *)
Theorem parse_stores_at_most_one_event geminiApiKey replies s :
  storedAtMostOne s
    (fst (App.handleParseEvent accepts LocalTZA now maxRetries baseDelay
            geminiApiKey replies s)).
Proof.
  unfold App.handleParseEvent.
  destruct (App.isBlank _); [now apply storedAtMostOne_refl|].
  destruct (App.truthy geminiApiKey); cbn [negb]; [|now apply storedAtMostOne_refl].
  eapply storedAtMostOne_frame; [| | |apply parseLoop_storedAtMostOne]; reflexivity.
Qed.

(** X19: the parse flow keeps the stored events persistable. *)
Theorem parse_flow_keeps_events_persistable geminiApiKey replies s :
  allPersistable (App.db s) ->
  allPersistable
    (App.db (fst (App.handleParseEvent accepts LocalTZA now maxRetries baseDelay
                    geminiApiKey replies s))).
Proof.
  intros Hs. unfold App.handleParseEvent.
  destruct (App.isBlank _); [exact Hs|].
  destruct (App.truthy geminiApiKey); cbn [negb]; [|exact Hs].
  apply parseLoop_persistable. exact Hs.
Qed.

Lemma saveParsed_network parsed s :
  let s1 := fst (App.saveParsed accepts LocalTZA now parsed s) in
  App.fetches s1 = App.fetches s /\ App.waits s1 = App.waits s
  /\ App.error s1 = App.error s /\ App.trace s1 = App.trace s.
Proof.
  cbv zeta. unfold App.saveParsed. cbn [App.ready App.setParsedEvent].
  destruct (App.ready s); [|now cbn].
  destruct (Firestore.perform _ _ _) as [d' [e|]]; now cbn.
Qed.

Lemma parseLoop_recovers fails parsed : forall retries s,
  Forall (fun r => transportFailure r = true) fails ->
  0 <= retries -> retries + Z.of_nat (length fails) < maxRetries ->
  complete parsed = true -> App.ready s = true ->
  accepts (length (Firestore.calls (App.db s))) = true ->
  exists s',
    App.parseLoop accepts LocalTZA now maxRetries baseDelay
      (fails ++ [App.Candidate (App.Json parsed)]) retries s = (s', true)
    /\ App.fetches s' = (App.fetches s + length fails + 1)%nat
    /\ App.waits s'
       = App.waits s ++ (backoff baseDelay <$> seqZ (retries + 1) (Z.of_nat (length fails)))
    /\ App.trace s'
       = App.trace s ++ retried baseDelay (retries + 1) (length fails) ++ [App.Request]
    /\ App.error s' = App.error s
    /\ App.eventInput s' = ""
    /\ App.parsedEvent s' = Some (finalEvent fullYear parsed)
    /\ App.isLoading s' = false
    /\ Firestore.docs (App.db s')
       = <[Firestore.newId (Firestore.docs (App.db s)) := finalEvent fullYear parsed]>
           (Firestore.docs (App.db s)).
Proof.
  induction fails as [|reply fails IH]; intros retries s HF Hr Hl Hc Hready Ha.
  - cbn [app App.parseLoop length] in *.
    destruct (Z.ltb_spec retries maxRetries); [|lia]. cbn [negb].
    fold (complete parsed). rewrite Hc.
    pose proof (saveParsed_cases parsed (App.fetched s) Hc) as P. cbv zeta in P.
    pose proof (saveParsed_network parsed (App.fetched s)) as N. cbv zeta in N.
    change (App.ready (App.fetched s)) with (App.ready s) in P.
    change (App.db (App.fetched s)) with (App.db s) in P.
    rewrite Hready in P.
    destruct (App.saveParsed accepts LocalTZA now parsed (App.fetched s)) as [s1 [e|]] eqn:Es.
    + exfalso. cbn [fst snd] in P. destruct P as (_ & D & _).
      unfold App.saveParsed in Es. cbn [App.ready App.setParsedEvent App.fetched] in Es.
      rewrite Hready in Es. unfold Firestore.perform in Es.
      fold (finalEvent fullYear parsed) in Es.
      pose proof (finalEvent_persistable fullYear parsed Hc) as Q.
      unfold persistable in Q. repeat (apply andb_prop in Q; destruct Q as [Q ?]).
      unfold Firestore.hasUndefined in Es.
      destruct (Firestore.title _), (Firestore.date _), (Firestore.time _),
        (Firestore.description _), (Firestore.locationType _); try discriminate.
      cbn [Firestore.isUndefined orb App.db App.setParsedEvent App.fetched] in Es.
      rewrite Ha in Es. discriminate.
    + cbn [fst snd] in P, N. destruct P as (_ & Ei & Ep & D & _ & _).
      destruct N as (F & W & Er & T).
      exists (App.setIsLoading false s1). split; [reflexivity|]. cbn.
      rewrite F, W, Er, T, app_nil_r. cbn. repeat split; auto. lia.
  - apply Forall_cons in HF. destruct HF as [Hf HF].
    cbn [app App.parseLoop]. cbn [length] in Hl.
    destruct (Z.ltb_spec retries maxRetries); [|lia]. cbn [negb].
    assert (Step : exists s',
                App.parseLoop accepts LocalTZA now maxRetries baseDelay
                  (fails ++ [App.Candidate (App.Json parsed)]) (retries + 1)
                  (App.setIsLoading false
                     (App.onFetchError maxRetries baseDelay (App.parseTerminal maxRetries)
                        (retries + 1) (App.fetched s))) = (s', true)
                /\ App.fetches s' = (App.fetches s + S (length fails) + 1)%nat
                /\ App.waits s'
                   = App.waits s
                     ++ (backoff baseDelay <$> seqZ (retries + 1) (Z.of_nat (S (length fails))))
                /\ App.trace s'
                   = App.trace s ++ retried baseDelay (retries + 1) (S (length fails))
                     ++ [App.Request]
                /\ App.error s' = App.error s
                /\ App.eventInput s' = ""
                /\ App.parsedEvent s' = Some (finalEvent fullYear parsed)
                /\ App.isLoading s' = false
                /\ Firestore.docs (App.db s')
                   = <[Firestore.newId (Firestore.docs (App.db s)) := finalEvent fullYear parsed]>
                       (Firestore.docs (App.db s))).
    { unfold App.onFetchError.
      destruct (Z.ltb_spec (retries + 1) maxRetries); [|lia].
      destruct (IH (retries + 1)
                  (App.setIsLoading false
                     (App.waited (baseDelay * 2 ^ (retries + 1 - 1)) (App.fetched s)))
                  HF ltac:(lia) ltac:(lia) Hc Hready Ha)
        as (s' & E & F' & W' & T' & Er' & Rest).
      exists s'. split; [exact E|]. cbn in F', W', T', Er', Rest.
      rewrite F', W', T', Er'.
      split; [lia|]. split.
      - rewrite (seqZ_cons (retries + 1)) by lia. cbn [fmap list_fmap].
        rewrite <- app_assoc. cbn [app]. unfold backoff at 2.
        do 4 f_equal; lia.
      - split; [|split; [reflexivity|exact Rest]].
        cbn [retried]. unfold backoff. rewrite <- !app_assoc. reflexivity. }
    destruct reply as [|status| |text]; try discriminate Hf; exact Step.
Qed.


End ParseFacts.

Section ApplierFacts.
Variable accepts : nat -> bool.

Lemma applyChange_warned c s :
  App.warned (fst (App.applyChange accepts c s))
  = App.warned s ++ (if skipped c then [c] else []).
Proof.
  rewrite applyChange_callOf. unfold skipped. destruct (callOf c) as [call|]; cbn.
  - unfold App.await. destruct (Firestore.perform _ _ _). cbn. now rewrite app_nil_r.
  - reflexivity.
Qed.

Lemma applyChanges_warned l : forall s s',
  App.applyChanges accepts l s = (s', None) ->
  App.warned s' = App.warned s ++ filter (fun c => skipped c = true) l.
Proof.
  induction l as [|c l IH]; intros s s' H; cbn [App.applyChanges] in H.
  - inversion H; subst. now rewrite app_nil_r.
  - pose proof (applyChange_warned c s) as Hw.
    destruct (App.applyChange accepts c s) as [s1 [m|]]; [discriminate|].
    cbn [fst] in Hw. rewrite (IH _ _ H), Hw, <- app_assoc. f_equal.
    rewrite filter_cons. destruct (skipped c); reflexivity.
Qed.

Lemma omap_filter_length l :
  (length (omap callOf l) + length (filter (fun c => skipped c = true) l))%nat = length l.
Proof.
  induction l as [|c l IH]; [reflexivity|].
  rewrite filter_cons. cbn [omap list_omap].
  destruct (decide (skipped c = true)) as [Hs|Hs]; unfold skipped in Hs;
    destruct (callOf c); cbn in *; try discriminate; try lia; congruence.
Qed.

Lemma applyChanges_error l : forall s s',
  App.applyChanges accepts l s = (s', None) -> App.error s' = App.error s.
Proof.
  induction l as [|c l IH]; intros s s' E; cbn [App.applyChanges] in E.
  - now inversion E.
  - rewrite applyChange_callOf in E. destruct (callOf c) as [call|].
    + unfold App.await in E. destruct (Firestore.perform _ _ _) as [d [m|]];
        [discriminate|]. now rewrite (IH _ _ E).
    + now rewrite (IH _ _ E).
Qed.


End ApplierFacts.

Section ApplierInvariant.
Variable accepts : nat -> bool.

Lemma applyChange_persistable c s :
  addsComplete c = true -> allPersistable (App.db s) ->
  allPersistable (App.db (fst (App.applyChange accepts c s))).
Proof.
  intros Hc Hs. unfold addsComplete in Hc.
  destruct (String.eqb (App.type c) "add") eqn:Ea;
    [|now apply applyChange_not_add_persistable].
  destruct (App.eventDetails c) as [details|] eqn:Ed.
  - unfold App.applyChange. rewrite Ea, Ed. unfold App.await.
    match goal with
    | |- context [Firestore.perform accepts ?c ?d] =>
        pose proof (perform_persistable accepts c d Hs) as P;
        destruct (Firestore.perform accepts c d) as [d' e]
    end. cbn in *. apply P; try discriminate.
    intros data E. inversion E; subst.
    unfold complete in Hc. unfold persistable, App.newEventData. cbn. now rewrite Hc.
  - apply String.eqb_eq in Ea.
    unfold App.applyChange. rewrite Ea, Ed. cbn. exact Hs.
Qed.

(** X22: accepting a suggestion keeps the stored events persistable when
    every add in it names a title, a date and a time; moves, deletes and
    skipped changes never break the invariant. *)
Theorem applier_keeps_events_persistable changes s :
  Forall (fun c => addsComplete c = true) changes ->
  allPersistable (App.db s) ->
  allPersistable (App.db (App.handleAcceptSuggestion accepts changes s)).
Proof.
  intros Hc Hs. unfold App.handleAcceptSuggestion.
  destruct (App.ready s); cbn [negb]; [|exact Hs].
  assert (G : forall l s0, Forall (fun c => addsComplete c = true) l ->
                allPersistable (App.db s0) ->
                allPersistable (App.db (fst (App.applyChanges accepts l s0)))).
  { induction l as [|c l IH]; intros s0 Hl H0; [exact H0|].
    apply Forall_cons in Hl. destruct Hl as [Hc0 Hl].
    cbn [App.applyChanges].
    pose proof (applyChange_persistable c s0 Hc0 H0) as P.
    destruct (App.applyChange accepts c s0) as [s1 [m|]]; [exact P|].
    apply IH; assumption. }
  specialize (G changes (App.setError "" (App.setIsLoading true s)) Hc Hs).
  destruct (App.applyChanges _ _ _) as [s1 [m|]]; exact G.
Qed.

End ApplierInvariant.

(** * The month grid: navigation and selection *)

(** X23: the two navigation buttons undo each other, keep the month
    between 0 and 11, move the month count by exactly one, and leave the
    selection alone. *)
Theorem month_navigation_round_trip (s : CalendarGrid.State) :
  0 <= CalendarGrid.currentMonth s <= 11 ->
  let next := CalendarGrid.goToNextMonth s in
  let prev := CalendarGrid.goToPreviousMonth s in
  CalendarGrid.goToPreviousMonth next = s
  /\ CalendarGrid.goToNextMonth prev = s
  /\ 0 <= CalendarGrid.currentMonth next <= 11
  /\ 0 <= CalendarGrid.currentMonth prev <= 11
  /\ 12 * CalendarGrid.currentYear next + CalendarGrid.currentMonth next
     = 12 * CalendarGrid.currentYear s + CalendarGrid.currentMonth s + 1
  /\ 12 * CalendarGrid.currentYear prev + CalendarGrid.currentMonth prev
     = 12 * CalendarGrid.currentYear s + CalendarGrid.currentMonth s - 1
  /\ CalendarGrid.selectedDate next = CalendarGrid.selectedDate s
  /\ CalendarGrid.selectedDate prev = CalendarGrid.selectedDate s.
Proof.
  intros Hm. destruct s as [m y sel]. cbn in Hm. cbv zeta.
  unfold CalendarGrid.goToNextMonth, CalendarGrid.goToPreviousMonth. cbn.
  destruct (Z.eqb_spec m 11) as [E11|N11]; destruct (Z.eqb_spec m 0) as [E0|N0];
    try lia; cbn.
  - subst m. rewrite ?Z.add_simpl_r, ?Z.sub_add. repeat split; lia.
  - subst m. rewrite ?Z.add_simpl_r, ?Z.sub_add. repeat split; lia.
  - destruct (Z.eqb_spec (m + 1) 0); [lia|].
    destruct (Z.eqb_spec (m - 1) 11); [lia|]. cbn.
    rewrite ?Z.add_simpl_r, ?Z.sub_add.
    repeat split; lia.
Qed.

Lemma MakeFullYear_id year : 100 <= year -> MakeFullYear year = year.
Proof.
  intros H. unfold MakeFullYear.
  destruct (Z.leb_spec 0 year), (Z.leb_spec year 99); cbn [andb]; lia || reflexivity.
Qed.

Lemma MakeDay_next_month y m :
  0 <= m <= 11 ->
  MakeDay (if m =? 11 then y + 1 else y) (if m =? 11 then 0 else m + 1) 1
  = MakeDay y m 1 + monthLength y m.
Proof.
  intros Hm.
  assert (E : MakeDay y (m + 1) 1 = MakeDay y m 1 + monthLength y m).
  { pose proof (MakeDay_last y m) as L. rewrite (MakeDay_date y (m + 1) 0) in L.
    rewrite (MakeDay_date y m (monthLength y m)) in L. lia. }
  destruct (Z.eqb_spec m 11) as [->|N]; [|exact E].
  rewrite <- E. unfold MakeDay. change (11 + 1) with 12.
  change (12 / 12) with 1. change (12 mod 12) with 0. change (0 / 12) with 0.
  change (0 mod 12) with 0. replace (y + 1 + 0) with (y + 1) by lia. reflexivity.
Qed.

(** X24: the grid of the next month starts in the column after the one
    this month ends in: its first week day is this month's first week day
    plus this month's number of days, modulo 7. *)
Theorem next_month_starts_after_this_one tz (s : CalendarGrid.State) f n :
  - msPerDay <= tz <= msPerDay ->
  100 <= CalendarGrid.currentYear s <= 275758 ->
  0 <= CalendarGrid.currentMonth s <= 11 ->
  Grid.getFirstDayOfMonth tz (CalendarGrid.currentYear s) (CalendarGrid.currentMonth s)
  = Some f ->
  Grid.getDaysInMonth tz (CalendarGrid.currentYear s) (CalendarGrid.currentMonth s)
  = Some n ->
  let next := CalendarGrid.goToNextMonth s in
  Grid.getFirstDayOfMonth tz (CalendarGrid.currentYear next) (CalendarGrid.currentMonth next)
  = Some ((f + n) mod 7).
Proof.
  intros Htz Hy Hm Hf Hn. cbv zeta. destruct s as [m y sel]. cbn in *.
  rewrite getFirstDayOfMonth_value in Hf by (auto; unfold yearInRange; lia).
  rewrite getDaysInMonth_value in Hn by (auto; unfold yearInRange; lia).
  rewrite MakeFullYear_id in Hf, Hn by lia.
  injection Hf as <-. injection Hn as <-.
  pose proof (MakeDay_next_month y m Hm) as E.
  unfold CalendarGrid.goToNextMonth. cbn [CalendarGrid.currentMonth CalendarGrid.currentYear].
  destruct (Z.eqb_spec m 11) as [->|N]; cbn [CalendarGrid.currentMonth CalendarGrid.currentYear];
    rewrite getFirstDayOfMonth_value by (auto; unfold yearInRange; lia);
    rewrite MakeFullYear_id by lia; rewrite E; f_equal;
    Z.div_mod_to_equations; lia.
Qed.

Section Selection.
Variable tz : Z.
Hypothesis Htz : - msPerDay <= tz <= msPerDay.

Lemma newDate3_civil y m d :
  100 <= y <= 275759 -> 0 <= m <= 11 -> 1 <= d <= monthLength y m ->
  exists t, newDate3 tz y m d = Some t
    /\ Day (t + tz) = MakeDay y m d
    /\ t = MakeDay y m d * msPerDay - tz
    /\ YearFromTime (t + tz) = y /\ MonthFromTime (t + tz) = m /\ DateFromTime (t + tz) = d.
Proof.
  intros Hy Hm Hd. pose proof (monthLength_range y m) as R.
  rewrite newDate3_value by (auto; unfold yearInRange; lia).
  rewrite MakeFullYear_id by lia.
  eexists. split; [reflexivity|].
  pose proof (Day_local_midnight tz (MakeDay y m d)) as D. unfold LocalTime in D.
  split; [exact D|].
  split; [unfold UTC, MakeDate, MakeTime; lia|].
  destruct (civil_of_time _ y m d D Hd) as (A & B & C).
  assert (m / 12 = 0) as Q by (Z.div_mod_to_equations; lia).
  assert (m mod 12 = m) as Rm by (Z.div_mod_to_equations; lia).
  rewrite Q in A. rewrite Rm in B. repeat split; auto. lia.
Qed.

(** X25: clicking the cell of day d selects the local date (year, month,
    d): that cell and no other is highlighted, the date reported to the
    parent is that local midnight, after moving to another month no cell
    is highlighted, and a click on an empty cell changes nothing. *)
Theorem clicked_day_is_selected (s : CalendarGrid.State) d :
  100 <= CalendarGrid.currentYear s <= 275758 ->
  0 <= CalendarGrid.currentMonth s <= 11 ->
  1 <= d <= monthLength (CalendarGrid.currentYear s) (CalendarGrid.currentMonth s) ->
  let s' := CalendarGrid.handleDayClick tz (Some d) s in
  (exists t, CalendarGrid.selectedDate s' = Some t
     /\ localDate tz t
        = (CalendarGrid.currentYear s, CalendarGrid.currentMonth s + 1, d)
     /\ Grid.selectDay tz (CalendarGrid.currentYear s) (CalendarGrid.currentMonth s) d
        = Some t)
  /\ (forall d', CalendarGrid.isSelected tz s' (Some d') = true <-> d' = d)
  /\ (forall d', CalendarGrid.isSelected tz (CalendarGrid.goToNextMonth s') d' = false)
  /\ (forall d', CalendarGrid.isSelected tz (CalendarGrid.goToPreviousMonth s') d' = false)
  /\ CalendarGrid.handleDayClick tz None s = s.
Proof.
  intros Hy Hm Hd. cbv zeta. destruct s as [m y sel].
  cbn [CalendarGrid.currentMonth CalendarGrid.currentYear] in *.
  destruct (newDate3_civil y m d ltac:(lia) Hm Hd) as (t & Et & ED & Ev & EY & EM & EDt).
  unfold CalendarGrid.handleDayClick, CalendarGrid.isDay.
  destruct (Z.eqb_spec d 0) as [|_]; [lia|]. cbn [negb].
  change (default 0 (Some d)) with d.
  cbn [CalendarGrid.currentMonth CalendarGrid.currentYear CalendarGrid.selectedDate].
  rewrite Et.
  split; [|split; [|split; [|split]]].
  - exists t. split; [reflexivity|]. split.
    + unfold localDate, LocalTime. now rewrite EY, EM, EDt.
    + unfold Grid.selectDay. rewrite Et, setHours_value, ED.
      rewrite TimeClip_ok; [f_equal; lia|].
      pose proof (MakeDay_range y m d ltac:(unfold yearInRange; lia) ltac:(lia)
                    ltac:(pose proof (monthLength_range y m); lia)).
      unfold msPerDay, msPerHour, msPerMinute in *. lia.
  - intros d'. unfold CalendarGrid.isSelected, CalendarGrid.isDay, getDate, getMonth, getFullYear.
    cbn [CalendarGrid.currentMonth CalendarGrid.currentYear CalendarGrid.selectedDate
         mbind option_bind num_eq]. unfold LocalTime. rewrite EY, EM, EDt.
    rewrite !Z.eqb_refl, !andb_true_r.
    destruct (Z.eqb_spec d' 0), (Z.eqb_spec d d'); cbn; split; intros; try lia;
      try discriminate; auto.
  - intros d'. unfold CalendarGrid.isSelected, CalendarGrid.goToNextMonth, getDate, getMonth,
      getFullYear.
    cbn [CalendarGrid.currentMonth CalendarGrid.currentYear CalendarGrid.selectedDate].
    destruct (Z.eqb_spec m 11);
      cbn [CalendarGrid.currentMonth CalendarGrid.currentYear CalendarGrid.selectedDate
           mbind option_bind num_eq]; unfold LocalTime; rewrite EY, EM.
    + destruct (Z.eqb_spec y (y + 1)); [lia|]. now rewrite andb_false_r.
    + destruct (Z.eqb_spec m (m + 1)); [lia|]. now rewrite andb_false_r.
  - intros d'. unfold CalendarGrid.isSelected, CalendarGrid.goToPreviousMonth, getDate, getMonth,
      getFullYear.
    cbn [CalendarGrid.currentMonth CalendarGrid.currentYear CalendarGrid.selectedDate].
    destruct (Z.eqb_spec m 0);
      cbn [CalendarGrid.currentMonth CalendarGrid.currentYear CalendarGrid.selectedDate
           mbind option_bind num_eq]; unfold LocalTime; rewrite EY, EM.
    + destruct (Z.eqb_spec y (y - 1)); [lia|]. now rewrite andb_false_r.
    + destruct (Z.eqb_spec m (m - 1)); [lia|]. now rewrite andb_false_r.
  - reflexivity.
Qed.

End Selection.

(** X26: the month grid is the same in every time zone, unlike the day
    filter: its number of days is the civil month length, with 29 days in
    February exactly in the Gregorian leap years. *)
Theorem month_grid_is_zone_independent tz tz' year month :
  - msPerDay <= tz <= msPerDay -> - msPerDay <= tz' <= msPerDay ->
  100 <= year <= 275759 -> 0 <= month <= 11 ->
  Grid.calendarDays tz year month = Grid.calendarDays tz' year month
  /\ Grid.getDaysInMonth tz year month
     = Some (nth (Z.to_nat month)
               [31; if isLeapYear year then 29 else 28; 31; 30; 31; 30; 31; 31; 30; 31; 30; 31]
               0).
Proof.
  intros Htz Htz' Hy Hm.
  assert (HY : yearInRange year) by (unfold yearInRange; lia).
  split.
  - rewrite (calendarDays_value tz year month _ _
               (getFirstDayOfMonth_value tz year month Htz HY Hm)
               (getDaysInMonth_value tz year month Htz HY Hm)).
    rewrite (calendarDays_value tz' year month _ _
               (getFirstDayOfMonth_value tz' year month Htz' HY Hm)
               (getDaysInMonth_value tz' year month Htz' HY Hm)).
    reflexivity.
  - rewrite getDaysInMonth_value by assumption. rewrite MakeFullYear_id by lia. f_equal.
    unfold monthLength, leapFlag.
    assert (month = 0 \/ month = 1 \/ month = 2 \/ month = 3 \/ month = 4 \/ month = 5
            \/ month = 6 \/ month = 7 \/ month = 8 \/ month = 9 \/ month = 10 \/ month = 11)
      as C by lia.
    repeat match goal with H : _ \/ _ |- _ => destruct H end; subst month;
      match goal with
      | |- context [?a / 12] => let v := eval vm_compute in (a / 12) in change (a / 12) with v
      end;
      match goal with
      | |- context [?a mod 12] =>
          let v := eval vm_compute in (a mod 12) in change (a mod 12) with v
      end;
      replace (year + 0) with year by lia; vm_compute (_ + 1);
      cbv [monthStart]; cbn [Z.to_nat Pos.to_nat Pos.iter_op Nat.add nth];
      destruct (isLeapYear year); try reflexivity; lia.
Qed.

(** * The grouping of events by date *)

Lemma groupStep_fold_None l : foldl CalendarGrid.groupStep None l = None.
Proof. induction l as [|e l IH]; [reflexivity|exact IH]. Qed.

Lemma groupStep_fold l : forall acc,
  Forall (fun e => Matcher.date e ∉ CalendarGrid.objectPrototypeKeys) l ->
  exists byDate,
    foldl CalendarGrid.groupStep (Some acc) l = Some byDate
    /\ forall k, default [] (byDate !! k)
                 = default [] (acc !! k) ++ GridMarks.eventsByDate l k.
Proof.
  unfold GridMarks.eventsByDate.
  induction l as [|e l IH]; intros acc Hl.
  - exists acc. split; [reflexivity|]. intros k. now rewrite app_nil_r.
  - apply Forall_cons in Hl. destruct Hl as [He Hl].
    cbn [foldl]. unfold CalendarGrid.groupStep at 2. cbn [mbind option_bind].
    rewrite bool_decide_eq_false_2 by exact He.
    destruct (IH (<[Matcher.date e := default [] (acc !! Matcher.date e) ++ [e]]> acc) Hl)
      as (byDate & E & L).
    exists byDate. split; [exact E|]. intros k. rewrite L, filter_cons.
    destruct (decide (Matcher.date e = k)) as [<-|N].
    + rewrite lookup_insert_eq. cbn. now rewrite <- app_assoc.
    + now rewrite lookup_insert_ne.
Qed.

(** X27: the grid's grouping puts under each date exactly the events of
    that date, in the order of the event list; rendering fails (the
    reduce throws) exactly when some event's date is a name inherited from
    [Object.prototype]. *)
Theorem eventsByDate_groups_by_date events :
  (Forall (fun e => Matcher.date e ∉ CalendarGrid.objectPrototypeKeys) events ->
   exists byDate,
     CalendarGrid.eventsByDate events = Some byDate
     /\ (forall k, default [] (byDate !! k) = GridMarks.eventsByDate events k)
     /\ (forall day currentYear currentMonth,
           (0 <? Z.of_nat (CalendarGrid.badge byDate currentYear currentMonth day))
           = GridMarks.hasEvents events currentYear currentMonth day))
  /\ (Exists (fun e => Matcher.date e ∈ CalendarGrid.objectPrototypeKeys) events ->
      CalendarGrid.eventsByDate events = None).
Proof.
  split.
  - intros H. destruct (groupStep_fold events ∅ H) as (byDate & E & L).
    exists byDate. split; [exact E|].
    assert (L' : forall k, default [] (byDate !! k) = GridMarks.eventsByDate events k).
    { intros k. rewrite L, lookup_empty. reflexivity. }
    split; [exact L'|]. intros day y m.
    unfold CalendarGrid.badge, GridMarks.hasEvents. rewrite L'.
    destruct (length _); reflexivity.
  - unfold CalendarGrid.eventsByDate. generalize (∅ : gmap string (list Matcher.Event)).
    induction events as [|e l IH]; intros acc H; [inversion H|].
    cbn [foldl]. unfold CalendarGrid.groupStep at 2. cbn [mbind option_bind].
    destruct (decide (Matcher.date e ∈ CalendarGrid.objectPrototypeKeys)) as [In|Out].
    + rewrite bool_decide_eq_true_2 by exact In. apply groupStep_fold_None.
    + rewrite bool_decide_eq_false_2 by exact Out. apply IH.
      apply Exists_cons in H. destruct H as [H|H]; [contradiction|exact H].
Qed.

(** * Dates as text *)

Lemma digitChar_digitVal c v : digitVal c = Some v -> c = digitChar v.
Proof.
  unfold digitVal, digitChar.
  destruct (Z.leb_spec 48 (Z.of_N (N_of_ascii c))); [|discriminate].
  destruct (Z.leb_spec (Z.of_N (N_of_ascii c)) 57); [|discriminate].
  cbn [andb]. intros E. inversion E; subst.
  replace (48 + (Z.of_N (N_of_ascii c) - 48)) with (Z.of_N (N_of_ascii c)) by lia.
  now rewrite N2Z.id, ascii_N_embedding.
Qed.

Lemma digitVal_digitChar v : 0 <= v <= 9 -> digitVal (digitChar v) = Some v.
Proof.
  intros H.
  assert (v = 0 \/ v = 1 \/ v = 2 \/ v = 3 \/ v = 4 \/ v = 5 \/ v = 6 \/ v = 7 \/ v = 8 \/ v = 9)
    as C by lia.
  repeat match goal with H : _ \/ _ |- _ => destruct H end; subst v; reflexivity.
Qed.

Lemma digitVal_isDigit c v : digitVal c = Some v -> App.isDigit c = true.
Proof.
  unfold digitVal, App.isDigit.
  destruct (Z.leb_spec 48 (Z.of_N (N_of_ascii c))); [|discriminate].
  destruct (Z.leb_spec (Z.of_N (N_of_ascii c)) 57); [|discriminate]. intros _.
  apply andb_true_intro. split; apply N.leb_le; lia.
Qed.

Lemma num2_digits a b k :
  num2 a b = Some k -> a = digitChar (k / 10) /\ b = digitChar (k mod 10).
Proof.
  intros H. apply num2_inv in H. destruct H as (x & y & Ea & Eb & ->).
  pose proof (digitVal_range _ _ Ea). pose proof (digitVal_range _ _ Eb).
  apply digitChar_digitVal in Ea, Eb. subst.
  split; f_equal; Z.div_mod_to_equations; lia.
Qed.

Lemma num2_build k :
  0 <= k <= 99 -> num2 (digitChar (k / 10)) (digitChar (k mod 10)) = Some k.
Proof.
  intros H. unfold num2.
  rewrite !digitVal_digitChar by (Z.div_mod_to_equations; lia).
  cbn [mbind option_bind]. f_equal. Z.div_mod_to_equations; lia.
Qed.

Lemma num4_digits a b c d y :
  num4 a b c d = Some y ->
  [a; b; c; d] = [digitChar (y / 1000); digitChar (y / 100 mod 10);
                  digitChar (y / 10 mod 10); digitChar (y mod 10)].
Proof.
  unfold num4. destruct (num2 a b) as [x|] eqn:E1; [|discriminate].
  destruct (num2 c d) as [z|] eqn:E2; [|discriminate]. cbn [mbind option_bind].
  intros E. inversion E; subst.
  pose proof (num2_range _ _ _ E1). pose proof (num2_range _ _ _ E2).
  apply num2_digits in E1, E2. destruct E1 as [-> ->]. destruct E2 as [-> ->].
  replace ((100 * x + z) / 1000) with (x / 10) by (Z.div_mod_to_equations; lia).
  replace ((100 * x + z) / 100 mod 10) with (x mod 10) by (Z.div_mod_to_equations; lia).
  replace ((100 * x + z) / 10 mod 10) with (z / 10) by (Z.div_mod_to_equations; lia).
  replace ((100 * x + z) mod 10) with (z mod 10) by (Z.div_mod_to_equations; lia).
  reflexivity.
Qed.

Lemma num4_build y :
  0 <= y <= 9999 ->
  num4 (digitChar (y / 1000)) (digitChar (y / 100 mod 10))
       (digitChar (y / 10 mod 10)) (digitChar (y mod 10)) = Some y.
Proof.
  intros H. unfold num4.
  replace (y / 1000) with (y / 100 / 10) by (Z.div_mod_to_equations; lia).
  rewrite (num2_build (y / 100)) by (Z.div_mod_to_equations; lia).
  replace (y / 10 mod 10) with (y mod 100 / 10) by (Z.div_mod_to_equations; lia).
  replace (y mod 10) with (y mod 100 mod 10) by (Z.div_mod_to_equations; lia).
  rewrite (num2_build (y mod 100)) by (Z.div_mod_to_equations; lia).
  cbn [mbind option_bind]. f_equal. Z.div_mod_to_equations; lia.
Qed.

Lemma pad2_digits k :
  0 <= k <= 99 ->
  list_ascii_of_string (GridMarks.pad2 k) = [digitChar (k / 10); digitChar (k mod 10)].
Proof.
  intros H.
  assert (A : Forall (fun k => list_ascii_of_string (GridMarks.pad2 k)
                               = [digitChar (k / 10); digitChar (k mod 10)]) (seqZ 0 100)).
  { apply (bool_decide_unpack _). vm_compute. exact I. }
  rewrite Forall_forall in A. apply A. apply elem_of_seqZ. lia.
Qed.

Lemma showZ_digits y :
  1000 <= y <= 9999 ->
  list_ascii_of_string (showZ y)
  = [digitChar (y / 1000); digitChar (y / 100 mod 10);
     digitChar (y / 10 mod 10); digitChar (y mod 10)].
Proof.
  intros H.
  assert (A : Forall (fun y => list_ascii_of_string (showZ y)
                               = [digitChar (y / 1000); digitChar (y / 100 mod 10);
                                  digitChar (y / 10 mod 10); digitChar (y mod 10)])
                (seqZ 1000 9000)).
  { apply (bool_decide_unpack _). vm_compute. exact I. }
  rewrite Forall_forall in A. apply A. apply elem_of_seqZ. lia.
Qed.

Lemma string_of_list_inj a b :
  list_ascii_of_string a = list_ascii_of_string b -> a = b.
Proof.
  intros H. rewrite <- (string_of_list_ascii_of_string a), H.
  apply string_of_list_ascii_of_string.
Qed.

Lemma dateString_chars y m d :
  1000 <= y <= 9999 -> 0 <= m <= 11 -> 0 <= d <= 99 ->
  list_ascii_of_string (GridMarks.dateString y m d)
  = [digitChar (y / 1000); digitChar (y / 100 mod 10); digitChar (y / 10 mod 10);
     digitChar (y mod 10); "-"%char; digitChar ((m + 1) / 10); digitChar ((m + 1) mod 10);
     "-"%char; digitChar (d / 10); digitChar (d mod 10)].
Proof.
  intros Hy Hm Hd. unfold GridMarks.dateString.
  rewrite !list_ascii_of_string_app, showZ_digits, !pad2_digits by lia. reflexivity.
Qed.

(** The date string of a grid cell names the date of the cell, and it is
    the only text of the form [YYYY-MM-DD] that does. *)
Lemma dateString_iff s y m d :
  1000 <= y <= 9999 -> 0 <= m <= 11 -> 1 <= d <= monthLength y m ->
  dateOfString s = Some (y, m + 1, d) <-> s = GridMarks.dateString y m d.
Proof.
  intros Hy Hm Hd. pose proof (monthLength_range y m) as R.
  unfold dateOfString. split.
  - destruct (parseYMD (list_ascii_of_string s)) as [[[[y' m'] d'] rest]|] eqn:E; [|discriminate].
    destruct rest; [|discriminate]. intros Eq. inversion Eq; subst.
    apply parseYMD_inv in E.
    destruct E as (y1 & y2 & y3 & y4 & m1 & m2 & d1 & d2 & El & Ey & Em & Ed & _ & _).
    apply string_of_list_inj. rewrite El, dateString_chars by lia.
    apply num4_digits in Ey. apply num2_digits in Em, Ed.
    destruct Em as [-> ->]. destruct Ed as [-> ->].
    injection Ey as -> -> -> ->. reflexivity.
  - intros ->. rewrite dateString_chars by lia.
    rewrite (parseYMD_build _ _ _ _ _ _ _ _ _ y (m + 1) d); [reflexivity| | | | |].
    + apply num4_build. lia.
    + apply num2_build. lia.
    + apply num2_build. lia.
    + lia.
    + rewrite DaysInMonth_monthLength by lia. replace (m + 1 - 1) with m by lia. lia.
Qed.

Lemma dated_not_inherited e :
  is_Some (dateOf e) -> Matcher.date e ∉ CalendarGrid.objectPrototypeKeys.
Proof.
  intros [v Hv] Hin. unfold dateOf in Hv.
  unfold CalendarGrid.objectPrototypeKeys in Hin.
  repeat (apply elem_of_cons in Hin; destruct Hin as [Hin|Hin];
          [rewrite Hin in Hv; vm_compute in Hv; discriminate|]).
  inversion Hin.
Qed.

(** X28: east of Greenwich the badge of a cell and the list shown when the
    cell is clicked agree: the events grouped under the cell's date string
    are exactly the events the day filter keeps for the selected day, in
    the same order. *)
Theorem badge_agrees_with_day_list tz events y m d :
  0 <= tz < msPerDay -> 1000 <= y <= 9999 -> 0 <= m <= 11 -> 1 <= d <= monthLength y m ->
  Forall (fun e => is_Some (dateOf e)) events ->
  exists byDate,
    CalendarGrid.eventsByDate events = Some byDate
    /\ default [] (byDate !! GridMarks.dateString y m d)
       = Matcher.filteredEvents tz events (Grid.selectDay tz y m d)
    /\ CalendarGrid.badge byDate y m d
       = length (Matcher.filteredEvents tz events (Grid.selectDay tz y m d)).
Proof.
  intros Htz Hy Hm Hd Hwf.
  destruct (groupStep_fold events ∅) as (byDate & E & L).
  { rewrite Forall_forall in Hwf |- *. intros e He. apply dated_not_inherited, Hwf, He. }
  exists byDate. split; [exact E|].
  assert (G : default [] (byDate !! GridMarks.dateString y m d)
              = Matcher.filteredEvents tz events (Grid.selectDay tz y m d)).
  { rewrite L, lookup_empty. cbn [default app].
    destruct (newDate3_civil tz ltac:(lia) y m d ltac:(lia) Hm Hd)
      as (t & Et & ED & Ev & EY & EM & EDt).
    pose proof (monthLength_range y m) as R.
    pose proof (MakeDay_range y m d ltac:(unfold yearInRange; lia) ltac:(lia) ltac:(lia)) as RD.
    assert (Sel : Grid.selectDay tz y m d = Some t).
    { unfold Grid.selectDay. rewrite Et, setHours_value, ED.
      rewrite TimeClip_ok; [f_equal; lia|].
      unfold msPerDay, msPerHour, msPerMinute in *. lia. }
    rewrite Sel.
    assert (Ht : clockInRange t).
    { pose proof (eventDay_range y (m + 1) d ltac:(lia) ltac:(lia)) as B.
      replace (m + 1 - 1) with m in B by lia. specialize (B Hd).
      pose proof (DayFromYear_mono 0 y ltac:(lia)) as Lo.
      change (DayFromYear 0) with (-719528) in Lo.
      assert (0 <= MakeDay y m d + 719528).
      { unfold MakeDay.
        assert (m / 12 = 0) as -> by (Z.div_mod_to_equations; lia).
        assert (m mod 12 = m) as -> by (Z.div_mod_to_equations; lia).
        replace (y + 0) with y by lia. fold (leapFlag y).
        pose proof (monthStart_step (leapFlag y) m (leapFlag_range y) Hm). lia. }
      unfold clockInRange. subst t. unfold msPerDay in *. lia. }
    rewrite (filteredEvents_zone tz t Ht events Hwf).
    assert (tz / msPerDay = 0) as -> by (unfold msPerDay in *; Z.div_mod_to_equations; lia).
    replace (t - 0 * msPerDay) with t by lia.
    unfold GridMarks.eventsByDate. apply filter_ext_elem_of. intros e He.
    unfold localDate, LocalTime. rewrite EY, EM, EDt.
    change (dateOf e) with (dateOfString (Matcher.date e)).
    symmetry. apply dateString_iff; assumption. }
  split; [exact G|]. unfold CalendarGrid.badge. now rewrite G.
Qed.

(** * The year inference of the parse flow *)

Lemma list_of_string_of_list l : list_ascii_of_string (string_of_list_ascii l) = l.
Proof. apply list_ascii_of_string_of_list_ascii. Qed.

(** X29: the year inference leaves a full [YYYY-MM-DD] date as it is,
    completes [MM-DD] with the current year and [YY-MM-DD] with the century
    20, and the completed text names the date meant whenever that date
    exists. *)
Theorem inferYear_completes_short_dates fullYear :
  1000 <= fullYear <= 9999 ->
  (forall s, is_Some (dateOfString s) -> App.inferYear fullYear s = s)
  /\ (forall a b c d mm dd,
        num2 a b = Some mm -> num2 c d = Some dd ->
        1 <= mm <= 12 -> 1 <= dd <= monthLength fullYear (mm - 1) ->
        dateOfString (App.inferYear fullYear (string_of_list_ascii [a; b; "-"%char; c; d]))
        = Some (fullYear, mm, dd))
  /\ (forall y1 y2 a b c d yy mm dd,
        num2 y1 y2 = Some yy -> num2 a b = Some mm -> num2 c d = Some dd ->
        1 <= mm <= 12 -> 1 <= dd <= monthLength (2000 + yy) (mm - 1) ->
        dateOfString
          (App.inferYear fullYear
             (string_of_list_ascii [y1; y2; "-"%char; a; b; "-"%char; c; d]))
        = Some (2000 + yy, mm, dd)).
Proof.
  intros Hy. split; [|split].
  - intros s [v Hv]. unfold dateOfString in Hv.
    destruct (parseYMD (list_ascii_of_string s)) as [[[[y' m'] d'] rest]|] eqn:E; [|discriminate].
    destruct rest; [|discriminate].
    apply parseYMD_inv in E.
    destruct E as (y1 & y2 & y3 & y4 & m1 & m2 & d1 & d2 & El & _).
    unfold App.inferYear. now rewrite El.
  - intros a b c d mm dd Em Ed Hm Hd.
    unfold App.inferYear. rewrite list_of_string_of_list.
    destruct (num2_inv _ _ _ Em) as (x1 & x2 & A & B & _).
    destruct (num2_inv _ _ _ Ed) as (x3 & x4 & C & D & _).
    rewrite (digitVal_isDigit _ _ A), (digitVal_isDigit _ _ B),
      (digitVal_isDigit _ _ C), (digitVal_isDigit _ _ D).
    change (Ascii.eqb "-" "-") with true. cbn [andb].
    unfold dateOfString. rewrite !list_ascii_of_string_app, showZ_digits by lia.
    rewrite list_of_string_of_list. cbn [list_ascii_of_string app].
    rewrite (parseYMD_build _ _ _ _ _ _ _ _ _ fullYear mm dd); auto.
    + apply num4_build. lia.
    + rewrite DaysInMonth_monthLength by lia. lia.
  - intros y1 y2 a b c d yy mm dd Ey Em Ed Hm Hd.
    unfold App.inferYear. rewrite list_of_string_of_list.
    destruct (num2_inv _ _ _ Ey) as (x5 & x6 & A0 & B0 & _).
    destruct (num2_inv _ _ _ Em) as (x1 & x2 & A & B & _).
    destruct (num2_inv _ _ _ Ed) as (x3 & x4 & C & D & _).
    rewrite (digitVal_isDigit _ _ A), (digitVal_isDigit _ _ B),
      (digitVal_isDigit _ _ C), (digitVal_isDigit _ _ D),
      (digitVal_isDigit _ _ A0), (digitVal_isDigit _ _ B0).
    change (Ascii.eqb "-" "-") with true. cbn [andb].
    unfold dateOfString. rewrite !list_ascii_of_string_app.
    rewrite list_of_string_of_list. cbn [list_ascii_of_string app].
    rewrite (parseYMD_build _ _ _ _ _ _ _ _ _ (2000 + yy) mm dd); auto.
    + unfold num4. change (num2 "2" "0") with (Some 20). rewrite Ey.
      cbn [mbind option_bind]. f_equal.
    + rewrite DaysInMonth_monthLength by lia. lia.
Qed.

Lemma toLowerCase_empty s : toLowerCase s = "" <-> s = "".
Proof. destruct s; cbn; split; intros H; try reflexivity; discriminate. Qed.

(** X6: for a label and location tags in ASCII, the suggestion depends on
    the label only up to letter case, and the suggested event is one of the
    events whose own tag is non-empty and equals the label up to letter
    case: an event without a tag is never suggested. *)
Theorem suggestion_matches_label_up_to_case tz now a b events :
  isAscii a = true -> isAscii b = true ->
  Forall (fun e => tagIsAscii e = true) events ->
  toLowerCase a = toLowerCase b ->
  Matcher.proactiveSuggestion tz now a events = Matcher.proactiveSuggestion tz now b events
  /\ forall e, Matcher.proactiveSuggestion tz now a events = Some e ->
       e ∈ events
       /\ exists tag, Matcher.locationType e = Some tag /\ tag <> ""
                      /\ isAscii tag = true
                      /\ toLowerCase tag = toLowerCase b.
Proof.
  intros _ _ Htags H. split.
  - unfold Matcher.proactiveSuggestion, Matcher.matchingUpcomingEvents.
    assert (Ee : String.eqb a "" = String.eqb b "").
    { destruct (String.eqb_spec a ""), (String.eqb_spec b ""); try reflexivity; exfalso.
      - subst a. symmetry in H. cbn in H. apply (proj1 (toLowerCase_empty b)) in H.
        contradiction.
      - subst b. cbn in H. apply (proj1 (toLowerCase_empty a)) in H. contradiction. }
    rewrite Ee. destruct (_ || _); [reflexivity|]. do 2 f_equal.
    apply filter_ext_elem_of. intros e _.
    unfold Matcher.isMatchingUpcoming, Matcher.locationMatches. now rewrite H.
  - intros e He. apply suggestion_from_filter in He. destruct He as (_ & Hin & Hloc & _).
    split; [exact Hin|]. unfold Matcher.locationMatches in Hloc.
    rewrite Forall_forall in Htags. specialize (Htags e Hin). unfold tagIsAscii in Htags.
    destruct (Matcher.locationType e) as [tag|]; [|discriminate].
    apply andb_prop in Hloc. destruct Hloc as [Hne Heq].
    exists tag. split; [reflexivity|]. split; [|split].
    + intros ->. discriminate.
    + exact Htags.
    + apply String.eqb_eq in Heq. congruence.
Qed.

(** * The claims at sample inputs *)

Import Examples.

(** C1, as stated, at the spec's own example: the delete is refused, and the
    move is never attempted. *)
Lemma rejected_delete_stops_the_move :
  let r := App.handleAcceptSuggestion firstRefused [deleteA; moveB] idle in
  Firestore.calls (App.db r) = [Firestore.deleteDoc "a"]
  /\ (Firestore.updateDoc "b" (App.timeOnly (Some "11:00")) ∉ Firestore.calls (App.db r))
  /\ Firestore.docs (App.db r) = Firestore.docs (App.db idle)
  /\ App.error r = "Failed to apply optimization: permission-denied".
Proof.
  cbv zeta. split; [vm_compute; reflexivity|]. split; [|split; vm_compute; reflexivity].
  replace (Firestore.calls _) with [Firestore.deleteDoc "a"] by (vm_compute; reflexivity).
  intros H. apply list_elem_of_singleton in H. discriminate.
Qed.

Lemma applier_stops_at_first_rejection_witness :
  App.ready idle = true
  /\ match App.applyChanges firstRefused [deleteA; moveB]
             (App.setError "" (App.setIsLoading true idle)) with
     | (s1, None) =>
         App.handleAcceptSuggestion firstRefused [deleteA; moveB] idle
         = App.setIsLoading false
             (App.setOptimizationInput "" (App.setOptimizedSuggestions None s1))
         /\ Firestore.calls (App.db s1)
            = Firestore.calls (App.db idle) ++ omap callOf [deleteA; moveB]
     | (s2, Some message) =>
         App.handleAcceptSuggestion firstRefused [deleteA; moveB] idle
         = App.setIsLoading false
             (App.setError ("Failed to apply optimization: " +:+ message) s2)
         /\ exists pre c post s1 call,
              [deleteA; moveB] = pre ++ c :: post
              /\ App.applyChanges firstRefused pre (App.setError "" (App.setIsLoading true idle))
                 = (s1, None)
              /\ callOf c = Some call
              /\ Firestore.calls (App.db s2)
                 = Firestore.calls (App.db idle) ++ omap callOf pre ++ [call]
              /\ Firestore.docs (App.db s2) = Firestore.docs (App.db s1)
     end.
Proof.
  split; [reflexivity|].
  apply (applier_stops_at_first_rejection firstRefused [deleteA; moveB] idle).
  reflexivity.
Defined.

Lemma malformed_change_is_skipped_witness :
  malformed moveNowhere = true
  /\ App.applyChanges allAccepted ([deleteA] ++ moveNowhere :: [moveB]) idle
     = App.applyChanges allAccepted [moveB]
         (App.warn moveNowhere (fst (App.applyChanges allAccepted [deleteA] idle))).
Proof.
  split; [reflexivity|].
  apply (proj2 (malformed_change_is_skipped allAccepted moveNowhere eq_refl)).
  reflexivity.
Defined.

Lemma move_changes_only_time_witness :
  Firestore.docs (App.db (fst (App.applyChange allAccepted moveB idle)))
  = alter (withTime "11:00") "b" (Firestore.docs (App.db idle)).
Proof.
  apply (proj1 (move_changes_only_time allAccepted moveB idle "b" "11:00"
                  eq_refl eq_refl eq_refl ltac:(discriminate) ltac:(discriminate))).
Defined.

Lemma retry_three_attempts_then_terminal_witness :
  exists s',
    App.parseLoop allAccepted Kolkata 1754300000000 3 1000
      [App.Rejected; App.NotOk 503; App.Rejected] 0 idle = (s', true)
    /\ App.fetches s' = (App.fetches idle + 3)%nat
    /\ App.waits s' = App.waits idle ++ [1000; 2 * 1000]
    /\ App.waits s' = App.waits idle ++ [backoff 1000 1; backoff 1000 2]
    /\ App.error s' = "Failed to get a valid response from LLM after 3 attempts. Please check your prompt or ensure your API key is correct and try again later."
    /\ App.trace s'
       = App.trace idle ++ [App.Request; App.Delay 1000; App.Request;
                            App.Delay (2 * 1000); App.Request].
Proof.
  apply (proj1 (retry_three_attempts_then_terminal allAccepted Kolkata 1754300000000 1000)).
  - repeat constructor.
  - cbn. lia.
Defined.

Lemma calendarDays_layout_witness :
  exists f n,
    Grid.getFirstDayOfMonth Kolkata 2025 7 = Some f /\
    Grid.getDaysInMonth Kolkata 2025 7 = Some n /\
    0 <= f <= 6 /\ 28 <= n <= 31 /\
    Grid.calendarDays Kolkata 2025 7 = replicate (Z.to_nat f) None ++ (Some <$> seqZ 1 n) /\
    Z.of_nat (length (Grid.calendarDays Kolkata 2025 7)) = f + n /\
    (forall d, 1 <= d <= n ->
       Grid.calendarDays Kolkata 2025 7 !! Z.to_nat (f + d - 1) = Some (Some d) /\
       getDay Kolkata (newDate3 Kolkata 2025 7 d) = Some ((f + d - 1) mod 7)) /\
    (forall (i : nat) d, Grid.calendarDays Kolkata 2025 7 !! i = Some (Some d) ->
       1 <= d <= n /\ i = Z.to_nat (f + d - 1)).
Proof.
  apply (calendarDays_layout Kolkata 2025 7); unfold yearInRange, msPerDay, Kolkata; lia.
Defined.

(** C9, on the code: an applied add suggestion with an empty title is stored
    as it is. *)
Theorem add_suggestion_stores_untitled_event :
  let r := App.handleAcceptSuggestion allAccepted [addUntitled] idle in
  App.error r = ""
  /\ allPersistable (App.db idle)
  /\ (exists id f, Firestore.docs (App.db r) !! id = Some f
                   /\ Firestore.docs (App.db idle) !! id = None
                   /\ Firestore.title f = Some ""
                   /\ persistable f = false)
  /\ ~ allPersistable (App.db r).
Proof.
  cbv zeta.
  assert (L : Firestore.docs (App.db (App.handleAcceptSuggestion allAccepted [addUntitled] idle))
              !! "0" = Some {| Firestore.title := Some ""; Firestore.date := Some "2025-08-05";
                               Firestore.time := Some "09:00"; Firestore.description := Some "";
                               Firestore.locationType := Some "" |})
    by (vm_compute; reflexivity).
  split; [vm_compute; reflexivity|]. split; [|split].
  - intros id f. unfold idle. cbn [App.db Firestore.docs]. intros H.
    apply lookup_insert_Some in H. destruct H as [[_ <-]|[_ H]]; [reflexivity|].
    apply lookup_insert_Some in H. destruct H as [[_ <-]|[_ H]]; [reflexivity|].
    rewrite lookup_empty in H. discriminate.
  - eexists "0", _. split; [exact L|]. repeat split.
  - intros H. specialize (H _ _ L). discriminate.
Qed.

(** C7, on the code: west of Greenwich a matching event at 14:00 today is
    not suggested at 13:00; east of Greenwich it is, and at 15:00 it is
    excluded in both zones. *)
Theorem same_day_event_is_missed_west_of_Greenwich :
  dateOf standup = Some (2025, 8, 4) /\ timeOf standup = Some (14, 0)
  /\ Matcher.locationMatches "office" standup = true
  /\ Matcher.isMatchingUpcoming Bogota (localInstant Bogota 2025 8 4 13 0) "office" standup
     = false
  /\ Matcher.proactiveSuggestion Bogota (localInstant Bogota 2025 8 4 13 0) "office" [standup]
     = None
  /\ Matcher.proactiveSuggestion Kolkata (localInstant Kolkata 2025 8 4 13 0) "office" [standup]
     = Some standup
  /\ Matcher.proactiveSuggestion Bogota (localInstant Bogota 2025 8 4 15 0) "office" [standup]
     = None
  /\ Matcher.proactiveSuggestion Kolkata (localInstant Kolkata 2025 8 4 15 0) "office" [standup]
     = None.
Proof. repeat split; vm_compute; reflexivity. Qed.

(** C5, on the code: west of Greenwich the day filter shows an event of
    4 August under 3 August and not under 4 August, although the grid marks
    the cell of 4 August as the one that has the event. *)
Theorem day_filter_is_a_day_off_west_of_Greenwich :
  dateOf standup = Some (2025, 8, 4)
  /\ localDate Bogota (default 0 (Grid.selectDay Bogota 2025 7 4)) = (2025, 8, 4)
  /\ Matcher.filteredEvents Bogota [standup] (Grid.selectDay Bogota 2025 7 4) = []
  /\ GridMarks.hasEvents [standup] 2025 7 4 = true
  /\ localDate Bogota (default 0 (Grid.selectDay Bogota 2025 7 3)) = (2025, 8, 3)
  /\ Matcher.filteredEvents Bogota [standup] (Grid.selectDay Bogota 2025 7 3) = [standup]
  /\ GridMarks.hasEvents [standup] 2025 7 3 = false
  /\ Matcher.filteredEvents Kolkata [standup] (Grid.selectDay Kolkata 2025 7 4) = [standup].
Proof. repeat split; vm_compute; reflexivity. Qed.

(** C4, on the code: west of Greenwich the suggestion is not the earliest
    upcoming match. *)
Theorem suggestion_is_not_the_earliest_west_of_Greenwich :
  let now := localInstant Bogota 2025 8 4 13 0 in
  Matcher.proactiveSuggestion Bogota now "office" [standup; review] = Some review
  /\ Matcher.locationMatches "office" standup = true
  /\ Matcher.timestamp Bogota standup = Some (localInstant Bogota 2025 8 4 14 0)
  /\ Matcher.timestamp Bogota review = Some (localInstant Bogota 2025 8 6 9 0)
  /\ now < localInstant Bogota 2025 8 4 14 0 < localInstant Bogota 2025 8 6 9 0.
Proof. cbv zeta. repeat split; vm_compute; reflexivity. Qed.

(** * The properties at sample inputs *)

Import Samples.

Lemma idle_persistable : allPersistable (App.db idle).
Proof.
  intros id f. unfold idle. cbn [App.db Firestore.docs]. intros H.
  apply lookup_insert_Some in H. destruct H as [[_ <-]|[_ H]]; [reflexivity|].
  apply lookup_insert_Some in H. destruct H as [[_ <-]|[_ H]]; [reflexivity|].
  rewrite lookup_empty in H. discriminate.
Qed.

Lemma standup_review_wellFormed : Forall wellFormed [standup; review].
Proof.
  apply Forall_cons. split; [split; eexists; reflexivity|].
  apply Forall_cons. split; [split; eexists; reflexivity|]. apply Forall_nil_2.
Qed.

Lemma standup_review_dated : Forall (fun e => is_Some (dateOf e)) [standup; review].
Proof.
  apply Forall_cons. split; [eexists; reflexivity|].
  apply Forall_cons. split; [eexists; reflexivity|]. apply Forall_nil_2.
Qed.

Ltac zone := unfold msPerDay, Kolkata, Bogota; lia.
Ltac clock := unfold clockInRange; vm_compute; discriminate.




Lemma filteredEvents_east_witness :
  Matcher.filteredEvents Kolkata [standup; review] (Some kolkataAfternoon)
  = filter (fun e => dateOf e = Some (localDate Kolkata kolkataAfternoon)) [standup; review].
Proof.
  apply (filteredEvents_east Kolkata kolkataAfternoon [standup; review]
           ltac:(zone) ltac:(clock) standup_review_dated).
Defined.

Lemma filteredEvents_west_witness :
  Matcher.filteredEvents Bogota [standup; review] (Some bogotaAfternoon)
  = filter (fun e => dateOf e = Some (localDate Bogota (bogotaAfternoon + msPerDay)))
      [standup; review].
Proof.
  apply (filteredEvents_west Bogota bogotaAfternoon [standup; review]
           ltac:(zone) ltac:(clock) standup_review_dated).
Defined.

Lemma suggestion_matches_label_up_to_case_witness :
  Matcher.proactiveSuggestion Kolkata kolkataAfternoon "OFFICE" [standup; review]
  = Matcher.proactiveSuggestion Kolkata kolkataAfternoon "office" [standup; review].
Proof.
  apply (proj1 (suggestion_matches_label_up_to_case Kolkata kolkataAfternoon
                  "OFFICE" "office" [standup; review] eq_refl eq_refl
                  ltac:(repeat constructor) eq_refl)).
Defined.

Lemma snapshot_sorts_by_timestamp_witness :
  StronglySorted
    (fun a b => num_le (Matcher.timestamp Bogota a) (Matcher.timestamp Bogota b) = true)
    (AppStore.onSnapshot Bogota [review; standup]).
Proof.
  apply (proj1 (snapshot_sorts_by_timestamp Bogota ltac:(zone) [review; standup]
                  ltac:(apply Forall_cons; split; [split; eexists; reflexivity|];
                        apply Forall_cons; split; [split; eexists; reflexivity|];
                        apply Forall_nil_2))).
Defined.

Lemma suggestion_on_sorted_events_witness :
  Matcher.proactiveSuggestion Kolkata kolkataAfternoon "office"
    (AppStore.onSnapshot Kolkata [standup; review])
  = head (filter (fun e => Matcher.isMatchingUpcoming Kolkata kolkataAfternoon "office" e = true)
            (AppStore.onSnapshot Kolkata [standup; review])).
Proof.
  apply (proj2 (suggestion_on_sorted_events Kolkata ltac:(zone) kolkataAfternoon "office"
                  [standup; review] standup_review_wellFormed)).
  discriminate.
Defined.

Lemma delete_removes_only_that_event_witness :
  Firestore.docs (App.db (AppStore.handleDeleteEvent allAccepted "a" idle)) !! "a" = None
  /\ Firestore.docs (App.db (AppStore.handleDeleteEvent allAccepted "a" idle)) !! "b"
     = Some deepWork.
Proof.
  pose proof (delete_removes_only_that_event allAccepted "a" idle eq_refl) as H.
  cbv zeta in H. destruct H as (_ & Frame & Gone & _).
  split; [exact Gone|]. rewrite (Frame "b") by discriminate. reflexivity.
Defined.

Lemma no_write_before_sign_in_witness :
  App.db (App.handleAcceptSuggestion allAccepted [deleteA; moveB] signedOut)
  = App.db signedOut.
Proof.
  apply (no_write_before_sign_in allAccepted signedOut eq_refl "a" [deleteA; moveB]).
Defined.

Lemma update_replaces_the_event_witness :
  Firestore.docs (App.db (App.handleUpdateEvent allAccepted editing)) !! "a"
  = Some (formFields (App.editFormData editing))
  /\ Firestore.time (formFields (App.editFormData editing)) = Some "11:30".
Proof.
  split; [|reflexivity].
  apply (update_replaces_the_event allAccepted editing (eventOf "a" meeting) meeting);
    try reflexivity; discriminate.
Defined.

Lemma update_needs_title_date_time_witness :
  App.db (App.handleUpdateEvent allAccepted idle) = App.db idle
  /\ App.error (App.handleUpdateEvent allAccepted idle) <> "".
Proof.
  pose proof (update_needs_title_date_time allAccepted idle (or_introl eq_refl)) as H.
  cbv zeta in H. destruct H as (D & _ & _ & E). split; assumption.
Defined.


Lemma handleUpdateEvent_persistable_witness :
  allPersistable (App.db (App.handleUpdateEvent allAccepted editing)).
Proof.
  apply (handleUpdateEvent_persistable allAccepted editing). exact idle_persistable.
Defined.

Lemma busy_flags_are_released_witness :
  App.isLoading (App.handleUpdateEvent allAccepted editing) = false
  /\ forall changes, App.isLoading (App.handleAcceptSuggestion allAccepted changes editing)
                     = false.
Proof.
  pose proof (busy_flags_are_released allAccepted Kolkata kolkataAfternoon 3 1000 editing
                ltac:(lia) eq_refl eq_refl) as (_ & _ & _ & U & A).
  split; assumption.
Defined.

Lemma parse_flow_keeps_events_persistable_witness :
  allPersistable
    (App.db (fst (App.handleParseEvent allAccepted Kolkata kolkataAfternoon 3 1000
                    (Some "key") [App.Rejected; App.Candidate (App.Json lunch)] idle))).
Proof.
  apply (parse_flow_keeps_events_persistable allAccepted Kolkata kolkataAfternoon 3 1000
           (Some "key") [App.Rejected; App.Candidate (App.Json lunch)] idle).
  exact idle_persistable.
Defined.



Lemma applier_keeps_events_persistable_witness :
  allPersistable (App.db (App.handleAcceptSuggestion allAccepted [deleteA; moveB] idle)).
Proof.
  apply (applier_keeps_events_persistable allAccepted [deleteA; moveB] idle).
  - repeat constructor.
  - exact idle_persistable.
Defined.

Lemma month_navigation_round_trip_witness :
  CalendarGrid.goToPreviousMonth (CalendarGrid.goToNextMonth august) = august
  /\ CalendarGrid.goToNextMonth (CalendarGrid.goToPreviousMonth august) = august.
Proof.
  pose proof (month_navigation_round_trip august ltac:(cbn; lia)) as H.
  cbv zeta in H. destruct H as (A & B & _). split; assumption.
Defined.

Lemma next_month_starts_after_this_one_witness :
  Grid.getFirstDayOfMonth Kolkata 2025 8 = Some ((5 + 31) mod 7).
Proof.
  apply (next_month_starts_after_this_one Kolkata august 5 31); try (cbn; lia);
    try zone; vm_compute; reflexivity.
Defined.

Lemma clicked_day_is_selected_witness :
  CalendarGrid.isSelected Bogota
    (CalendarGrid.handleDayClick Bogota (Some 4) august) (Some 4) = true.
Proof.
  apply (proj1 (proj2 (clicked_day_is_selected Bogota ltac:(zone) august 4
                         ltac:(cbn; lia) ltac:(cbn; lia)
                         ltac:(vm_compute; split; discriminate)))).
  reflexivity.
Defined.

Lemma month_grid_is_zone_independent_witness :
  Grid.calendarDays Kolkata 2025 7 = Grid.calendarDays Bogota 2025 7.
Proof.
  apply (month_grid_is_zone_independent Kolkata Bogota 2025 7); try zone; lia.
Defined.

Lemma badge_agrees_with_day_list_witness :
  exists byDate,
    CalendarGrid.eventsByDate [standup; review] = Some byDate
    /\ default [] (byDate !! GridMarks.dateString 2025 7 4)
       = Matcher.filteredEvents Kolkata [standup; review] (Grid.selectDay Kolkata 2025 7 4)
    /\ CalendarGrid.badge byDate 2025 7 4
       = length (Matcher.filteredEvents Kolkata [standup; review]
                   (Grid.selectDay Kolkata 2025 7 4)).
Proof.
  apply (badge_agrees_with_day_list Kolkata [standup; review] 2025 7 4); try zone; try lia.
  - vm_compute. split; discriminate.
  - exact standup_review_dated.
Defined.

Lemma inferYear_completes_short_dates_witness :
  dateOfString (App.inferYear 2025 "08-05") = Some (2025, 8, 5).
Proof.
  apply (proj1 (proj2 (inferYear_completes_short_dates 2025 ltac:(lia)))
           "0"%char "8"%char "0"%char "5"%char 8 5); try reflexivity; try lia.
  vm_compute. split; discriminate.
Defined.
